(** * nexus-ai: the schema initializer, [src/core/database.py]

    A shallow embedding of [initialize_database] and of the command-line
    script [scripts/initialize_database.py], with the part of their
    environment they act on: the directory tree below the working
    directory, SQLite database files, sqlite3 connections, the standard
    output.

    The program is a straight line of library calls, so it is written in a
    small state-and-exception monad over that environment.  A raised
    exception keeps the environment as it was at the raise, as in Python.

    What is taken from the libraries, not from the repository:
    - [os.makedirs] follows the text of CPython's os.py, on path names in
      resolved form;
    - the engine follows the SQLite documentation for CREATE TABLE
      IF NOT EXISTS, column defaults, NOT NULL, AUTOINCREMENT and foreign
      keys (off unless the connection asks for them);
    - the sqlite3 module opens no transaction before a CREATE TABLE, so
      each one is written when it is executed and [commit] finds nothing
      pending.

    What the environment stands for:
    - a regular file is readable and writable by the process; permission
      is that of a directory, to create entries in it;
    - a database file is in the engine's default journal mode, the rollback
      journal (DELETE), which is also the mode of the files the program
      makes; a database that was switched to write-ahead logging is not
      among the files of the model;
    - the engine's own files beside a database file ([sidecars]: the
      journal, the write-ahead log and its index) exist within a statement
      only and are not in the tree; a stale one, left by a writer that
      crashed, is replayed or deleted by the engine when it first reads the
      database, which the model does not follow; [no_sidecars] says that
      none is there;
    - table and column names are held case-folded, as the engine matches
      them without regard to case.

    Layout: the SQL data model and the engine's statements; the directory
    tree and [os.makedirs]; the sqlite3 connection calls; the program and
    the script; the notions the properties are stated with; the
    properties, C1 to C10, each after the lemmas it needs, and further
    properties of the same code, X1 to X15. *)

From Stdlib Require Import ZArith String Ascii List Bool Lia.
From stdpp Require Import base option list gmap strings.

Local Open Scope Z_scope.
Local Open Scope string_scope.
Local Open Scope list_scope.

(** ** SQL values and table declarations *)

(** The storage classes of SQLite.  A REAL is kept as the bit pattern of its
    IEEE double: no arithmetic is done on it here.  Rows hold values in
    stored form, that is, after the column's type affinity was applied. *)
Inductive value :=
  | VNull
  | VInt (n : Z)
  | VReal (bits : Z)
  | VText (s : string)
  | VBlob (b : list Z).

#[global] Instance value_eq_dec : EqDecision value.
Proof. solve_decision. Defined.

(** What may follow DEFAULT in the declarations of the source. *)
Inductive default_expr :=
  | Literal (v : value)
  | CURRENT_TIMESTAMP.

(** The column constraints the source uses. *)
Inductive col_constraint :=
  | PRIMARY_KEY_AUTOINCREMENT
  | NOT_NULL
  | DEFAULT (e : default_expr).

Record column_def := Col {
  col_name : string;
  col_type : string;
  col_constraints : list col_constraint
}.

(** [FOREIGN KEY(col) REFERENCES ref_table(ref_col)]: no ON DELETE or
    ON UPDATE clause, so the action is the engine's NO ACTION. *)
Inductive table_constraint :=
  | FOREIGN_KEY (col : string) (ref_table : string) (ref_col : string).

Definition is_pk (c : col_constraint) : bool :=
  match c with PRIMARY_KEY_AUTOINCREMENT => true | _ => false end.

Definition is_not_null (c : col_constraint) : bool :=
  match c with NOT_NULL => true | _ => false end.

Definition col_autoinc (c : column_def) : bool :=
  existsb is_pk (col_constraints c).

Definition col_notnull (c : column_def) : bool :=
  existsb is_not_null (col_constraints c).

Fixpoint first_default (cs : list col_constraint) : option default_expr :=
  match cs with
  | [] => None
  | DEFAULT e :: _ => Some e
  | _ :: rest => first_default rest
  end.

Definition col_default (c : column_def) : option default_expr :=
  first_default (col_constraints c).

(** ** Rows, tables, databases *)

(** A row: its rowid and the values of the columns other than the
    INTEGER PRIMARY KEY column, which is an alias of the rowid. *)
Record row := Row {
  rowid : Z;
  cells : gmap string value
}.

Record table := Table {
  tbl_cols : list column_def;
  tbl_cons : list table_constraint;
  tbl_rows : list row
}.

(** The schema objects that share the name space of tables. *)
Inductive object :=
  | ObjTable (t : table)
  | ObjIndex (on : string)
  | ObjView.

#[global] Instance default_expr_eq_dec : EqDecision default_expr.
Proof. solve_decision. Defined.

#[global] Instance col_constraint_eq_dec : EqDecision col_constraint.
Proof. solve_decision. Defined.

#[global] Instance column_def_eq_dec : EqDecision column_def.
Proof. solve_decision. Defined.

#[global] Instance table_constraint_eq_dec : EqDecision table_constraint.
Proof. solve_decision. Defined.

#[global] Instance row_eq_dec : EqDecision row.
Proof. solve_decision. Defined.

#[global] Instance table_eq_dec : EqDecision table.
Proof. solve_decision. Defined.

#[global] Instance object_eq_dec : EqDecision object.
Proof. solve_decision. Defined.

(** A database image: the catalogue, keyed by the (case-folded) object
    name, and the engine's AUTOINCREMENT counters, which SQLite keeps in its
    internal table [sqlite_sequence]; a table without an entry counts as 0. *)
Record database := Database {
  objects : gmap string object;
  sqlite_sequence : gmap string Z
}.

Definition empty_db : database := Database ∅ ∅.

Definition MAX_ROWID : Z := 9223372036854775807.

(** The column declared INTEGER PRIMARY KEY AUTOINCREMENT, when there is
    one. *)
Definition rowid_alias (t : table) : option column_def :=
  find col_autoinc (tbl_cols t).

Definition tbl_autoinc (t : table) : bool :=
  existsb col_autoinc (tbl_cols t).

(** Names are case-folded, so equal names are equal strings. *)
Definition has_column (t : table) (name : string) : bool :=
  existsb (fun c => String.eqb (col_name c) name) (tbl_cols t).

(** Case folding, as the engine does it: the letters A to Z of ASCII. *)
Definition fold_ascii (a : ascii) : ascii :=
  let n := nat_of_ascii a in
  if ((65 <=? n) && (n <=? 90))%nat then ascii_of_nat (n + 32) else a.

Fixpoint fold_name (s : string) : string :=
  match s with
  | EmptyString => EmptyString
  | String a rest => String (fold_ascii a) (fold_name rest)
  end.

(** The value of column [name] in row [r] of table [t]. *)
Definition column_value (t : table) (r : row) (name : string) : value :=
  match rowid_alias t with
  | Some a =>
      if String.eqb (col_name a) name then VInt (rowid r)
      else default VNull (cells r !! name)
  | None => default VNull (cells r !! name)
  end.

Fixpoint max_rowid (rs : list row) : option Z :=
  match rs with
  | [] => None
  | r :: rest =>
      match max_rowid rest with
      | None => Some (rowid r)
      | Some m => Some (Z.max (rowid r) m)
      end
  end.

Definition has_rowid (rs : list row) (i : Z) : bool :=
  existsb (fun r => Z.eqb (rowid r) i) rs.

(** ** Statements *)

(** [INSERT_INTO name vals] is INSERT INTO name (columns) VALUES (values),
    with [vals] the value given to each column the statement lists.  The
    engine matches column names without regard to case and takes the first
    value when a column is listed twice; [vals] is keyed by the
    case-folded name and has that first value.  [DELETE_FROM name id] is
    DELETE FROM name WHERE rowid = id. *)
Inductive stmt :=
  | CREATE_TABLE (if_not_exists : bool) (name : string)
                 (cols : list column_def) (fks : list table_constraint)
  | INSERT_INTO (name : string) (vals : gmap string value)
  | DELETE_FROM (name : string) (id : Z)
  | PRAGMA_foreign_keys (on : bool).

(** The Python exceptions the calls of the program can raise. *)
Inductive exn :=
  | FileNotFoundError
  | FileExistsError
  | NotADirectoryError
  | PermissionError
  | OperationalError (msg : string)
  | DatabaseError (msg : string)
  | IntegrityError (msg : string)
  | ProgrammingError (msg : string).

Definition is_OSError (e : exn) : bool :=
  match e with
  | FileNotFoundError | FileExistsError | NotADirectoryError
  | PermissionError => true
  | _ => false
  end.

(** Result of one statement on a database image: the new image and the
    rowid of the inserted row, if a row was inserted. *)
Definition stmt_result : Type := exn + (database * option Z).

(** ** The engine: CREATE TABLE *)

Definition is_integer_pk_ok (c : column_def) : bool :=
  negb (col_autoinc c) || String.eqb (col_type c) "INTEGER".

Definition fk_column_known (cols : list column_def) (k : table_constraint) : bool :=
  match k with
  | FOREIGN_KEY col _ _ => existsb (fun c => String.eqb (col_name c) col) cols
  end.

(** What the engine checks in a table declaration: column names are
    distinct, at most one primary key, AUTOINCREMENT only on an INTEGER
    column, the child column of a foreign key is a column of the table. *)
Definition well_formed_decl (cols : list column_def)
    (fks : list table_constraint) : bool :=
  bool_decide (NoDup (map col_name cols))
  && (length (List.filter col_autoinc cols) <=? 1)%nat
  && forallb is_integer_pk_ok cols
  && forallb (fk_column_known cols) fks.

(** CREATE TABLE [IF NOT EXISTS].  With IF NOT EXISTS a table or a view of
    that name makes the statement a no-op, whatever its shape; an index of
    that name is an error all the same.  A declaration the engine does not
    accept gets one message here, where the engine has one for each
    defect. *)
Definition exec_create (if_not_exists : bool) (name : string)
    (cols : list column_def) (fks : list table_constraint)
    (d : database) : stmt_result :=
  match objects d !! name with
  | Some (ObjIndex _) =>
      inl (OperationalError ("there is already an index named " +:+ name))
  | Some o =>
      if if_not_exists then inr (d, None)
      else inl (OperationalError
                  ((match o with ObjView => "view " | _ => "table " end)
                   +:+ name +:+ " already exists"))
  | None =>
      if well_formed_decl cols fks then
        inr (Database (<[name := ObjTable (Table cols fks [])]> (objects d))
                      (sqlite_sequence d), None)
      else inl (OperationalError "malformed table declaration")
  end.

(** ** The engine: INSERT *)

Definition eval_default (now : string) (e : option default_expr) : value :=
  match e with
  | None => VNull
  | Some (Literal v) => v
  | Some CURRENT_TIMESTAMP => VText now
  end.

(** The value stored for column [c]: the supplied one, else the default. *)
Definition cell_of (now : string) (vals : gmap string value)
    (c : column_def) : value :=
  match vals !! col_name c with
  | Some v => v
  | None => eval_default now (col_default c)
  end.

Definition new_cells (now : string) (vals : gmap string value)
    (t : table) : gmap string value :=
  list_to_map
    (map (fun c => (col_name c, cell_of now vals c))
         (List.filter (fun c => negb (col_autoinc c)) (tbl_cols t))).

Inductive rowid_request :=
  | Auto
  | Explicit (i : Z)
  | Mismatch.

(** A value for the INTEGER PRIMARY KEY column asks for that rowid; NULL
    or no value asks the engine to choose. *)
Definition requested_rowid (t : table) (vals : gmap string value)
    : rowid_request :=
  match rowid_alias t with
  | None => Auto
  | Some a =>
      match vals !! col_name a with
      | None | Some VNull => Auto
      | Some (VInt i) => Explicit i
      | Some _ => Mismatch
      end
  end.

Definition seq_of (d : database) (name : string) : Z :=
  default 0 (sqlite_sequence d !! name).

(** The largest rowid the engine has to stay above: with AUTOINCREMENT the
    larger of the counter and the largest rowid in the table, without it
    the largest rowid in the table. *)
Definition rowid_floor (autoinc : bool) (seq : Z) (rs : list row) : Z :=
  let m := default 0 (max_rowid rs) in
  if autoinc then Z.max m seq else m.

(** The rowid chosen by the engine; none is left above [MAX_ROWID]
    (SQLITE_FULL: an AUTOINCREMENT table never goes back to a smaller
    one). *)
Definition next_rowid (autoinc : bool) (seq : Z) (rs : list row) : option Z :=
  let f := rowid_floor autoinc seq rs in
  if (MAX_ROWID <=? f)%Z then None else Some (f + 1).

Definition is_null (v : value) : bool :=
  match v with VNull => true | _ => false end.

Definition not_null_ok (now : string) (vals : gmap string value)
    (c : column_def) : bool :=
  col_autoinc c || negb (col_notnull c) || negb (is_null (cell_of now vals c)).

Definition keys_known (t : table) (vals : gmap string value) : bool :=
  forallb (fun kv => has_column t (fst kv)) (map_to_list vals).

(** A name among the keys of [vals] that is no column of [t]: the engine
    names the first one of the statement, of which the map keeps no
    trace. *)
Definition unknown_column (t : table) (vals : gmap string value) : string :=
  default "" (fst <$> find (fun kv => negb (has_column t (fst kv)))
                           (map_to_list vals)).

(** The first column, in the order of the declaration, whose NOT NULL
    constraint the new row breaks. *)
Definition null_column (now : string) (vals : gmap string value)
    (t : table) : string :=
  default "" (col_name <$> find (fun c => negb (not_null_ok now vals c))
                                (tbl_cols t)).

(** The message of an object that is no table. *)
Definition not_a_table (name : string) (o : object) : exn :=
  match o with
  | ObjView =>
      OperationalError ("cannot modify " +:+ name +:+ " because it is a view")
  | _ => OperationalError ("no such table: " +:+ name)
  end.

(** Does row [r] of table [t] satisfy the foreign key [k] in [d]? *)
Definition fk_holds (d : database) (t : table) (r : row)
    (k : table_constraint) : bool :=
  match k with
  | FOREIGN_KEY col pt pc =>
      match column_value t r col with
      | VNull => true
      | v =>
          match objects d !! pt with
          | Some (ObjTable p) =>
              existsb (fun pr => bool_decide (column_value p pr pc = v))
                      (tbl_rows p)
          | _ => false
          end
      end
  end.

Definition bump_sequence (t : table) (name : string) (id : Z)
    (d : database) : gmap string Z :=
  if tbl_autoinc t
  then <[name := Z.max (seq_of d name) id]> (sqlite_sequence d)
  else sqlite_sequence d.

(** INSERT INTO name (the keys of vals) VALUES (their values), on a
    connection whose foreign_keys pragma is [fk], at clock reading [now].
    The engine checks in this order: the column names, the rowid, NOT NULL,
    the uniqueness of the rowid, the foreign keys. *)
Definition exec_insert (fk : bool) (now : string) (name : string)
    (vals : gmap string value) (d : database) : stmt_result :=
  match objects d !! name with
  | Some (ObjTable t) =>
      if negb (keys_known t vals) then
        inl (OperationalError ("table " +:+ name +:+ " has no column named "
                               +:+ unknown_column t vals))
      else
        let chosen :=
          match requested_rowid t vals with
          | Auto =>
              match next_rowid (tbl_autoinc t) (seq_of d name)
                               (tbl_rows t) with
              | Some i => inr i
              | None => inl (OperationalError "database or disk is full")
              end
          | Explicit i => inr i
          | Mismatch => inl (IntegrityError "datatype mismatch")
          end in
        let clash :=
          match requested_rowid t vals with
          | Explicit i => has_rowid (tbl_rows t) i
          | _ => false
          end in
        match chosen with
        | inl e => inl e
        | inr id =>
            if negb (forallb (not_null_ok now vals) (tbl_cols t)) then
              inl (IntegrityError ("NOT NULL constraint failed: " +:+ name
                                   +:+ "." +:+ null_column now vals t))
            else if clash then
              inl (IntegrityError
                     ("UNIQUE constraint failed: " +:+ name +:+ "."
                      +:+ default "rowid" (col_name <$> rowid_alias t)))
            else
              let r := Row id (new_cells now vals t) in
              let t' := Table (tbl_cols t) (tbl_cons t) (tbl_rows t ++ [r]) in
              let d' := Database (<[name := ObjTable t']> (objects d))
                                 (bump_sequence t name id d) in
              if fk && negb (forallb (fk_holds d' t' r) (tbl_cons t)) then
                inl (IntegrityError "FOREIGN KEY constraint failed")
              else inr (d', Some id)
        end
  | Some o => inl (not_a_table name o)
  | None => inl (OperationalError ("no such table: " +:+ name))
  end.

(** ** The engine: DELETE *)

(** Does some row of table [c] refer, through a foreign key on table
    [name], to row [r] of that table [t]? *)
Definition refers_to (name : string) (t : table) (r : row) (c : table) : bool :=
  existsb
    (fun k =>
       match k with
       | FOREIGN_KEY col pt pc =>
           String.eqb pt name
           && existsb
                (fun cr =>
                   negb (is_null (column_value c cr col))
                   && bool_decide (column_value c cr col = column_value t r pc))
                (tbl_rows c)
       end)
    (tbl_cons c).

Definition referenced (d : database) (name : string) (t : table)
    (r : row) : bool :=
  existsb
    (fun no =>
       match snd no with
       | ObjTable c => refers_to name t r c
       | _ => false
       end)
    (map_to_list (objects d)).

(** DELETE FROM name WHERE rowid = id.  The counters are not touched.  With
    the foreign_keys pragma on, a row that is still referred to is not
    deleted (NO ACTION); there is no cascade in either case. *)
Definition exec_delete (fk : bool) (name : string) (id : Z)
    (d : database) : stmt_result :=
  match objects d !! name with
  | Some (ObjTable t) =>
      let keep := List.filter (fun r => negb (Z.eqb (rowid r) id)) (tbl_rows t) in
      let t' := Table (tbl_cols t) (tbl_cons t) keep in
      let d' := Database (<[name := ObjTable t']> (objects d))
                         (sqlite_sequence d) in
      if fk && existsb (fun r => Z.eqb (rowid r) id && referenced d' name t r)
                       (tbl_rows t)
      then inl (IntegrityError "FOREIGN KEY constraint failed")
      else inr (d', None)
  | Some o => inl (not_a_table name o)
  | None => inl (OperationalError ("no such table: " +:+ name))
  end.

Definition exec_stmt (fk : bool) (now : string) (s : stmt)
    (d : database) : stmt_result :=
  match s with
  | CREATE_TABLE ine name cols fks => exec_create ine name cols fks d
  | INSERT_INTO name vals => exec_insert fk now name vals d
  | DELETE_FROM name id => exec_delete fk name id d
  | PRAGMA_foreign_keys _ => inr (d, None)
  end.

(** Does the statement go on to write the file?  A CREATE TABLE whose name
    is taken does not, nor does a statement the engine rejects when it
    compiles it.  (In the rollback-journal mode of the files here, reading
    writes nothing beside the file.) *)
Definition needs_write (s : stmt) (d : database) : bool :=
  match s with
  | CREATE_TABLE _ name _ _ => bool_decide (objects d !! name = None)
  | INSERT_INTO name _ | DELETE_FROM name _ =>
      match objects d !! name with
      | Some (ObjTable _) => true
      | _ => false
      end
  | PRAGMA_foreign_keys _ => false
  end.

(** ** The directory tree *)

(** What a regular file holds.  [Db d]: a database image, in the
    rollback-journal mode; a file of less than two bytes is the empty
    database to the engine, which overwrites it.  [Garbage]: two bytes or
    more that do not begin with the header of a database, on which the
    engine raises "file is not a database". *)
Inductive content :=
  | Garbage
  | Db (d : database).

(** Regular files are readable and writable by the process; permission is
    modelled on directories, as the right to create entries in them. *)
#[warnings="-register-all"]
Inductive node :=
  | File (c : content)
  | Dir (writable : bool) (entries : gmap string node).

(** A path name in resolved form: its components below the working
    directory of the process (no empty, "." or ".." component, no symbolic
    link).  The empty list is the empty string, which names no file. *)
Definition path : Type := list string.

(** Walk [p] down from [n], with the error the kernel gives when it
    cannot: ENOENT for a missing component, ENOTDIR below a regular
    file. *)
Fixpoint resolve (n : node) (p : path) : exn + node :=
  match p with
  | [] => inr n
  | x :: rest =>
      match n with
      | Dir _ es =>
          match es !! x with
          | Some c => resolve c rest
          | None => inl FileNotFoundError
          end
      | File _ => inl NotADirectoryError
      end
  end.

(** Put [new] at [p] below [n], replacing what is there; the directories
    above [p] must exist (nothing changes otherwise). *)
Fixpoint store (n : node) (p : path) (new : node) : node :=
  match p with
  | [] => new
  | x :: rest =>
      match n with
      | Dir w es =>
          match es !! x with
          | Some c => Dir w (<[x := store c rest new]> es)
          | None =>
              match rest with
              | [] => Dir w (<[x := new]> es)
              | _ => n
              end
          end
      | File _ => n
      end
  end.

Definition exists_at (n : node) (name : path) : bool :=
  match name with
  | [] => false
  | _ => match resolve n name with inr _ => true | inl _ => false end
  end.

Definition isdir_at (n : node) (name : path) : bool :=
  match name with
  | [] => false
  | _ => match resolve n name with inr (Dir _ _) => true | _ => false end
  end.

(** May the process create entries in the directory at [p]? *)
Definition dir_writable (n : node) (p : path) : bool :=
  match resolve n p with inr (Dir true _) => true | _ => false end.

(** The database image in the regular file at [p], if there is one. *)
Definition db_at (n : node) (p : path) : option database :=
  match resolve n p with inr (File (Db d)) => Some d | _ => None end.

(** os.path.dirname and the last component, on resolved names. *)
Definition os_path_dirname (name : path) : path := removelast name.

Definition basename (name : path) : string := List.last name "".

(** The engine's own files beside the database file at [p]: the rollback
    journal, the write-ahead log and the index of the log. *)
Definition sidecars (p : path) : list path :=
  match p with
  | [] => []
  | _ => map (fun suffix => os_path_dirname p ++ [basename p +:+ suffix])
             ["-journal"; "-wal"; "-shm"]
  end.

(** None of them is there. *)
Definition no_sidecars (n : node) (p : path) : bool :=
  forallb (fun s => negb (exists_at n s)) (sidecars p).

(** ** The environment and the monad of the program *)

(** A sqlite3 connection: the file it is on, whether it is still open, and
    its foreign_keys pragma, which SQLite leaves off unless asked. *)
Record connection := Connection {
  conn_path : path;
  conn_open : bool;
  conn_foreign_keys : bool
}.

(** [clock] is the engine's reading of the UTC clock, as the text
    CURRENT_TIMESTAMP gives. *)
Record world := World {
  fs : node;
  conns : list connection;
  stdout : list string;
  clock : string
}.

Definition with_fs (w : world) (n : node) : world :=
  World n (conns w) (stdout w) (clock w).

Definition with_conns (w : world) (cs : list connection) : world :=
  World (fs w) cs (stdout w) (clock w).

Inductive outcome (A : Type) :=
  | Returned (a : A)
  | Raised (e : exn).
Arguments Returned {A} a.
Arguments Raised {A} e.

Definition M (A : Type) : Type := world -> outcome A * world.

#[global] Instance M_ret : MRet M := fun A a w => (Returned a, w).

#[global] Instance M_bind : MBind M := fun A B f m w =>
  match m w with
  | (Returned a, w') => f a w'
  | (Raised e, w') => (Raised e, w')
  end.

Definition raise {A : Type} (e : exn) : M A := fun w => (Raised e, w).

(** try: m / except: handler *)
Definition try_except {A : Type} (m : M A) (handler : exn -> M A) : M A :=
  fun w =>
    match m w with
    | (Returned a, w') => (Returned a, w')
    | (Raised e, w') => handler e w'
    end.

Definition pass : M unit := mret tt.

(** ** os.path.exists, os.path.isdir, os.mkdir, os.makedirs *)

Definition os_path_exists (name : path) : M bool :=
  fun w => (Returned (exists_at (fs w) name), w).

Definition os_path_isdir (name : path) : M bool :=
  fun w => (Returned (isdir_at (fs w) name), w).

(** mkdir(2): the new directory is writable by the process. *)
Definition os_mkdir (name : path) : M unit :=
  fun w =>
    match name with
    | [] => (Raised FileNotFoundError, w)
    | _ =>
        match resolve (fs w) (os_path_dirname name) with
        | inl e => (Raised e, w)
        | inr (File _) => (Raised NotADirectoryError, w)
        | inr (Dir wr es) =>
            match es !! basename name with
            | Some _ => (Raised FileExistsError, w)
            | None =>
                if wr then (Returned tt, with_fs w (store (fs w) name (Dir true ∅)))
                else (Raised PermissionError, w)
            end
        end
    end.

(** The last three lines of os.makedirs:

      try: mkdir(name, mode)
      except OSError:
          if not exist_ok or not path.isdir(name): raise *)
Definition mkdir_unless_isdir (name : path) (exist_ok : bool) : M unit :=
  try_except (os_mkdir name)
    (fun ex =>
       if is_OSError ex then
         d ← os_path_isdir name;
         if negb exist_ok || negb d then raise ex else pass
       else raise ex).

(** os.makedirs(name, exist_ok), on the reversed name [rname]: split()
    takes the last component off, so the recursion goes down the reversed
    list.

      head, tail = path.split(name)
      if head and tail and not path.exists(head):
          try: makedirs(head, exist_ok=exist_ok)
          except FileExistsError: pass
      (the last three lines) *)
Fixpoint makedirs_rev (rname : list string) (exist_ok : bool) : M unit :=
  match rname with
  | _ :: (_ :: _) as rhead =>
      e ← os_path_exists (rev rhead);
      if negb e then
        try_except (makedirs_rev rhead exist_ok)
          (fun ex => match ex with FileExistsError => pass | _ => raise ex end)
      else pass
  | _ => pass
  end ;;
  mkdir_unless_isdir (rev rname) exist_ok.

Definition os_makedirs (name : path) (exist_ok : bool) : M unit :=
  makedirs_rev (rev name) exist_ok.

(** ** sqlite3: connect, cursor, execute, commit, close *)

Definition unable_to_open : exn :=
  OperationalError "unable to open database file".

Definition open_connection (name : path) (w : world) : outcome nat * world :=
  (Returned (length (conns w)),
   with_conns w (conns w ++ [Connection name true false])).

(** sqlite3.connect(name): opens the file read-write, creating it empty
    when it is missing and its directory allows it.  The handle returned is
    the index of the connection in [conns].  The empty name, on which
    SQLite opens a private temporary database, is left out of the model:
    [initialize_database] raises before it connects to it. *)
Definition sqlite3_connect (name : path) : M nat :=
  fun w =>
    match name with
    | [] => (Raised unable_to_open, w)
    | _ =>
        match resolve (fs w) name with
        | inr (File _) => open_connection name w
        | inr (Dir _ _) => (Raised unable_to_open, w)
        | inl _ =>
            if dir_writable (fs w) (os_path_dirname name)
            then open_connection name
                   (with_fs w (store (fs w) name (File (Db empty_db))))
            else (Raised unable_to_open, w)
        end
    end.

Definition readonly_database : exn :=
  OperationalError "attempt to write a readonly database".

Record cursor := Cursor { cur_conn : nat }.

Definition closed_database : exn :=
  ProgrammingError "Cannot operate on a closed database.".

Definition is_open (w : world) (h : nat) : bool :=
  match conns w !! h with
  | Some cn => conn_open cn
  | None => false
  end.

Definition conn_cursor (h : nat) : M cursor :=
  fun w => if is_open w h then (Returned (Cursor h), w)
           else (Raised closed_database, w).

(** cursor.execute(statement).  The sqlite3 module opens a transaction
    only before INSERT, UPDATE, DELETE and REPLACE, so a CREATE TABLE on a
    fresh connection is written at once; the other statements stand for
    committed ones.  A statement that writes needs to create its journal
    next to the file, and removes it when it is done: the tree shows the
    file only.  A journal or a write-ahead log that is beside the file
    before the statement is not looked at (see [no_sidecars]). *)
Definition cursor_execute (c : cursor) (s : stmt) : M unit :=
  fun w =>
    match conns w !! cur_conn c with
    | Some cn =>
        if negb (conn_open cn) then (Raised closed_database, w)
        else
          match s with
          | PRAGMA_foreign_keys b =>
              (Returned tt,
               with_conns w (<[cur_conn c := Connection (conn_path cn) true b]>
                               (conns w)))
          | _ =>
              match resolve (fs w) (conn_path cn) with
              | inr (File (Db d)) =>
                  if needs_write s d
                     && negb (dir_writable (fs w) (os_path_dirname (conn_path cn)))
                  then (Raised readonly_database, w)
                  else
                    match exec_stmt (conn_foreign_keys cn) (clock w) s d with
                    | inl e => (Raised e, w)
                    | inr (d', _) =>
                        (Returned tt,
                         with_fs w (store (fs w) (conn_path cn) (File (Db d'))))
                    end
              | inr (File Garbage) =>
                  (Raised (DatabaseError "file is not a database"), w)
              | _ => (Raised unable_to_open, w)
              end
          end
    | None => (Raised closed_database, w)
    end.

(** conn.commit(): nothing is pending after the statements above. *)
Definition conn_commit (h : nat) : M unit :=
  fun w => if is_open w h then (Returned tt, w)
           else (Raised closed_database, w).

(** conn.close(): closing a closed connection is allowed. *)
Definition conn_close (h : nat) : M unit :=
  fun w =>
    match conns w !! h with
    | Some cn =>
        (Returned tt,
         with_conns w (<[h := Connection (conn_path cn) false
                                         (conn_foreign_keys cn)]> (conns w)))
    | None => (Returned tt, w)
    end.

Definition print (line : string) : M unit :=
  fun w => (Returned tt,
            World (fs w) (conns w) (stdout w ++ [line]) (clock w)).

(** ** The program: src/core/database.py *)

Definition create_goals : stmt :=
  CREATE_TABLE true "goals"
    [ Col "id" "INTEGER" [PRIMARY_KEY_AUTOINCREMENT];
      Col "title" "TEXT" [NOT_NULL];
      Col "description" "TEXT" [];
      Col "type" "TEXT" [];
      Col "deadline" "DATE" [];
      Col "priority" "TEXT" [];
      Col "status" "TEXT" [DEFAULT (Literal (VText "active"))];
      Col "created_at" "TIMESTAMP" [DEFAULT CURRENT_TIMESTAMP] ]
    [].

Definition create_tasks : stmt :=
  CREATE_TABLE true "tasks"
    [ Col "id" "INTEGER" [PRIMARY_KEY_AUTOINCREMENT];
      Col "goal_id" "INTEGER" [];
      Col "title" "TEXT" [NOT_NULL];
      Col "description" "TEXT" [];
      Col "status" "TEXT" [DEFAULT (Literal (VText "pending"))];
      Col "deadline" "DATE" [];
      Col "estimated_hours" "REAL" [];
      Col "created_at" "TIMESTAMP" [DEFAULT CURRENT_TIMESTAMP] ]
    [ FOREIGN_KEY "goal_id" "goals" "id" ].

Definition create_daily_logs : stmt :=
  CREATE_TABLE true "daily_logs"
    [ Col "id" "INTEGER" [PRIMARY_KEY_AUTOINCREMENT];
      Col "date" "DATE" [NOT_NULL];
      Col "notes" "TEXT" [];
      Col "created_at" "TIMESTAMP" [DEFAULT CURRENT_TIMESTAMP] ]
    [].

Definition create_calendar_events : stmt :=
  CREATE_TABLE true "calendar_events"
    [ Col "id" "INTEGER" [PRIMARY_KEY_AUTOINCREMENT];
      Col "external_id" "TEXT" [];
      Col "title" "TEXT" [];
      Col "start_time" "DATETIME" [];
      Col "end_time" "DATETIME" [];
      Col "source" "TEXT" [];
      Col "created_at" "TIMESTAMP" [DEFAULT CURRENT_TIMESTAMP] ]
    [].

Definition create_patterns : stmt :=
  CREATE_TABLE true "patterns"
    [ Col "id" "INTEGER" [PRIMARY_KEY_AUTOINCREMENT];
      Col "pattern_type" "TEXT" [];
      Col "data" "TEXT" [];
      Col "created_at" "TIMESTAMP" [DEFAULT CURRENT_TIMESTAMP] ]
    [].

(** The default of the parameter [db_path]: 'data/nexus.db'. *)
Definition default_db_path : path := ["data"; "nexus.db"].

(** def initialize_database(db_path='data/nexus.db') *)
Definition initialize_database (db_path : path) : M unit :=
  os_makedirs (os_path_dirname db_path) true ;;
  conn ← sqlite3_connect db_path;
  cursor ← conn_cursor conn;
  cursor_execute cursor create_goals ;;
  cursor_execute cursor create_tasks ;;
  cursor_execute cursor create_daily_logs ;;
  cursor_execute cursor create_calendar_events ;;
  cursor_execute cursor create_patterns ;;
  conn_commit conn ;;
  conn_close conn.

(** ** The script: scripts/initialize_database.py *)

Definition confirmation : string :=
  "Database initialized successfully at data/nexus.db".

(** The body under [if __name__ == '__main__':]. *)
Definition main : M unit :=
  initialize_database default_db_path ;;
  print confirmation.

(** What the operator sees of a run of the interpreter on a script. *)
Record process := Process {
  exit_status : Z;
  out_lines : list string;
  traceback : option exn;
  final : world
}.

(** The interpreter: an exception nobody caught ends the process with its
    traceback on the standard error and exit status 1; a script that runs
    to its end exits with status 0.  The command line is not read by the
    script, so it is not a parameter here. *)
Definition run_script (body : M unit) (w : world) : process :=
  match body w with
  | (Returned _, w') => Process 0 (stdout w') None w'
  | (Raised e, w') => Process 1 (stdout w') (Some e) w'
  end.

(** ** The schema the program declares *)

(** The five declarations, in the order the program issues them. *)
Definition schema : list stmt :=
  [create_goals; create_tasks; create_daily_logs; create_calendar_events;
   create_patterns].

Definition table_names : list string :=
  ["goals"; "tasks"; "daily_logs"; "calendar_events"; "patterns"].

(** The table a statement names. *)
Definition stmt_name (s : stmt) : string :=
  match s with
  | CREATE_TABLE _ name _ _ | INSERT_INTO name _ | DELETE_FROM name _ => name
  | PRAGMA_foreign_keys _ => ""
  end.

(** The empty table a CREATE TABLE statement declares. *)
Definition table_of (s : stmt) : table :=
  match s with
  | CREATE_TABLE _ _ cols fks => Table cols fks []
  | _ => Table [] [] []
  end.

Definition declared (s : stmt) : option (string * object) :=
  match s with
  | CREATE_TABLE _ name cols fks => Some (name, ObjTable (Table cols fks []))
  | _ => None
  end.

(** The database image with the five declared tables, all empty, and
    nothing else. *)
Definition fresh_db : database :=
  Database (list_to_map (omap declared schema)) ∅.

(** The id column of every declaration of the source. *)
Definition id_column : column_def :=
  Col "id" "INTEGER" [PRIMARY_KEY_AUTOINCREMENT].

(** The columns declared NOT NULL by a statement, with their table. *)
Definition not_null_columns (s : stmt) : list (string * string) :=
  match s with
  | CREATE_TABLE _ name cols _ =>
      map (fun c => (name, col_name c)) (List.filter col_notnull cols)
  | _ => []
  end.

(** The columns of a declaration that are not the id. *)
Definition non_id_columns (s : stmt) : list (string * string) :=
  match s with
  | CREATE_TABLE _ name cols _ =>
      map (fun c => (name, col_name c))
          (List.filter (fun c => negb (col_autoinc c)) cols)
  | _ => []
  end.

Definition is_create (s : stmt) : bool :=
  match s with CREATE_TABLE _ _ _ _ => true | _ => false end.

Definition is_pragma (s : stmt) : bool :=
  match s with PRAGMA_foreign_keys _ => true | _ => false end.

(** ** Looking into a database *)

(** An object without its rows, and the catalogue of a database without
    the rows: which names there are and how each is declared. *)
Definition decl_of (o : object) : object :=
  match o with
  | ObjTable t => ObjTable (Table (tbl_cols t) (tbl_cons t) [])
  | _ => o
  end.

Definition schema_of (d : database) : gmap string object :=
  decl_of <$> objects d.

(** The rows of table [name], none when there is no such table. *)
Definition rows_of (d : database) (name : string) : list row :=
  match objects d !! name with
  | Some (ObjTable t) => tbl_rows t
  | _ => []
  end.

(** SELECT col FROM name WHERE rowid = id. *)
Definition read (d : database) (name : string) (id : Z) (col : string)
    : option value :=
  match objects d !! name with
  | Some (ObjTable t) =>
      (fun r => column_value t r col)
        <$> find (fun r => Z.eqb (rowid r) id) (tbl_rows t)
  | _ => None
  end.

(** Is [name] in use in [d] by a table or a view? *)
Definition name_taken (d : database) (name : string) : bool :=
  match objects d !! name with
  | Some (ObjTable _) | Some ObjView => true
  | _ => false
  end.

(** Is [name] free of an index in [d]? *)
Definition no_index (d : database) (name : string) : bool :=
  match objects d !! name with
  | Some (ObjIndex _) => false
  | _ => true
  end.


(** Table [stmt_name s] of [d] is declared as statement [s] declares it. *)
Definition declared_as (d : database) (s : stmt) : Prop :=
  exists rows,
    objects d !! stmt_name s
    = Some (ObjTable (Table (tbl_cols (table_of s)) (tbl_cons (table_of s)) rows)).

(** Table [stmt_name s] of [d] is declared as [s] declares it, and none of
    its rowids is above its AUTOINCREMENT counter. *)
Definition capped (d : database) (s : stmt) : Prop :=
  exists rows,
    objects d !! stmt_name s
    = Some (ObjTable (Table (tbl_cols (table_of s)) (tbl_cons (table_of s)) rows))
    /\ Forall (fun r => rowid r <= seq_of d (stmt_name s)) rows.

(** ** Clients of the database *)

(** A step of a client of the database: a statement, with the foreign_keys
    pragma of the connection it runs on and the clock reading. *)
Record step := Step {
  step_fk : bool;
  step_now : string;
  step_stmt : stmt
}.

(** The image after a statement; a statement that fails changes nothing. *)
Definition after (d : database) (st : step) : database :=
  match exec_stmt (step_fk st) (step_now st) (step_stmt st) d with
  | inr (d', _) => d'
  | inl _ => d
  end.

Definition run (steps : list step) (d : database) : database :=
  fold_left after steps d.

(** A client session on the file at [p]: connect, run the statements one
    after the other, going on after one that fails, commit, close. *)
Fixpoint run_statements (cur : cursor) (ss : list stmt) : M unit :=
  match ss with
  | [] => pass
  | s :: rest =>
      try_except (cursor_execute cur s) (fun _ => pass) ;;
      run_statements cur rest
  end.

Definition session (p : path) (ss : list stmt) : M unit :=
  conn ← sqlite3_connect p;
  cur ← conn_cursor conn;
  run_statements cur ss ;;
  conn_commit conn ;;
  conn_close conn.

(** One statement on a connection of its own. *)
Definition run_statement (p : path) (s : stmt) : M unit :=
  conn ← sqlite3_connect p;
  cur ← conn_cursor conn;
  cursor_execute cur s ;;
  conn_commit conn ;;
  conn_close conn.

(** ** The environment around a call *)

(** The connections opened since [w] that are still open in [w']. *)
Definition still_open (w w' : world) : list connection :=
  List.filter conn_open (drop (length (conns w)) (conns w')).

(** The directories on the way to [name], [name] included. *)
Definition ancestors (name : path) : list path :=
  map (fun k => take k name) (seq 1 (length name)).

(** The directories of [name] that are missing can be made: the deepest
    one that exists is a directory the process may write to, and the next
    component is free in it. *)
Definition creatable (n : node) (name : path) : Prop :=
  exists (q r : path) (x : string) (es : gmap string node),
    name = q ++ x :: r /\ resolve n q = inr (Dir true es) /\ es !! x = None.

(** What the environment keeps apart from the directory tree. *)
Definition same_but_fs (w w' : world) : Prop :=
  conns w' = conns w /\ stdout w' = stdout w /\ clock w' = clock w.

(** ** The call in two halves *)

(** The statements of [initialize_database] that follow the connect, as a
    function of the connection. *)
Definition after_connect (conn : nat) : M unit :=
  cursor ← conn_cursor conn;
  cursor_execute cursor create_goals ;;
  cursor_execute cursor create_tasks ;;
  cursor_execute cursor create_daily_logs ;;
  cursor_execute cursor create_calendar_events ;;
  cursor_execute cursor create_patterns ;;
  conn_commit conn ;;
  conn_close conn.

(** Connection [h] of [w] is open on the file at [p], with foreign_keys
    pragma [fk]; that file holds the database image [d], in a directory
    with write permission [wr]. *)
Definition on_db (w : world) (h : nat) (p : path) (fk wr : bool)
    (d : database) : Prop :=
  conns w !! h = Some (Connection p true fk)
  /\ exists (q : path) (x : string) (es : gmap string node),
       p = q ++ [x] /\ resolve (fs w) q = inr (Dir wr es)
       /\ es !! x = Some (File (Db d)).

(** The environment with the image [d] written to the file at [p]. *)
Definition put_db (w : world) (p : path) (d : database) : world :=
  with_fs w (store (fs w) p (File (Db d))).

(** A statement on the image of a file whose directory has write
    permission [wr], as [cursor_execute] runs it. *)
Definition exec_checked (wr fk : bool) (now : string) (s : stmt)
    (d : database) : stmt_result :=
  if needs_write s d && negb wr then inl readonly_database
  else exec_stmt fk now s d.

(** Statements in a row, up to the first that fails: the image reached and
    the exception that stopped the row, if one did. *)
Fixpoint exec_all (wr fk : bool) (now : string) (ss : list stmt)
    (d : database) : option exn * database :=
  match ss with
  | [] => (None, d)
  | s :: rest =>
      match exec_checked wr fk now s d with
      | inl e => (Some e, d)
      | inr (d', _) => exec_all wr fk now rest d'
      end
  end.

(** What [after_connect] leaves of [w] when the statements end as [r]: the
    image reached is in the file, and the connection is closed when no
    statement failed, still open when one did. *)
Definition left_by (w : world) (h : nat) (p : path) (r : option exn * database)
    : outcome unit * world :=
  (match fst r with None => Returned tt | Some e => Raised e end,
   with_conns (put_db w p (snd r))
     (<[h := Connection p (match fst r with None => false | Some _ => true end)
                        false]> (conns w))).

(** ** Statements and trees, for any environment *)

(** A CREATE TABLE IF NOT EXISTS statement whose declaration the engine
    accepts. *)
Definition sound_create (s : stmt) : bool :=
  match s with
  | CREATE_TABLE true _ cols fks => well_formed_decl cols fks
  | _ => false
  end.

(** What a call may do to the tree [n] on the way to [p], giving [n']: a
    regular file other than the one at [p] keeps its content, a directory
    stays a directory with its permission, and a name that is new lies on
    the way to [p]. *)
Definition touches_only (p : path) (n n' : node) : Prop :=
  forall p',
    (forall c, resolve n p' = inr (File c) -> p' <> p ->
               resolve n' p' = inr (File c))
    /\ (forall wr es, resolve n p' = inr (Dir wr es) ->
                      exists es', resolve n' p' = inr (Dir wr es'))
    /\ (forall e m, resolve n p' = inl e -> resolve n' p' = inr m ->
                    p' `prefix_of` p).

(** A node with nothing below it: a regular file, an empty directory. *)
Definition is_leaf (n : node) : bool :=
  match n with
  | File _ => true
  | Dir _ es => bool_decide (es = ∅)
  end.

(** ** Environments used in the examples *)

(** An empty, writable working directory. *)
Definition w_empty : world :=
  World (Dir true ∅) [] [] "2026-01-01 00:00:00".

(** A working directory the process may not write to. *)
Definition w_readonly : world :=
  World (Dir false ∅) [] [] "2026-01-01 00:00:00".

Definition in_data (c : content) : world :=
  World (Dir true {[ "data" := Dir true {[ "nexus.db" := File c ]} ]})
        [] [] "2026-01-01 00:00:00".

(** data/nexus.db is there and is not a database. *)
Definition w_garbage : world := in_data Garbage.

(** data/nexus.db holds an older [tasks] table, whose status defaults to
    'todo'. *)
Definition legacy_tasks : table :=
  Table [ Col "id" "INTEGER" [PRIMARY_KEY_AUTOINCREMENT];
          Col "title" "TEXT" [NOT_NULL];
          Col "status" "TEXT" [DEFAULT (Literal (VText "todo"))] ]
        [] [].

Definition w_legacy : world :=
  in_data (Db (Database {[ "tasks" := ObjTable legacy_tasks ]} ∅)).

(** data/nexus.db holds a [goals] table of another shape, with a row. *)
Definition other_goals : table :=
  Table [ Col "name" "TEXT" [] ] []
        [ Row 1 {[ "name" := VText "run a marathon" ]} ].

Definition w_conflict : world :=
  in_data (Db (Database {[ "goals" := ObjTable other_goals ]} ∅)).

(** data/nexus.db holds a table [notes] and an index on it that is named
    [tasks]. *)
Definition w_index : world :=
  in_data (Db (Database {[ "notes" := ObjTable (Table [Col "body" "TEXT" []] [] []);
                           "tasks" := ObjIndex "notes" ]} ∅)).

(** data/nexus.db as a call made it, with one goal and one task of that
    goal. *)
Definition d_one_goal : database :=
  run [ Step false "2026-11-03 11:10:14"
          (INSERT_INTO "goals" {[ "title" := VText "learn" ]});
        Step false "2026-11-03 11:10:15"
          (INSERT_INTO "tasks" {[ "goal_id" := VInt 1; "title" := VText "read" ]}) ]
      fresh_db.

(** Two goals inserted one after the other. *)
Definition two_goals : list step :=
  [ Step false "2026-11-03 11:10:14"
      (INSERT_INTO "goals" {[ "title" := VText "learn" ]});
    Step false "2026-11-03 11:10:15"
      (INSERT_INTO "goals" {[ "title" := VText "write" ]}) ].

(** * Properties *)

(** ** The directory tree *)

Section tree.
Implicit Types (n m new : node) (p q : path) (x : string).

Lemma resolve_app n p q :
  resolve n (p ++ q) =
  match resolve n p with inr m => resolve m q | inl e => inl e end.
Proof.
  revert n. induction p as [|y p IH]; intros n; simpl; [done|].
  destruct n as [c|w es]; [done|].
  destruct (es !! y); [apply IH|done].
Qed.

Lemma resolve_snoc n q x m :
  resolve n (q ++ [x]) = inr m ->
  exists w es, resolve n q = inr (Dir w es) /\ es !! x = Some m.
Proof.
  rewrite resolve_app.
  destruct (resolve n q) as [e|[c|w es]]; simpl; try done.
  destruct (es !! x) eqn:E; [|done].
  intros [= ->]. eauto.
Qed.

Lemma resolve_snoc_dir n q x w es :
  resolve n q = inr (Dir w es) ->
  resolve n (q ++ [x]) =
  match es !! x with Some c => inr c | None => inl FileNotFoundError end.
Proof. intros H. rewrite resolve_app, H. simpl. by destruct (es !! x). Qed.

Lemma resolve_error_is_OSError n p e :
  resolve n p = inl e -> is_OSError e = true.
Proof.
  revert n. induction p as [|y p IH]; intros n; simpl; [done|].
  destruct n as [c|w es]; [by intros [= <-]|].
  destruct (es !! y); [apply IH|by intros [= <-]].
Qed.

Lemma store_snoc_parent n q x w es new :
  resolve n q = inr (Dir w es) ->
  resolve (store n (q ++ [x]) new) q = inr (Dir w (<[x := new]> es)).
Proof.
  revert n. induction q as [|y q IH]; intros n; simpl.
  - intros [= ->]. by destruct (es !! x).
  - destruct n as [c|w0 es0]; [done|].
    destruct (es0 !! y) as [c|] eqn:E; [|done].
    intros H. simpl. rewrite lookup_insert_eq. by apply IH.
Qed.

Lemma store_snoc_self n q x w es new :
  resolve n q = inr (Dir w es) ->
  resolve (store n (q ++ [x]) new) (q ++ [x]) = inr new.
Proof.
  intros H. rewrite (resolve_snoc_dir _ _ _ _ _ (store_snoc_parent _ _ x _ _ new H)).
  by rewrite lookup_insert_eq.
Qed.

Lemma store_snoc_id n q x w es new :
  resolve n q = inr (Dir w es) -> es !! x = Some new ->
  store n (q ++ [x]) new = n.
Proof.
  revert n. induction q as [|y q IH]; intros n; simpl.
  - intros [= ->] E. rewrite E. f_equal. by apply insert_id.
  - destruct n as [c|w0 es0]; [done|].
    destruct (es0 !! y) as [c|] eqn:E; [|done].
    intros H Hx. f_equal. rewrite (IH _ H Hx). by apply insert_id.
Qed.

Lemma store_store n q x w es new new' :
  resolve n q = inr (Dir w es) ->
  store (store n (q ++ [x]) new) (q ++ [x]) new'
  = store n (q ++ [x]) new'.
Proof.
  revert n. induction q as [|y q IH]; intros n; simpl.
  - intros [= ->]. destruct (es !! x); simpl; rewrite lookup_insert_eq;
      simpl; by rewrite insert_insert_eq.
  - destruct n as [c|w0 es0]; [done|].
    destruct (es0 !! y) as [c|] eqn:E; [|done].
    intros H. simpl. rewrite lookup_insert_eq, insert_insert_eq.
    by rewrite (IH _ H).
Qed.

Lemma split_last_path p : p <> [] -> exists q x, p = (q ++ [x]).
Proof.
  intros H. destruct (exists_last H) as (q & x & ->). eauto.
Qed.

Lemma dirname_snoc q x : os_path_dirname (q ++ [x]) = q.
Proof. apply removelast_last. Qed.

Lemma basename_snoc q x : basename (q ++ [x]) = x.
Proof. apply last_last. Qed.

Lemma exists_at_snoc n q x :
  exists_at n (q ++ [x]) =
  match resolve n (q ++ [x]) with inr _ => true | inl _ => false end.
Proof. unfold exists_at. by destruct q. Qed.

Lemma isdir_at_snoc n q x :
  isdir_at n (q ++ [x]) =
  match resolve n (q ++ [x]) with inr (Dir _ _) => true | _ => false end.
Proof. unfold isdir_at. by destruct q. Qed.

End tree.

(** ** os.makedirs *)

Lemma bind_unfold {A B : Type} (m : M A) (f : A -> M B) (w : world) :
  (m ≫= f) w =
  match m w with
  | (Returned a, w') => f a w'
  | (Raised e, w') => (Raised e, w')
  end.
Proof. reflexivity. Qed.

Lemma same_but_fs_refl w : same_but_fs w w.
Proof. by repeat split. Qed.

Lemma same_but_fs_trans w1 w2 w3 :
  same_but_fs w1 w2 -> same_but_fs w2 w3 -> same_but_fs w1 w3.
Proof. intros (?&?&?) (?&?&?). repeat split; congruence. Qed.

Lemma same_but_fs_with_fs w n : same_but_fs w (with_fs w n).
Proof. by repeat split. Qed.

(** [mkdir_unless_isdir] on a name with a last component: it returns either
    because the directory was there, and then nothing changes, or because
    it made it; it raises an OSError only when the name is not a directory,
    and then nothing changes either. *)
Lemma mkdir_unless_isdir_spec (q : path) (x : string) (w : world) :
  match mkdir_unless_isdir (q ++ [x]) true w with
  | (Returned _, w') =>
      (isdir_at (fs w) (q ++ [x]) = true /\ w' = w)
      \/ (exists_at (fs w) (q ++ [x]) = false
          /\ dir_writable (fs w) q = true
          /\ w' = with_fs w (store (fs w) (q ++ [x]) (Dir true ∅))
          /\ resolve (fs w') (q ++ [x]) = inr (Dir true ∅))
  | (Raised e, w') =>
      w' = w /\ is_OSError e = true /\ isdir_at (fs w) (q ++ [x]) = false
  end.
Proof.
  unfold mkdir_unless_isdir, try_except, os_mkdir.
  rewrite dirname_snoc, basename_snoc, isdir_at_snoc, exists_at_snoc.
  destruct (q ++ [x]) eqn:Eqx; [by destruct q|]. rewrite <- Eqx. clear Eqx.
  unfold dir_writable.
  destruct (resolve (fs w) q) as [e|[c|wr es]] eqn:Hq.
  - pose proof (resolve_error_is_OSError _ _ _ Hq) as He. rewrite He.
    rewrite bind_unfold. unfold os_path_isdir. rewrite isdir_at_snoc.
    rewrite resolve_app, Hq. simpl. unfold raise. done.
  - simpl. rewrite bind_unfold. unfold os_path_isdir. rewrite isdir_at_snoc.
    rewrite resolve_app, Hq. simpl. unfold raise. done.
  - rewrite (resolve_snoc_dir _ _ _ _ _ Hq).
    destruct (es !! x) as [c|] eqn:Hx.
    + simpl. rewrite bind_unfold. unfold os_path_isdir. rewrite isdir_at_snoc.
      rewrite (resolve_snoc_dir _ _ _ _ _ Hq), Hx.
      destruct c; simpl; unfold raise, pass; simpl; auto.
    + destruct wr.
      * right. simpl. rewrite (store_snoc_self _ _ _ _ _ _ Hq). done.
      * simpl. rewrite bind_unfold. unfold os_path_isdir. rewrite isdir_at_snoc.
        rewrite (resolve_snoc_dir _ _ _ _ _ Hq), Hx. simpl. unfold raise. done.
Qed.

#[local] Arguments makedirs_rev : simpl never.
#[local] Arguments mkdir_unless_isdir : simpl never.

Lemma makedirs_rev_unfold (t t' : string) (rh : list string) (ok : bool) :
  makedirs_rev (t :: t' :: rh) ok =
  ((e ← os_path_exists (rev (t' :: rh));
    if negb e then
      try_except (makedirs_rev (t' :: rh) ok)
        (fun ex => match ex with FileExistsError => pass | _ => raise ex end)
    else pass) ;;
   mkdir_unless_isdir (rev (t :: t' :: rh)) ok).
Proof. reflexivity. Qed.

Lemma isdir_at_exists n p : isdir_at n p = true -> exists_at n p = true.
Proof.
  unfold isdir_at, exists_at. destruct p; [done|].
  by destruct (resolve n (s :: p)) as [|[]].
Qed.

Lemma isdir_at_parent n q x :
  q <> [] -> isdir_at n (q ++ [x]) = true -> isdir_at n q = true.
Proof.
  intros Hq. rewrite isdir_at_snoc. unfold isdir_at.
  destruct q; [done|]. rewrite resolve_app.
  destruct (resolve n (s :: q)) as [|[]]; simpl; try done.
Qed.

Lemma exists_at_parent n q x :
  q <> [] -> exists_at n q = false -> exists_at n (q ++ [x]) = false.
Proof.
  intros Hq. rewrite exists_at_snoc. unfold exists_at.
  destruct q; [done|]. rewrite resolve_app.
  by destruct (resolve n (s :: q)) as [|[]].
Qed.

(** [os.makedirs(name, exist_ok=True)]: it returns either because [name]
    was a directory, and then nothing changed, or because it made it, and
    then [name] is a new, empty directory; it raises only OSErrors, and
    then [name] is not a directory.  Nothing but the tree changes. *)
Lemma makedirs_rev_spec (rname : list string) (w : world) :
  match makedirs_rev rname true w with
  | (Returned _, w') =>
      same_but_fs w w'
      /\ ((isdir_at (fs w) (rev rname) = true /\ w' = w)
          \/ (exists_at (fs w) (rev rname) = false
              /\ resolve (fs w') (rev rname) = inr (Dir true ∅)))
  | (Raised e, w') =>
      same_but_fs w w' /\ is_OSError e = true
      /\ isdir_at (fs w') (rev rname) = false
  end.
Proof.
  revert w. induction rname as [|t rhead IH]; intros w.
  - vm_compute. done.
  - destruct rhead as [|t' rh].
    + pose proof (mkdir_unless_isdir_spec [] t w) as H.
      change (makedirs_rev [t] true w) with (mkdir_unless_isdir [t] true w).
      simpl in *.
      destruct (mkdir_unless_isdir [t] true w) as [[[]|e] w'].
      * destruct H as [[H ->]|(H1 & _ & -> & H2)].
        -- split; [apply same_but_fs_refl|]. by left.
        -- split; [apply same_but_fs_with_fs|]. by right.
      * destruct H as (-> & ? & ?). split; [apply same_but_fs_refl|]. done.
    + rewrite makedirs_rev_unfold.
      set (head := rev (t' :: rh)) in *.
      assert (Hne : head <> []).
      { unfold head. simpl. by destruct (rev rh). }
      change (rev (t :: t' :: rh)) with (head ++ [t]).
      rewrite bind_unfold. rewrite bind_unfold. unfold os_path_exists at 1.
      destruct (exists_at (fs w) head) eqn:Hex; simpl.
      * (* the head is there *)
        pose proof (mkdir_unless_isdir_spec head t w) as H.
        destruct (mkdir_unless_isdir (head ++ [t]) true w) as [[[]|e] w'].
        -- destruct H as [[H ->]|(H1 & _ & -> & H2)].
           ++ split; [apply same_but_fs_refl|]. by left.
           ++ split; [apply same_but_fs_with_fs|]. by right.
        -- destruct H as (-> & ? & ?). split; [apply same_but_fs_refl|]. done.
      * (* the head is made first *)
        unfold try_except at 1. specialize (IH w). fold head in IH.
        destruct (makedirs_rev (t' :: rh) true w) as [[[]|e] w1].
        -- cbv beta iota. destruct IH as (Hs & [[Hd _]|[_ Hr]]).
           { apply isdir_at_exists in Hd. congruence. }
           pose proof (mkdir_unless_isdir_spec head t w1) as H.
           destruct (mkdir_unless_isdir (head ++ [t]) true w1) as [[[]|e] w'].
           ++ destruct H as [[H ->]|(H1 & _ & -> & H2)].
              ** rewrite isdir_at_snoc, (resolve_snoc_dir _ _ _ _ _ Hr) in H.
                 by rewrite lookup_empty in H.
              ** split; [eapply same_but_fs_trans; [exact Hs|apply same_but_fs_with_fs]|].
                 right. split; [by apply exists_at_parent|done].
           ++ destruct H as (-> & ? & H). split; [done|]. split; [done|].
              exact H.
        -- cbv beta iota. destruct IH as (Hs & He & Hd).
           assert (Hfail : forall w2 e2,
             mkdir_unless_isdir (head ++ [t]) true w1 = (Raised e2, w2) ->
             same_but_fs w w2 /\ is_OSError e2 = true
             /\ isdir_at (fs w2) (head ++ [t]) = false).
           { intros w2 e2 E.
             pose proof (mkdir_unless_isdir_spec head t w1) as H.
             rewrite E in H. destruct H as (-> & ? & ?). done. }
           assert (Hnever : forall w2 u,
             mkdir_unless_isdir (head ++ [t]) true w1 = (Returned u, w2) -> False).
           { intros w2 u E.
             pose proof (mkdir_unless_isdir_spec head t w1) as H.
             rewrite E in H. destruct H as [[H _]|(_ & H & _)].
             - apply isdir_at_parent in H; [congruence|done].
             - unfold dir_writable in H. unfold isdir_at in Hd.
               destruct head; [done|].
               by destruct (resolve (fs w1) (s :: head)) as [|[|[]]]. }
           destruct e; simpl; unfold raise;
             try (split; [done|]; split; [done|];
                  destruct (isdir_at (fs w1) (head ++ [t])) eqn:E; [|done];
                  apply isdir_at_parent in E; [congruence|done]).
           unfold pass. simpl.
           destruct (mkdir_unless_isdir (head ++ [t]) true w1) as [[[]|e] w'] eqn:E.
           ++ exfalso. by eapply Hnever.
           ++ by eapply Hfail.
Qed.

Lemma mkdir_unless_isdir_new (q : path) (x : string) (es : gmap string node)
    (w : world) :
  resolve (fs w) q = inr (Dir true es) -> es !! x = None ->
  mkdir_unless_isdir (q ++ [x]) true w
  = (Returned tt, with_fs w (store (fs w) (q ++ [x]) (Dir true ∅))).
Proof.
  intros Hq Hx. unfold mkdir_unless_isdir, try_except, os_mkdir.
  rewrite dirname_snoc, basename_snoc, Hq, Hx.
  by destruct (q ++ [x]) eqn:E; [destruct q|].
Qed.

(** A directory that is there: [os.makedirs] returns and changes nothing. *)
Lemma makedirs_existing (name : path) (w : world) :
  isdir_at (fs w) name = true ->
  os_makedirs name true w = (Returned tt, w).
Proof.
  intros Hd. unfold os_makedirs.
  pose proof (makedirs_rev_spec (rev name) w) as H.
  rewrite rev_involutive in H.
  destruct (rev name) as [|t [|t' rh]] eqn:E.
  - apply (f_equal (@rev string)) in E. rewrite rev_involutive in E.
    by subst name.
  - apply (f_equal (@rev string)) in E. rewrite rev_involutive in E.
    simpl in E. subst name.
    change (makedirs_rev [t] true w) with (mkdir_unless_isdir ([] ++ [t]) true w).
    pose proof (mkdir_unless_isdir_spec [] t w) as H'.
    destruct (mkdir_unless_isdir ([] ++ [t]) true w) as [[[]|e] w'].
    + destruct H' as [[_ ->]|(H1 & _)]; [done|].
      apply isdir_at_exists in Hd. simpl in *. congruence.
    + destruct H' as (_ & _ & H'). simpl in *. congruence.
  - apply (f_equal (@rev string)) in E. rewrite rev_involutive in E.
    rewrite makedirs_rev_unfold. rewrite <- E.
    assert (Hn : name = rev (t' :: rh) ++ [t]) by (by rewrite E).
    assert (Hne : rev (t' :: rh) <> []) by (simpl; by destruct (rev rh)).
    rewrite bind_unfold, bind_unfold. unfold os_path_exists at 1.
    rewrite Hn in Hd.
    rewrite (isdir_at_exists _ _ (isdir_at_parent _ _ _ Hne Hd)). simpl.
    cbv beta iota. rewrite Hn.
    pose proof (mkdir_unless_isdir_spec (rev (t' :: rh)) t w) as H'.
    destruct (mkdir_unless_isdir _ true w) as [[[]|e] w'].
    + destruct H' as [[_ ->]|(H1 & _)]; [done|].
      apply isdir_at_exists in Hd. congruence.
    + destruct H' as (_ & _ & H'). congruence.
Qed.

(** Missing directories below a writable one: [os.makedirs] makes them all
    and returns; the last one is new and empty. *)
Lemma makedirs_creates (r q : path) (x : string) (es : gmap string node)
    (w : world) :
  resolve (fs w) q = inr (Dir true es) -> es !! x = None ->
  exists w',
    os_makedirs (q ++ x :: r) true w = (Returned tt, w')
    /\ same_but_fs w w'
    /\ resolve (fs w') (q ++ x :: r) = inr (Dir true ∅).
Proof.
  intros Hq Hx. unfold os_makedirs.
  induction r as [|y r IH] using rev_ind.
  - assert (E : makedirs_rev (rev (q ++ [x])) true w
                = mkdir_unless_isdir (q ++ [x]) true w).
    { rewrite rev_app_distr. simpl.
      destruct (rev q) as [|t' rh] eqn:Eq.
      - apply (f_equal (@rev string)) in Eq. rewrite rev_involutive in Eq.
        by subst q.
      - rewrite makedirs_rev_unfold, <- Eq, rev_involutive.
        rewrite bind_unfold, bind_unfold. unfold os_path_exists at 1.
        assert (exists_at (fs w) q = true) as ->.
        { unfold exists_at. destruct q; [done|]. by rewrite Hq. }
        simpl. cbv beta iota. by rewrite rev_involutive. }
    rewrite E, (mkdir_unless_isdir_new _ _ _ _ Hq Hx).
    eexists. split; [done|]. split; [apply same_but_fs_with_fs|].
    apply (store_snoc_self _ _ _ _ _ _ Hq).
  - destruct IH as (w1 & E1 & Hs & Hr).
    set (head := q ++ x :: r) in *.
    assert (Hhead : exists t' rh, rev head = t' :: rh).
    { destruct (rev head) as [|t' rh] eqn:Eh; [|eauto].
      apply (f_equal (@rev string)) in Eh. rewrite rev_involutive in Eh.
      unfold head in Eh. by destruct q. }
    destruct Hhead as (t' & rh & Eh).
    replace (q ++ x :: r ++ [y]) with (head ++ [y])
      by (unfold head; by rewrite <- app_assoc).
    rewrite rev_app_distr. simpl. rewrite Eh, makedirs_rev_unfold, <- Eh.
    rewrite rev_involutive.
    rewrite bind_unfold, bind_unfold. unfold os_path_exists at 1.
    assert (exists_at (fs w) head = false) as ->.
    { unfold exists_at, head. destruct (q ++ x :: r) eqn:E0; [done|].
      rewrite <- E0. rewrite resolve_app, Hq. simpl. by rewrite Hx. }
    simpl. unfold try_except at 1. rewrite E1. cbv beta iota.
    rewrite rev_involutive.
    rewrite (mkdir_unless_isdir_new _ _ _ _ Hr (lookup_empty y)).
    eexists. split; [done|].
    split; [eapply same_but_fs_trans; [exact Hs|apply same_but_fs_with_fs]|].
    apply (store_snoc_self _ _ _ _ _ _ Hr).
Qed.

(** ** Connections and statements *)

#[local] Arguments exec_checked : simpl never.
#[local] Arguments exec_stmt : simpl never.

Lemma put_db_same w h p fk wr d : on_db w h p fk wr d -> put_db w p d = w.
Proof.
  intros (_ & q & x & es & -> & Hq & Hx). unfold put_db, with_fs.
  rewrite (store_snoc_id _ _ _ _ _ _ Hq Hx). by destruct w.
Qed.

Lemma put_db_put_db w h p fk wr d d1 d2 :
  on_db w h p fk wr d -> put_db (put_db w p d1) p d2 = put_db w p d2.
Proof.
  intros (_ & q & x & es & -> & Hq & Hx). unfold put_db, with_fs. simpl.
  by rewrite (store_store _ _ _ _ _ _ _ Hq).
Qed.

Lemma on_db_put_db w h p fk wr d d' :
  on_db w h p fk wr d -> on_db (put_db w p d') h p fk wr d'.
Proof.
  intros (Hc & q & x & es & -> & Hq & Hx). split; [done|].
  exists q, x, (<[x := File (Db d')]> es). split; [done|]. split.
  - apply (store_snoc_parent _ _ _ _ _ _ Hq).
  - apply lookup_insert_eq.
Qed.

Lemma on_db_db_at w h p fk wr d : on_db w h p fk wr d -> db_at (fs w) p = Some d.
Proof.
  intros (_ & q & x & es & -> & Hq & Hx). unfold db_at.
  by rewrite (resolve_snoc_dir _ _ _ _ _ Hq), Hx.
Qed.

Lemma db_at_put_db w h p fk wr d d' :
  on_db w h p fk wr d -> db_at (fs (put_db w p d')) p = Some d'.
Proof. intros H. eapply on_db_db_at, on_db_put_db, H. Qed.

(** A statement other than the pragma, on an open connection to a file
    that holds a database. *)
Lemma cursor_execute_on_db w h p fk wr d s :
  on_db w h p fk wr d -> is_pragma s = false ->
  cursor_execute (Cursor h) s w =
  match exec_checked wr fk (clock w) s d with
  | inl e => (Raised e, w)
  | inr (d', _) => (Returned tt, put_db w p d')
  end.
Proof.
  intros (Hc & q & x & es & -> & Hq & Hx) Hs.
  unfold cursor_execute, exec_checked, dir_writable. simpl.
  rewrite Hc. simpl.
  rewrite (resolve_snoc_dir _ _ _ _ _ Hq), Hx, dirname_snoc, Hq.
  destruct s; try done;
    (set (nw := needs_write _ d); by destruct nw, wr).
Qed.

Lemma cursor_execute_pragma w h p fk wr d b :
  on_db w h p fk wr d ->
  cursor_execute (Cursor h) (PRAGMA_foreign_keys b) w
  = (Returned tt, with_conns w (<[h := Connection p true b]> (conns w))).
Proof. intros (Hc & _). unfold cursor_execute. simpl. by rewrite Hc. Qed.

Lemma exec_all_cons wr fk now s rest d :
  exec_all wr fk now (s :: rest) d =
  match exec_checked wr fk now s d with
  | inl e => (Some e, d)
  | inr (d', _) => exec_all wr fk now rest d'
  end.
Proof. reflexivity. Qed.

Lemma with_conns_same w : with_conns w (conns w) = w.
Proof. by destruct w. Qed.

Lemma left_by_error w h p fk wr d e dk :
  on_db w h p fk wr d -> fk = false ->
  (Raised e, put_db w p dk) = left_by w h p (Some e, dk).
Proof.
  intros H ->. unfold left_by. simpl. f_equal.
  destruct H as (Hc & _). rewrite (list_insert_id _ _ _ Hc).
  unfold put_db, with_fs, with_conns. by simpl.
Qed.

Lemma after_connect_on_db w h p wr d :
  on_db w h p false wr d ->
  after_connect h w = left_by w h p (exec_all wr false (clock w) schema d).
Proof.
  intros H. unfold after_connect, schema.
  assert (Hopen : forall d', is_open (put_db w p d') h = true).
  { intros d'. unfold is_open. simpl. by rewrite (proj1 H). }
  rewrite bind_unfold. unfold conn_cursor at 1.
  assert (is_open w h = true) as ->.
  { unfold is_open. by rewrite (proj1 H). }
  (* goals *)
  rewrite bind_unfold, (cursor_execute_on_db _ _ _ _ _ _ _ H) by done.
  rewrite exec_all_cons.
  destruct (exec_checked wr false (clock w) create_goals d) as [e|[d1 o1]].
  { rewrite <- (put_db_same _ _ _ _ _ _ H) at 1.
    by apply (left_by_error _ _ _ _ _ _ _ _ H). }
  (* tasks *)
  rewrite bind_unfold,
    (cursor_execute_on_db _ _ _ _ _ _ _ (on_db_put_db _ _ _ _ _ _ d1 H)) by done.
  rewrite exec_all_cons. change (clock (put_db w p d1)) with (clock w).
  destruct (exec_checked wr false (clock w) create_tasks d1) as [e|[d2 o2]].
  { by apply (left_by_error _ _ _ _ _ _ _ _ H). }
  rewrite (put_db_put_db _ _ _ _ _ _ _ _ H).
  (* daily_logs *)
  rewrite bind_unfold,
    (cursor_execute_on_db _ _ _ _ _ _ _ (on_db_put_db _ _ _ _ _ _ d2 H)) by done.
  rewrite exec_all_cons. change (clock (put_db w p d2)) with (clock w).
  destruct (exec_checked wr false (clock w) create_daily_logs d2) as [e|[d3 o3]].
  { by apply (left_by_error _ _ _ _ _ _ _ _ H). }
  rewrite (put_db_put_db _ _ _ _ _ _ _ _ H).
  (* calendar_events *)
  rewrite bind_unfold,
    (cursor_execute_on_db _ _ _ _ _ _ _ (on_db_put_db _ _ _ _ _ _ d3 H)) by done.
  rewrite exec_all_cons. change (clock (put_db w p d3)) with (clock w).
  destruct (exec_checked wr false (clock w) create_calendar_events d3)
    as [e|[d4 o4]].
  { by apply (left_by_error _ _ _ _ _ _ _ _ H). }
  rewrite (put_db_put_db _ _ _ _ _ _ _ _ H).
  (* patterns *)
  rewrite bind_unfold,
    (cursor_execute_on_db _ _ _ _ _ _ _ (on_db_put_db _ _ _ _ _ _ d4 H)) by done.
  rewrite exec_all_cons. change (clock (put_db w p d4)) with (clock w).
  destruct (exec_checked wr false (clock w) create_patterns d4) as [e|[d5 o5]].
  { by apply (left_by_error _ _ _ _ _ _ _ _ H). }
  rewrite (put_db_put_db _ _ _ _ _ _ _ _ H).
  (* commit, close *)
  rewrite bind_unfold. unfold conn_commit at 1. rewrite Hopen.
  unfold conn_close, left_by. simpl. by rewrite (proj1 H).
Qed.

(** ** sqlite3.connect *)

Lemma connect_existing q x wr es c w :
  resolve (fs w) q = inr (Dir wr es) -> es !! x = Some (File c) ->
  sqlite3_connect (q ++ [x]) w = open_connection (q ++ [x]) w.
Proof.
  intros Hq Hx. unfold sqlite3_connect.
  rewrite (resolve_snoc_dir _ _ _ _ _ Hq), Hx.
  by destruct (q ++ [x]) eqn:E; [destruct q|].
Qed.

Lemma connect_new q x es w :
  resolve (fs w) q = inr (Dir true es) -> es !! x = None ->
  sqlite3_connect (q ++ [x]) w
  = open_connection (q ++ [x]) (put_db w (q ++ [x]) empty_db).
Proof.
  intros Hq Hx. unfold sqlite3_connect, dir_writable.
  rewrite (resolve_snoc_dir _ _ _ _ _ Hq), Hx, dirname_snoc, Hq.
  by destruct (q ++ [x]) eqn:E; [destruct q|].
Qed.

(** The three ways of [sqlite3.connect]: it cannot open the file and
    nothing changes; the file is there; the file is made, empty. *)
Lemma connect_cases p w :
  sqlite3_connect p w = (Raised unable_to_open, w)
  \/ exists q x wr es,
       p = q ++ [x] /\ resolve (fs w) q = inr (Dir wr es)
       /\ ((exists c, es !! x = Some (File c)
                      /\ sqlite3_connect p w = open_connection p w)
           \/ (wr = true /\ es !! x = None
               /\ sqlite3_connect p w
                  = open_connection p (put_db w p empty_db))).
Proof.
  destruct p as [|y p'] using rev_ind; [by left|]. clear IHp'.
  rename p' into q, y into x.
  destruct (resolve (fs w) q) as [e|[c|wr es]] eqn:Hq.
  - left. unfold sqlite3_connect, dir_writable.
    rewrite resolve_app, dirname_snoc, Hq.
    by destruct (q ++ [x]) eqn:E; [destruct q|].
  - left. unfold sqlite3_connect, dir_writable.
    rewrite resolve_app, dirname_snoc, Hq. simpl.
    by destruct (q ++ [x]) eqn:E; [destruct q|].
  - destruct (es !! x) as [[c|wr' es']|] eqn:Hx.
    + right. exists q, x, wr, es. split; [done|]. split; [done|]. left.
      exists c. split; [done|]. by eapply connect_existing.
    + left. unfold sqlite3_connect.
      rewrite (resolve_snoc_dir _ _ _ _ _ Hq), Hx.
      by destruct (q ++ [x]) eqn:E; [destruct q|].
    + destruct wr.
      * right. exists q, x, true, es. split; [done|]. split; [done|]. right.
        split; [done|]. split; [done|]. by eapply connect_new.
      * left. unfold sqlite3_connect, dir_writable.
        rewrite (resolve_snoc_dir _ _ _ _ _ Hq), Hx, dirname_snoc, Hq.
        by destruct (q ++ [x]) eqn:E; [destruct q|].
Qed.

Lemma lookup_new_connection (cs : list connection) (c : connection) :
  (cs ++ [c]) !! length cs = Some c.
Proof. by rewrite lookup_app_r, Nat.sub_diag. Qed.

Lemma on_db_open q x wr es d w :
  resolve (fs w) q = inr (Dir wr es) -> es !! x = Some (File (Db d)) ->
  on_db (snd (open_connection (q ++ [x]) w)) (length (conns w)) (q ++ [x])
        false wr d.
Proof.
  intros Hq Hx. split; [apply lookup_new_connection|].
  exists q, x, es. by simpl.
Qed.

Lemma on_db_open_new q x es w :
  resolve (fs w) q = inr (Dir true es) ->
  on_db (snd (open_connection (q ++ [x]) (put_db w (q ++ [x]) empty_db)))
        (length (conns w)) (q ++ [x]) false true empty_db.
Proof.
  intros Hq. split; [apply lookup_new_connection|].
  exists q, x, (<[x := File (Db empty_db)]> es). split; [done|]. split.
  - apply (store_snoc_parent _ _ _ _ _ _ Hq).
  - apply lookup_insert_eq.
Qed.

(** A file that is not a database: the first statement raises, the
    connection stays open. *)
Lemma after_connect_garbage q x wr es w h :
  conns w !! h = Some (Connection (q ++ [x]) true false) ->
  resolve (fs w) q = inr (Dir wr es) -> es !! x = Some (File Garbage) ->
  after_connect h w = (Raised (DatabaseError "file is not a database"), w).
Proof.
  intros Hc Hq Hx. unfold after_connect.
  rewrite bind_unfold. unfold conn_cursor at 1, is_open. rewrite Hc. simpl.
  rewrite bind_unfold. unfold cursor_execute at 1. simpl. rewrite Hc. simpl.
  by rewrite (resolve_snoc_dir _ _ _ _ _ Hq), Hx.
Qed.

(** ** initialize_database, step by step *)

Lemma initialize_database_unfold p :
  initialize_database p
  = (os_makedirs (os_path_dirname p) true ;;
     conn ← sqlite3_connect p; after_connect conn).
Proof. reflexivity. Qed.

Lemma init_makedirs_raised p w e w1 :
  os_makedirs (os_path_dirname p) true w = (Raised e, w1) ->
  initialize_database p w = (Raised e, w1).
Proof.
  intros H. rewrite initialize_database_unfold, bind_unfold. by rewrite H.
Qed.

Lemma init_makedirs_returned p w w1 :
  os_makedirs (os_path_dirname p) true w = (Returned tt, w1) ->
  initialize_database p w = (sqlite3_connect p ≫= after_connect) w1.
Proof.
  intros H. rewrite initialize_database_unfold, bind_unfold. by rewrite H.
Qed.

(** After the directories: the file is there and holds a database. *)
Lemma rest_on_database q x wr es d w :
  resolve (fs w) q = inr (Dir wr es) -> es !! x = Some (File (Db d)) ->
  (sqlite3_connect (q ++ [x]) ≫= after_connect) w
  = left_by (snd (open_connection (q ++ [x]) w)) (length (conns w)) (q ++ [x])
            (exec_all wr false (clock w) schema d).
Proof.
  intros Hq Hx.
  rewrite bind_unfold, (connect_existing _ _ _ _ _ _ Hq Hx).
  unfold open_connection at 1. cbv beta iota.
  apply (after_connect_on_db _ _ _ _ _ (on_db_open _ _ _ _ _ _ Hq Hx)).
Qed.

(** The five statements on the empty database, in a writable directory. *)
Lemma exec_all_empty now :
  exec_all true false now schema empty_db = (None, fresh_db).
Proof. vm_compute. reflexivity. Qed.

Lemma insert_new_connection (cs : list connection) (c c' : connection) :
  <[length cs := c']> (cs ++ [c]) = cs ++ [c'].
Proof.
  assert (Hl : (length cs = length cs + 0)%nat) by lia.
  rewrite Hl at 1. by rewrite insert_app_r.
Qed.

(** After the directories: the directory is writable, the file is not
    there. *)
Lemma rest_new_file q x es w :
  resolve (fs w) q = inr (Dir true es) -> es !! x = None ->
  (sqlite3_connect (q ++ [x]) ≫= after_connect) w
  = (Returned tt,
     with_conns (put_db w (q ++ [x]) fresh_db)
                (conns w ++ [Connection (q ++ [x]) false false])).
Proof.
  intros Hq Hx.
  rewrite bind_unfold, (connect_new _ _ _ _ Hq Hx).
  unfold open_connection at 1. cbv beta iota.
  pose proof (on_db_open_new q x es w Hq) as Hon.
  etrans; [apply (after_connect_on_db _ _ _ _ _ Hon)|].
  simpl clock. rewrite exec_all_empty. unfold left_by. simpl fst. simpl snd.
  f_equal. simpl conns. rewrite insert_new_connection.
  unfold put_db, with_fs, with_conns. simpl.
  by rewrite (store_store _ _ _ _ _ _ _ Hq).
Qed.

Lemma isdir_at_resolved n q w es :
  q <> [] -> resolve n q = inr (Dir w es) -> isdir_at n q = true.
Proof. intros Hne Hq. unfold isdir_at. destruct q; [done|]. by rewrite Hq. Qed.

Lemma init_on_database q x wr es d w :
  q <> [] ->
  resolve (fs w) q = inr (Dir wr es) -> es !! x = Some (File (Db d)) ->
  initialize_database (q ++ [x]) w
  = left_by (snd (open_connection (q ++ [x]) w)) (length (conns w)) (q ++ [x])
            (exec_all wr false (clock w) schema d).
Proof.
  intros Hne Hq Hx. rewrite (init_makedirs_returned _ w w).
  - by eapply rest_on_database.
  - rewrite dirname_snoc. apply makedirs_existing. by eapply isdir_at_resolved.
Qed.

Lemma init_new_file q x es w :
  q <> [] ->
  resolve (fs w) q = inr (Dir true es) -> es !! x = None ->
  initialize_database (q ++ [x]) w
  = (Returned tt,
     with_conns (put_db w (q ++ [x]) fresh_db)
                (conns w ++ [Connection (q ++ [x]) false false])).
Proof.
  intros Hne Hq Hx. rewrite (init_makedirs_returned _ w w).
  - by eapply rest_new_file.
  - rewrite dirname_snoc. apply makedirs_existing. by eapply isdir_at_resolved.
Qed.

Lemma makedirs_empty_name w :
  os_makedirs [] true w = (Raised FileNotFoundError, w).
Proof. reflexivity. Qed.

Lemma os_makedirs_spec (name : path) (w : world) :
  match os_makedirs name true w with
  | (Returned _, w') =>
      name <> [] /\ same_but_fs w w'
      /\ ((isdir_at (fs w) name = true /\ w' = w)
          \/ (exists_at (fs w) name = false
              /\ resolve (fs w') name = inr (Dir true ∅)))
  | (Raised e, w') =>
      same_but_fs w w' /\ is_OSError e = true /\ isdir_at (fs w') name = false
  end.
Proof.
  destruct name as [|a name'] eqn:E; [by rewrite makedirs_empty_name|].
  rewrite <- E. pose proof (makedirs_rev_spec (rev name) w) as H.
  rewrite rev_involutive in H. unfold os_makedirs.
  destruct (makedirs_rev (rev name) true w) as [[[]|e] w']; [|done].
  split; [by rewrite E|done].
Qed.

(** A location where nothing is: if the call returns, the file holds the
    five empty tables, in a writable directory, and the connection is
    closed. *)
Lemma init_fresh p w w' :
  exists_at (fs w) p = false ->
  initialize_database p w = (Returned tt, w') ->
  exists q x es,
    p = q ++ [x] /\ q <> []
    /\ resolve (fs w') q = inr (Dir true es)
    /\ es !! x = Some (File (Db fresh_db))
    /\ conns w' = conns w ++ [Connection p false false]
    /\ stdout w' = stdout w /\ clock w' = clock w.
Proof.
  intros Hex Hinit.
  pose proof (os_makedirs_spec (os_path_dirname p) w) as Hm.
  destruct (os_makedirs (os_path_dirname p) true w) as [[[]|e] w1] eqn:Em.
  2:{ rewrite (init_makedirs_raised _ _ _ _ Em) in Hinit. done. }
  rewrite (init_makedirs_returned _ _ _ Em) in Hinit.
  destruct Hm as (Hne & (Hc & Ho & Hk) & Hm).
  destruct p as [|x q _] using rev_ind; [done|].
  rewrite dirname_snoc in *.
  assert (Hnew : forall es, resolve (fs w1) q = inr (Dir true es) ->
                 es !! x = None ->
                 exists q0 x0 es0,
                   q ++ [x] = q0 ++ [x0] /\ q0 <> []
                   /\ resolve (fs w') q0 = inr (Dir true es0)
                   /\ es0 !! x0 = Some (File (Db fresh_db))
                   /\ conns w' = conns w ++ [Connection (q ++ [x]) false false]
                   /\ stdout w' = stdout w /\ clock w' = clock w).
  { intros es Hq Hx. rewrite (rest_new_file _ _ _ _ Hq Hx) in Hinit.
    injection Hinit as <-.
    exists q, x, (<[x := File (Db fresh_db)]> es).
    split; [done|]. split; [done|]. split.
    { apply (store_snoc_parent _ _ _ _ _ _ Hq). }
    split; [apply lookup_insert_eq|]. simpl. by rewrite Hc. }
  destruct Hm as [[Hd ->]|[_ Hr]].
  - unfold isdir_at in Hd. destruct q as [|a q'] eqn:Eq; [done|]. rewrite <- Eq in *.
    destruct (resolve (fs w) q) as [|[|wr es]] eqn:Hq; try done.
    rewrite exists_at_snoc, (resolve_snoc_dir _ _ _ _ _ Hq) in Hex.
    destruct (es !! x) eqn:Hx; [done|].
    destruct wr; [by eapply Hnew|].
    exfalso. destruct (connect_cases (q ++ [x]) w) as [Ec|(q1 & x1 & wr1 & es1 & E1 & Hq1 & Hc1)].
    + rewrite bind_unfold, Ec in Hinit. done.
    + apply app_inj_tail in E1 as [<- <-]. rewrite Hq in Hq1.
      injection Hq1 as <- <-.
      destruct Hc1 as [(c & Hc1 & _)|(? & _)]; congruence.
  - eapply Hnew; [exact Hr|apply lookup_empty].
Qed.

(** What a call does to the connections: on return the one it opened is
    closed; when it raises, it opened none or left the one it opened
    open.  The standard output and the clock are not touched. *)
Lemma init_outcome p w :
  match initialize_database p w with
  | (Returned _, w') =>
      conns w' = conns w ++ [Connection p false false]
      /\ stdout w' = stdout w /\ clock w' = clock w
  | (Raised e, w') =>
      (conns w' = conns w \/ conns w' = conns w ++ [Connection p true false])
      /\ stdout w' = stdout w /\ clock w' = clock w
  end.
Proof.
  pose proof (os_makedirs_spec (os_path_dirname p) w) as Hm.
  destruct (os_makedirs (os_path_dirname p) true w) as [[[]|e] w1] eqn:Em.
  2:{ rewrite (init_makedirs_raised _ _ _ _ Em).
      destruct Hm as ((Hc & Ho & Hk) & _). auto. }
  rewrite (init_makedirs_returned _ _ _ Em).
  destruct Hm as (_ & (Hc & Ho & Hk) & _). rewrite <- Hc, <- Ho, <- Hk.
  clear dependent w. rename w1 into w.
  destruct (connect_cases p w) as [Ec|(q & x & wr & es & -> & Hq & Hcase)].
  { rewrite bind_unfold, Ec. auto. }
  destruct Hcase as [([|d] & Hx & _)|(-> & Hx & _)].
  - rewrite bind_unfold, (connect_existing _ _ _ _ _ _ Hq Hx).
    unfold open_connection at 1. cbv beta iota.
    erewrite after_connect_garbage; [| |exact Hq|exact Hx].
    + simpl. auto.
    + apply lookup_new_connection.
  - rewrite (rest_on_database _ _ _ _ _ _ Hq Hx). unfold left_by.
    destruct (exec_all wr false (clock w) schema d) as [[e|] d']; simpl;
      rewrite insert_new_connection; auto.
  - rewrite (rest_new_file _ _ _ _ Hq Hx). simpl. auto.
Qed.

Lemma isdir_at_ancestors n q w es a :
  resolve n q = inr (Dir w es) -> a ∈ ancestors q -> isdir_at n a = true.
Proof.
  intros Hq Ha. unfold ancestors in Ha.
  apply list_elem_of_fmap in Ha as (k & -> & Hk).
  apply elem_of_seq in Hk.
  rewrite <- (take_drop k q), resolve_app in Hq.
  unfold isdir_at.
  destruct (take k q) as [|y t] eqn:Et.
  { apply (f_equal length) in Et. rewrite length_take in Et. simpl in Et. lia. }
  destruct (resolve n (y :: t)) as [|[c|w' es']]; try done.
  by destruct (drop k q).
Qed.

(** Missing directories that can be made: the call makes them, makes the
    file and returns; the file holds the five empty tables. *)
Lemma init_creatable q x w :
  creatable (fs w) q ->
  exists w',
    initialize_database (q ++ [x]) w = (Returned tt, w')
    /\ db_at (fs w') (q ++ [x]) = Some fresh_db
    /\ (forall a, a ∈ ancestors q -> isdir_at (fs w') a = true)
    /\ conns w' = conns w ++ [Connection (q ++ [x]) false false].
Proof.
  intros (q0 & r & x0 & es & -> & Hq0 & Hx0).
  destruct (makedirs_creates r q0 x0 es w Hq0 Hx0) as (w1 & Em & (Hc & _) & Hr).
  eexists. split.
  { rewrite (init_makedirs_returned _ w w1) by (by rewrite dirname_snoc).
    apply (rest_new_file _ _ _ _ Hr (lookup_empty x)). }
  simpl. split; [|split].
  - unfold db_at. by rewrite (store_snoc_self _ _ _ _ _ _ Hr).
  - intros a Ha. eapply isdir_at_ancestors; [|exact Ha].
    apply (store_snoc_parent _ _ _ _ _ _ Hr).
  - by rewrite Hc.
Qed.

Lemma exec_checked_create_taken wr fk now name cols fks d :
  name_taken d name = true ->
  exec_checked wr fk now (CREATE_TABLE true name cols fks) d = inr (d, None).
Proof.
  unfold name_taken, exec_checked, needs_write, exec_stmt, exec_create.
  destruct (objects d !! name) as [[]|] eqn:E; try done.
Qed.

(** All five names in use by tables or views: the statements do nothing. *)
Lemma exec_all_noop wr now d :
  forallb (name_taken d) table_names = true ->
  exec_all wr false now schema d = (None, d).
Proof.
  intros H. unfold table_names in H. simpl in H.
  rewrite !andb_true_iff in H. destruct H as (H1 & H2 & H3 & H4 & H5 & _).
  unfold schema, create_goals, create_tasks, create_daily_logs,
    create_calendar_events, create_patterns.
  by repeat (rewrite exec_all_cons, exec_checked_create_taken by done).
Qed.

(** The second call: on a file that has the five names, in a directory
    that is there, the call returns and only the list of connections
    grows. *)
Lemma init_again q x wr es d w :
  q <> [] ->
  resolve (fs w) q = inr (Dir wr es) -> es !! x = Some (File (Db d)) ->
  forallb (name_taken d) table_names = true ->
  initialize_database (q ++ [x]) w
  = (Returned tt,
     with_conns w (conns w ++ [Connection (q ++ [x]) false false])).
Proof.
  intros Hne Hq Hx Hn.
  rewrite (init_on_database _ _ _ _ _ _ Hne Hq Hx), (exec_all_noop _ _ _ Hn).
  unfold left_by. simpl. rewrite insert_new_connection. f_equal.
  unfold put_db, with_fs, with_conns. simpl.
  by rewrite (store_snoc_id _ _ _ _ _ _ Hq Hx).
Qed.

(** ** The engine *)

Lemma schema_of_lookup d name :
  schema_of d !! name = decl_of <$> objects d !! name.
Proof. apply lookup_fmap. Qed.

Lemma fresh_db_declared s : s ∈ schema -> declared_as fresh_db s.
Proof.
  unfold schema. rewrite !elem_of_cons, elem_of_nil.
  intros [->|[->|[->|[->|[->|[]]]]]]; exists []; vm_compute; reflexivity.
Qed.

(** A database with the catalogue of [fresh_db] declares each of the five
    tables as the source does. *)
Lemma same_schema_declared d s :
  schema_of d = schema_of fresh_db -> s ∈ schema -> declared_as d s.
Proof.
  intros Hs Hin. destruct (fresh_db_declared s Hin) as (rows0 & H0).
  pose proof (f_equal (fun m => m !! stmt_name s) Hs) as E. simpl in E.
  rewrite !schema_of_lookup, H0 in E.
  destruct (objects d !! stmt_name s) as [[[cols fks rows]| |]|] eqn:Hd;
    simpl in E; try done.
  injection E as -> ->. by exists rows.
Qed.

Lemma exec_insert_inv fk now name vals d d' o :
  exec_insert fk now name vals d = inr (d', o) ->
  exists t id,
    objects d !! name = Some (ObjTable t) /\ o = Some id
    /\ d' = Database
              (<[name := ObjTable (Table (tbl_cols t) (tbl_cons t)
                                     (tbl_rows t ++ [Row id (new_cells now vals t)]))]>
                 (objects d))
              (bump_sequence t name id d)
    /\ match requested_rowid t vals with
       | Auto => next_rowid (tbl_autoinc t) (seq_of d name) (tbl_rows t) = Some id
       | Explicit i => id = i /\ has_rowid (tbl_rows t) i = false
       | Mismatch => False
       end.
Proof.
  unfold exec_insert.
  destruct (objects d !! name) as [[t| |]|]; try done.
  destruct (negb (keys_known t vals)); [done|]. cbv zeta.
  destruct (requested_rowid t vals) as [|i|] eqn:Hreq.
  - destruct (next_rowid _ _ _) as [id|] eqn:Hnext; [|done].
    destruct (negb (forallb _ _)); [done|].
    destruct (fk && _); [done|]. intros [= <- <-].
    exists t, id. by rewrite Hreq.
  - destruct (negb (forallb _ _)); [done|].
    destruct (has_rowid (tbl_rows t) i) eqn:Hi; [done|].
    destruct (fk && _); [done|]. intros [= <- <-].
    exists t, i. by rewrite Hreq.
  - done.
Qed.

Lemma exec_insert_auto now name vals d t id :
  objects d !! name = Some (ObjTable t) ->
  keys_known t vals = true ->
  forallb (not_null_ok now vals) (tbl_cols t) = true ->
  requested_rowid t vals = Auto ->
  next_rowid (tbl_autoinc t) (seq_of d name) (tbl_rows t) = Some id ->
  exec_insert false now name vals d
  = inr (Database
           (<[name := ObjTable (Table (tbl_cols t) (tbl_cons t)
                                  (tbl_rows t ++ [Row id (new_cells now vals t)]))]>
              (objects d))
           (bump_sequence t name id d), Some id).
Proof.
  intros Ht Hk Hn Hr Hi. unfold exec_insert. by rewrite Ht, Hk, Hr, Hi, Hn.
Qed.

Lemma exec_delete_inv fk name id d d' o :
  exec_delete fk name id d = inr (d', o) ->
  exists t,
    objects d !! name = Some (ObjTable t) /\ o = None
    /\ d' = Database
              (<[name := ObjTable (Table (tbl_cols t) (tbl_cons t)
                    (List.filter (fun r => negb (Z.eqb (rowid r) id)) (tbl_rows t)))]>
                 (objects d))
              (sqlite_sequence d).
Proof.
  unfold exec_delete.
  destruct (objects d !! name) as [[t| |]|]; try done.
  destruct (fk && _); [done|]. intros [= <- <-]. by exists t.
Qed.

Lemma exec_delete_unchecked name id d t :
  objects d !! name = Some (ObjTable t) ->
  exec_delete false name id d
  = inr (Database
           (<[name := ObjTable (Table (tbl_cols t) (tbl_cons t)
                 (List.filter (fun r => negb (Z.eqb (rowid r) id)) (tbl_rows t)))]>
              (objects d))
           (sqlite_sequence d), None).
Proof. intros Ht. unfold exec_delete. by rewrite Ht. Qed.

Lemma schema_of_insert_rows d name t rows seq :
  objects d !! name = Some (ObjTable t) ->
  schema_of (Database (<[name := ObjTable (Table (tbl_cols t) (tbl_cons t) rows)]>
                         (objects d)) seq)
  = schema_of d.
Proof.
  intros Ht. unfold schema_of. simpl. rewrite fmap_insert. simpl.
  apply insert_id. by rewrite lookup_fmap, Ht.
Qed.

(** INSERT, DELETE and the pragma change no declaration. *)
Lemma exec_stmt_schema fk now s d d' o :
  is_create s = false ->
  exec_stmt fk now s d = inr (d', o) -> schema_of d' = schema_of d.
Proof.
  intros Hs. unfold exec_stmt. destruct s; try done.
  - intros H. apply exec_insert_inv in H as (t & id & Ht & _ & -> & _).
    by apply schema_of_insert_rows.
  - intros H. apply exec_delete_inv in H as (t & Ht & _ & ->).
    by apply schema_of_insert_rows.
  - by intros [= <- _].
Qed.

Lemma exec_checked_schema wr fk now s d d' o :
  is_create s = false ->
  exec_checked wr fk now s d = inr (d', o) -> schema_of d' = schema_of d.
Proof.
  intros Hs. unfold exec_checked. destruct (_ && _); [done|].
  by apply exec_stmt_schema.
Qed.

Lemma same_schema_taken d :
  schema_of d = schema_of fresh_db ->
  forallb (name_taken d) table_names = true.
Proof.
  intros Hs.
  assert (Hn : forall s, s ∈ schema -> name_taken d (stmt_name s) = true).
  { intros s Hin. destruct (same_schema_declared d s Hs Hin) as (rows & H).
    unfold name_taken. by rewrite H. }
  change table_names with (map stmt_name schema).
  apply forallb_forall. intros name Hin. apply in_map_iff in Hin as (s & <- & Hin).
  apply Hn. by apply list_elem_of_In.
Qed.

(** ** A client session on the file *)

Lemma on_db_set_pragma w h p fk wr d b :
  on_db w h p fk wr d ->
  on_db (with_conns w (<[h := Connection p true b]> (conns w))) h p b wr d.
Proof.
  intros (Hc & Hf). split; [|done]. simpl.
  apply list_lookup_insert_eq. by eapply lookup_lt_Some.
Qed.

Lemma run_statements_on_db ss w h p fk wr d :
  on_db w h p fk wr d ->
  forallb (fun s => negb (is_create s)) ss = true ->
  exists fk' d',
    run_statements (Cursor h) ss w
    = (Returned tt,
       with_conns (put_db w p d') (<[h := Connection p true fk']> (conns w)))
    /\ schema_of d' = schema_of d
    /\ (ss = [] -> d' = d).
Proof.
  revert w fk d. induction ss as [|s rest IH]; intros w fk d Hon Hss.
  - exists fk, d. split; [|done]. simpl. unfold pass. f_equal.
    rewrite (put_db_same _ _ _ _ _ _ Hon), (list_insert_id _ _ _ (proj1 Hon)).
    by rewrite with_conns_same.
  - simpl in Hss. apply andb_true_iff in Hss as [Hs Hrest].
    apply negb_true_iff in Hs.
    change (run_statements (Cursor h) (s :: rest))
      with (try_except (cursor_execute (Cursor h) s) (fun _ => pass) ;;
            run_statements (Cursor h) rest).
    rewrite bind_unfold. unfold try_except.
    destruct (is_pragma s) eqn:Hp.
    + destruct s; try done.
      rewrite (cursor_execute_pragma _ _ _ _ _ _ _ Hon).
      destruct (IH _ _ _ (on_db_set_pragma _ _ _ _ _ _ on Hon) Hrest)
        as (fk' & d' & E & Hd & _).
      exists fk', d'. split; [|done]. rewrite E. f_equal.
      unfold put_db, with_fs, with_conns. simpl. by rewrite list_insert_insert_eq.
    + rewrite (cursor_execute_on_db _ _ _ _ _ _ _ Hon Hp).
      destruct (exec_checked wr fk (clock w) s d) as [e|[d1 o]] eqn:Ex.
      * unfold pass at 1.
        destruct (IH _ _ _ Hon Hrest) as (fk' & d' & E & Hd & _).
        by exists fk', d'.
      * destruct (IH _ _ _ (on_db_put_db _ _ _ _ _ _ d1 Hon) Hrest)
          as (fk' & d' & E & Hd & _).
        exists fk', d'. split; [|split; [|done]].
        -- rewrite E. f_equal. by rewrite (put_db_put_db _ _ _ _ _ _ _ _ Hon).
        -- rewrite Hd. by eapply exec_checked_schema.
Qed.

(** A session without CREATE TABLE on a file that holds a database: it
    returns, the declarations are as before, its connection is closed. *)
Lemma session_on_database q x wr es d ss w :
  resolve (fs w) q = inr (Dir wr es) -> es !! x = Some (File (Db d)) ->
  forallb (fun s => negb (is_create s)) ss = true ->
  exists fk' d',
    session (q ++ [x]) ss w
    = (Returned tt,
       with_conns (put_db w (q ++ [x]) d')
                  (conns w ++ [Connection (q ++ [x]) false fk']))
    /\ schema_of d' = schema_of d
    /\ (ss = [] -> d' = d).
Proof.
  intros Hq Hx Hss. unfold session.
  rewrite bind_unfold, (connect_existing _ _ _ _ _ _ Hq Hx).
  unfold open_connection at 1. cbv beta iota.
  pose proof (on_db_open _ _ _ _ _ _ Hq Hx) as Hon. simpl in Hon.
  set (w0 := with_conns w _) in *.
  rewrite bind_unfold. unfold conn_cursor at 1, is_open.
  rewrite (proj1 Hon). simpl conn_open. cbv beta iota.
  destruct (run_statements_on_db ss _ _ _ _ _ _ Hon Hss)
    as (fk' & d' & E & Hd & Hnil).
  exists fk', d'. split; [|done].
  rewrite bind_unfold, E. cbv beta iota.
  rewrite bind_unfold. unfold conn_commit at 1, is_open. simpl conns.
  rewrite insert_new_connection, lookup_new_connection. simpl conn_open.
  cbv beta iota. unfold conn_close. simpl conns.
  rewrite lookup_new_connection. simpl. by rewrite insert_new_connection.
Qed.

(** ** The five statements on any database *)

Lemma schema_sound : forallb sound_create schema = true.
Proof. vm_compute. reflexivity. Qed.

Lemma schema_names : map stmt_name schema = table_names.
Proof. reflexivity. Qed.

Lemma schema_names_NoDup : NoDup (map stmt_name schema).
Proof. apply (bool_decide_unpack _). vm_compute. exact I. Qed.

(** One CREATE TABLE IF NOT EXISTS, as [cursor_execute] runs it. *)
Lemma exec_checked_sound_create wr fk now s d :
  sound_create s = true ->
  exec_checked wr fk now s d
  = match objects d !! stmt_name s with
    | Some (ObjIndex _) =>
        inl (OperationalError ("there is already an index named " +:+ stmt_name s))
    | Some _ => inr (d, None)
    | None =>
        if wr
        then inr (Database (<[stmt_name s := ObjTable (table_of s)]> (objects d))
                           (sqlite_sequence d), None)
        else inl readonly_database
    end.
Proof.
  destruct s as [[] name cols fks| | |]; try done. simpl. intros Hw.
  unfold exec_checked, needs_write, exec_stmt, exec_create.
  destruct (objects d !! name) as [[t|on|]|] eqn:E; simpl; try done.
  rewrite Hw. by destruct wr.
Qed.

Lemma exec_all_app wr fk now ss1 ss2 d :
  exec_all wr fk now (ss1 ++ ss2) d
  = match exec_all wr fk now ss1 d with
    | (None, d1) => exec_all wr fk now ss2 d1
    | (Some e, d1) => (Some e, d1)
    end.
Proof.
  revert d. induction ss1 as [|s ss1 IH]; intros d; [done|].
  simpl. destruct (exec_checked wr fk now s d) as [e|[d1 o]]; [done|apply IH].
Qed.

(** Whatever the outcome of a row of such statements, nothing that was in
    the database is gone or changed, the counters are as they were, and
    names the statements do not mention are as they were.  When none
    failed, each name they mention holds what it held, or else the declared
    empty table. *)
Lemma exec_all_creates_spec wr now ss d err d' :
  forallb sound_create ss = true ->
  NoDup (map stmt_name ss) ->
  exec_all wr false now ss d = (err, d') ->
  objects d ⊆ objects d'
  /\ sqlite_sequence d' = sqlite_sequence d
  /\ (forall n, n ∉ map stmt_name ss -> objects d' !! n = objects d !! n)
  /\ (err = None ->
      forall s, s ∈ ss ->
        objects d' !! stmt_name s
        = Some (default (ObjTable (table_of s)) (objects d !! stmt_name s))
        /\ name_taken d' (stmt_name s) = true).
Proof.
  revert d. induction ss as [|s ss IH]; intros d Hs Hnd E.
  - simpl in E. injection E as <- <-.
    split; [reflexivity|]. split; [done|]. split; [done|].
    intros _ s0 Hin. by apply elem_of_nil in Hin.
  - simpl in Hs. apply andb_true_iff in Hs as [Hs Hss].
    simpl in Hnd. apply NoDup_cons in Hnd as [Hn Hnd].
    rewrite exec_all_cons, (exec_checked_sound_create _ _ _ _ _ Hs) in E.
    destruct (objects d !! stmt_name s) as [o|] eqn:Eo.
    + assert (Hnoidx : (exists on, o = ObjIndex on)
                       \/ (exec_all wr false now ss d = (err, d')
                           /\ name_taken d (stmt_name s) = true)).
      { unfold name_taken. rewrite Eo. destruct o; eauto. }
      destruct Hnoidx as [[on ->]|[E' Ho]].
      { injection E as <- <-. split; [reflexivity|]. by repeat split. }
      destruct (IH d Hss Hnd E') as (Hsub & Hseq & Hout & Hin).
      split; [done|]. split; [done|]. split.
      * intros n Hnot. apply Hout. intros H. apply Hnot. simpl. by right.
      * intros -> s' Hs'. apply elem_of_cons in Hs' as [->|Hs']; [|by apply Hin].
        rewrite (Hout _ Hn), Eo. split; [done|].
        unfold name_taken in *. by rewrite (Hout _ Hn).
    + destruct wr.
      2:{ injection E as <- <-. split; [reflexivity|]. by repeat split. }
      destruct (IH _ Hss Hnd E) as (Hsub & Hseq & Hout & Hin). simpl in *.
      split; [|split; [done|split]].
      * etrans; [|exact Hsub]. by apply insert_subseteq.
      * intros n Hnot. rewrite Hout.
        -- rewrite lookup_insert_ne; [done|]. intros E1. subst n.
           apply Hnot. by left.
        -- intros H. apply Hnot. by right.
      * intros -> s' Hs'. apply elem_of_cons in Hs' as [->|Hs'].
        -- rewrite (Hout _ Hn), lookup_insert_eq, Eo. split; [done|].
           unfold name_taken. by rewrite (Hout _ Hn), lookup_insert_eq.
        -- destruct (Hin eq_refl s' Hs') as [Hl Ht]. split; [|done].
           rewrite Hl. rewrite lookup_insert_ne; [done|].
           intros E'. apply Hn. rewrite E'. by apply list_elem_of_fmap_2.
Qed.

(** In a writable directory such statements fail only on an index. *)
Lemma exec_all_creates_ok now ss d :
  forallb sound_create ss = true ->
  Forall (fun s => no_index d (stmt_name s) = true) ss ->
  exists d', exec_all true false now ss d = (None, d').
Proof.
  revert d. induction ss as [|s ss IH]; intros d Hs Hni; [by exists d|].
  simpl in Hs. apply andb_true_iff in Hs as [Hs Hss].
  apply Forall_cons in Hni as [Hn Hni].
  rewrite exec_all_cons, (exec_checked_sound_create _ _ _ _ _ Hs).
  unfold no_index in Hn.
  destruct (objects d !! stmt_name s) as [[t|on|]|] eqn:Eo; try done.
  - by apply IH.
  - by apply IH.
  - apply IH; [done|]. eapply Forall_impl; [exact Hni|].
    intros s' H'. unfold no_index in *. simpl.
    destruct (decide (stmt_name s = stmt_name s')) as [->|Hne].
    + by rewrite lookup_insert_eq.
    + by rewrite lookup_insert_ne.
Qed.

(** In a directory without write permission such statements go through
    exactly when every name is taken; the first free name stops them, and
    nothing is written. *)
Lemma exec_all_creates_readonly now ss d :
  forallb sound_create ss = true ->
  Forall (fun s => no_index d (stmt_name s) = true) ss ->
  exec_all false false now ss d
  = (if forallb (fun s => name_taken d (stmt_name s)) ss then None
     else Some readonly_database, d).
Proof.
  induction ss as [|s ss IH]; intros Hs Hni; [done|].
  simpl in Hs. apply andb_true_iff in Hs as [Hs Hss].
  apply Forall_cons in Hni as [Hn Hni].
  rewrite exec_all_cons, (exec_checked_sound_create _ _ _ _ _ Hs).
  simpl. unfold no_index, name_taken in *.
  destruct (objects d !! stmt_name s) as [[t|on|]|] eqn:Eo; try done;
    simpl; by apply IH.
Qed.

Lemma schema_no_index d :
  forallb (no_index d) table_names = true ->
  Forall (fun s => no_index d (stmt_name s) = true) schema.
Proof.
  intros H. apply Forall_forall. intros s Hs.
  apply (proj1 (forallb_forall _ _) H). rewrite <- schema_names.
  apply in_map. by apply list_elem_of_In.
Qed.

(** ** The call that returned *)

(** A call that returned: the path has a directory part, which is a
    directory; the file holds what the five statements made of the database
    it held before, or of the empty database when there was no file; the
    connection is closed. *)
Lemma init_returned p w w' :
  initialize_database p w = (Returned tt, w') ->
  exists q x wr es d',
    p = q ++ [x] /\ q <> []
    /\ resolve (fs w') q = inr (Dir wr es)
    /\ es !! x = Some (File (Db d'))
    /\ exec_all wr false (clock w) schema (default empty_db (db_at (fs w) p))
       = (None, d')
    /\ conns w' = conns w ++ [Connection p false false].
Proof.
  intros Hinit.
  pose proof (os_makedirs_spec (os_path_dirname p) w) as Hm.
  destruct (os_makedirs (os_path_dirname p) true w) as [[[]|e] w0] eqn:Em.
  2:{ rewrite (init_makedirs_raised _ _ _ _ Em) in Hinit. done. }
  rewrite (init_makedirs_returned _ _ _ Em) in Hinit.
  destruct Hm as (Hne & (Hc & _ & Hk) & Hm).
  destruct p as [|x q _] using rev_ind; [done|].
  rewrite dirname_snoc in *.
  destruct (connect_cases (q ++ [x]) w0)
    as [Ec|(q1 & x1 & wr & es & E1 & Hq & Hcase)].
  { rewrite bind_unfold, Ec in Hinit. done. }
  apply app_inj_tail in E1 as [<- <-].
  destruct Hcase as [([|d] & Hx & _)|(-> & Hx & _)].
  - rewrite bind_unfold, (connect_existing _ _ _ _ _ _ Hq Hx) in Hinit.
    unfold open_connection at 1 in Hinit. cbv beta iota in Hinit.
    erewrite after_connect_garbage in Hinit; [done| |exact Hq|exact Hx].
    apply lookup_new_connection.
  - assert (w0 = w) as ->.
    { destruct Hm as [[_ ->]|[_ Hr]]; [done|].
      rewrite Hr in Hq. injection Hq as <- <-. by rewrite lookup_empty in Hx. }
    rewrite (rest_on_database _ _ _ _ _ _ Hq Hx) in Hinit.
    assert (Hdb : db_at (fs w) (q ++ [x]) = Some d).
    { unfold db_at. by rewrite (resolve_snoc_dir _ _ _ _ _ Hq), Hx. }
    rewrite Hdb. change (default empty_db (Some d)) with d.
    destruct (exec_all wr false (clock w) schema d) as [[e|] d'] eqn:Ex;
      unfold left_by in Hinit; simpl in Hinit; [done|].
    injection Hinit as <-.
    exists q, x, wr, (<[x := File (Db d')]> es), d'.
    split; [done|]. split; [done|]. split.
    { apply (store_snoc_parent _ _ _ _ _ _ Hq). }
    split; [apply lookup_insert_eq|]. split; [done|].
    simpl. by rewrite insert_new_connection.
  - rewrite (rest_new_file _ _ _ _ Hq Hx) in Hinit. injection Hinit as <-.
    assert (Hdb : db_at (fs w) (q ++ [x]) = None).
    { unfold db_at. rewrite resolve_app.
      destruct Hm as [[_ ->]|[Hex Hr]].
      - rewrite Hq. simpl. by rewrite Hx.
      - unfold exists_at in Hex. destruct q; [done|].
        by destruct (resolve (fs w) (s :: q)). }
    rewrite Hdb. change (default empty_db None) with empty_db.
    exists q, x, true, (<[x := File (Db fresh_db)]> es), fresh_db.
    split; [done|]. split; [done|]. split.
    { apply (store_snoc_parent _ _ _ _ _ _ Hq). }
    split; [apply lookup_insert_eq|]. split; [apply exec_all_empty|].
    simpl. by rewrite Hc.
Qed.

(** After a call that returned, a call on an environment with the same
    tree returns and changes nothing but the list of connections. *)
Lemma init_after_return p w w1 w2 :
  initialize_database p w = (Returned tt, w1) ->
  fs w2 = fs w1 ->
  initialize_database p w2
  = (Returned tt, with_conns w2 (conns w2 ++ [Connection p false false])).
Proof.
  intros Hinit Hfs.
  destruct (init_returned _ _ _ Hinit)
    as (q & x & wr & es & d' & -> & Hne & Hq & Hx & Hex & _).
  rewrite <- Hfs in Hq.
  apply (init_again _ _ _ _ _ _ Hne Hq Hx).
  destruct (exec_all_creates_spec _ _ _ _ _ _ schema_sound schema_names_NoDup Hex)
    as (_ & _ & _ & Hin).
  rewrite <- schema_names. apply forallb_forall. intros n Hn.
  apply in_map_iff in Hn as (s & <- & Hs). apply list_elem_of_In in Hs.
  by destruct (Hin eq_refl s Hs).
Qed.

(** ** C1: calling twice *)

(** C1.  On a location where nothing was, after a first call that
    returned, the file holds the five tables; let then a client insert and
    delete rows; a second call returns (it does not raise), leaves the
    directory tree as it found it (so no row is altered), and the file
    still declares the same five tables.  With no client in between, the
    tree after the second call is the tree after the first. *)
Theorem initialize_twice (p : path) (w w1 : world) (ss : list stmt) :
  exists_at (fs w) p = false ->
  initialize_database p w = (Returned tt, w1) ->
  forallb (fun s => negb (is_create s)) ss = true ->
  let w2 := snd (session p ss w1) in
  let r := initialize_database p w2 in
  db_at (fs w1) p = Some fresh_db
  /\ fst r = Returned tt
  /\ fs (snd r) = fs w2
  /\ (exists d2, db_at (fs (snd r)) p = Some d2
                 /\ schema_of d2 = schema_of fresh_db)
  /\ (ss = [] -> fs (snd r) = fs w1).
Proof.
  intros Hex Hinit Hss.
  destruct (init_fresh _ _ _ Hex Hinit) as (q & x & es & -> & Hne & Hq & Hx & _).
  destruct (session_on_database _ _ _ _ _ _ _ Hq Hx Hss)
    as (fk' & d2 & E & Hd & Hnil).
  simpl. rewrite E. simpl.
  set (w2 := with_conns _ _).
  assert (Hq2 : resolve (fs w2) q = inr (Dir true (<[x := File (Db d2)]> es))).
  { apply (store_snoc_parent _ _ _ _ _ _ Hq). }
  assert (Hx2 : <[x := File (Db d2)]> es !! x = Some (File (Db d2))).
  { apply lookup_insert_eq. }
  rewrite (init_again _ _ _ _ _ _ Hne Hq2 Hx2)
    by (apply same_schema_taken; congruence).
  simpl. split; [|split; [done|split; [done|split]]].
  - unfold db_at. by rewrite (resolve_snoc_dir _ _ _ _ _ Hq), Hx.
  - exists d2. split; [|done].
    unfold db_at. by rewrite (store_snoc_self _ _ _ _ _ _ Hq).
  - intros Hss'. rewrite (Hnil Hss').
    by apply (store_snoc_id _ _ _ _ _ _ Hq Hx).
Qed.

Lemma initialize_twice_witness :
  let w := w_empty in
  let w1 := snd (initialize_database default_db_path w) in
  let ss := [INSERT_INTO "goals" {[ "title" := VText "learn" ]}] in
  let w2 := snd (session default_db_path ss w1) in
  let r := initialize_database default_db_path w2 in
  db_at (fs w1) default_db_path = Some fresh_db
  /\ fst r = Returned tt
  /\ fs (snd r) = fs w2
  /\ (exists d2, db_at (fs (snd r)) default_db_path = Some d2
                 /\ schema_of d2 = schema_of fresh_db)
  /\ (ss = [] -> fs (snd r) = fs w1).
Proof.
  apply (initialize_twice default_db_path w_empty
           (snd (initialize_database default_db_path w_empty))
           [INSERT_INTO "goals" {[ "title" := VText "learn" ]}]).
  - vm_compute. reflexivity.
  - vm_compute. reflexivity.
  - vm_compute. reflexivity.
Defined.

(** ** Reading back an inserted row *)

Lemma max_rowid_bound rs r :
  r ∈ rs -> rowid r <= default 0 (max_rowid rs).
Proof.
  induction rs as [|r0 rs IH]; [by rewrite elem_of_nil|].
  rewrite elem_of_cons. simpl.
  destruct (max_rowid rs) as [m|] eqn:E; simpl in *.
  - intros [->|H]; [lia|]. specialize (IH H). lia.
  - intros [->|H]; [lia|]. destruct rs; [by apply elem_of_nil in H|].
    simpl in E. by destruct (max_rowid rs).
Qed.

Lemma rowid_floor_bound autoinc seq rs r :
  r ∈ rs -> rowid r <= rowid_floor autoinc seq rs.
Proof.
  intros H. apply max_rowid_bound in H. unfold rowid_floor.
  destruct autoinc; lia.
Qed.

Lemma next_rowid_above autoinc seq rs id r :
  next_rowid autoinc seq rs = Some id -> r ∈ rs -> rowid r < id.
Proof.
  unfold next_rowid. destruct (MAX_ROWID <=? _)%Z; [done|].
  intros [= <-] H. apply (rowid_floor_bound autoinc seq) in H. lia.
Qed.

Lemma next_rowid_above_seq seq rs id :
  next_rowid true seq rs = Some id -> seq < id.
Proof.
  unfold next_rowid, rowid_floor. destruct (MAX_ROWID <=? _)%Z; [done|].
  intros [= <-]. lia.
Qed.

Lemma has_rowid_false rs i :
  has_rowid rs i = false <-> forall r, r ∈ rs -> rowid r <> i.
Proof.
  unfold has_rowid. induction rs as [|r0 rs IH]; simpl.
  - split; [intros _ r H; by apply elem_of_nil in H|done].
  - rewrite orb_false_iff, IH, Z.eqb_neq. split.
    + intros [H0 H] r. rewrite elem_of_cons. intros [->|Hr]; auto.
    + intros H. split; [apply H; left|intros r Hr; apply H; by right].
Qed.

Lemma find_inserted rs id cs :
  (forall r, r ∈ rs -> rowid r <> id) ->
  find (fun r => Z.eqb (rowid r) id) (rs ++ [Row id cs]) = Some (Row id cs).
Proof.
  induction rs as [|r0 rs IH]; intros H; simpl.
  - by rewrite Z.eqb_refl.
  - destruct (Z.eqb_spec (rowid r0) id) as [E|_].
    + exfalso. apply (H r0); [left|done].
    + apply IH. intros r Hr. apply H. by right.
Qed.

(** The row an INSERT adds is the only one with its rowid. *)
Lemma inserted_rowid_new t vals d name id :
  match requested_rowid t vals with
  | Auto => next_rowid (tbl_autoinc t) (seq_of d name) (tbl_rows t) = Some id
  | Explicit i => id = i /\ has_rowid (tbl_rows t) i = false
  | Mismatch => False
  end ->
  forall r, r ∈ tbl_rows t -> rowid r <> id.
Proof.
  destruct (requested_rowid t vals) as [|i|]; [|intros [-> H]|done].
  - intros H r Hr. pose proof (next_rowid_above _ _ _ _ _ H Hr). lia.
  - by apply has_rowid_false.
Qed.

Lemma new_cells_lookup now vals t c :
  NoDup (map col_name (tbl_cols t)) ->
  c ∈ tbl_cols t -> col_autoinc c = false ->
  new_cells now vals t !! col_name c = Some (cell_of now vals c).
Proof.
  intros Hnd Hc Ha. unfold new_cells.
  apply (elem_of_list_to_map_1
           (map (fun c => (col_name c, cell_of now vals c))
                (List.filter (fun c => negb (col_autoinc c)) (tbl_cols t)))).
  - rewrite <- list_fmap_compose.
    replace (fst ∘ (fun c0 => (col_name c0, cell_of now vals c0)))
      with col_name by done.
    revert Hnd. generalize (tbl_cols t). clear. intros cols.
    induction cols as [|c0 cols IH]; simpl; [constructor|].
    rewrite NoDup_cons. intros [Hn Hnd].
    destruct (negb (col_autoinc c0)); [|by apply IH].
    simpl. apply NoDup_cons. split; [|by apply IH].
    intros Hin. apply Hn. apply list_elem_of_fmap in Hin as (c1 & E & Hin).
    apply list_elem_of_fmap. exists c1. split; [done|].
    apply list_elem_of_In, filter_In in Hin as [Hin _]. by apply list_elem_of_In.
  - apply list_elem_of_fmap. exists c. split; [done|].
    apply list_elem_of_In, filter_In. split; [by apply list_elem_of_In|].
    by rewrite Ha.
Qed.

Lemma column_value_plain t r c :
  NoDup (map col_name (tbl_cols t)) ->
  c ∈ tbl_cols t -> col_autoinc c = false ->
  column_value t r (col_name c) = default VNull (cells r !! col_name c).
Proof.
  intros Hnd Hc Ha. unfold column_value, rowid_alias.
  destruct (find col_autoinc (tbl_cols t)) as [a|] eqn:Ef; [|done].
  apply find_some in Ef as [Hin Haa].
  destruct (String.eqb_spec (col_name a) (col_name c)) as [E|]; [|done].
  exfalso. assert (a = c); [|congruence].
  apply list_elem_of_In in Hin. clear Haa Ha.
  revert Hnd Hin Hc E. generalize (tbl_cols t). intros cols.
  induction cols as [|c0 cols IH]; simpl; [by rewrite elem_of_nil|].
  rewrite NoDup_cons, !elem_of_cons. intros [Hn Hnd] [->|Ha] [->|Hc] E; auto.
  - exfalso. apply Hn. rewrite E. by apply list_elem_of_fmap_2.
  - exfalso. apply Hn. rewrite <- E. by apply list_elem_of_fmap_2.
Qed.

(** A column of the inserted row holds the supplied value, else the
    default of the column. *)
Lemma read_inserted fk now name vals d d' id t c :
  objects d !! name = Some (ObjTable t) ->
  NoDup (map col_name (tbl_cols t)) ->
  c ∈ tbl_cols t -> col_autoinc c = false ->
  exec_insert fk now name vals d = inr (d', Some id) ->
  read d' name id (col_name c) = Some (cell_of now vals c).
Proof.
  intros Ht Hnd Hc Ha H.
  apply exec_insert_inv in H as (t' & id' & Ht' & [= <-] & -> & Hid).
  rewrite Ht in Ht'. injection Ht' as <-.
  unfold read. cbn [objects]. rewrite lookup_insert_eq. cbn [tbl_rows].
  rewrite (find_inserted _ _ _ (inserted_rowid_new _ _ _ _ _ Hid)).
  cbn [fmap option_fmap option_map].
  rewrite (column_value_plain _ _ c) by done. cbn [cells].
  by rewrite (new_cells_lookup _ _ _ _ Hnd Hc Ha).
Qed.

(** ** C2: the schema after a call *)

Lemma schema_NoDup s :
  s ∈ schema -> NoDup (map col_name (tbl_cols (table_of s))).
Proof.
  unfold schema. rewrite !elem_of_cons, elem_of_nil.
  intros [->|[->|[->|[->|[->|[]]]]]];
    apply (bool_decide_unpack _); vm_compute; exact I.
Qed.

Lemma schema_created_at s :
  s ∈ schema ->
  Col "created_at" "TIMESTAMP" [DEFAULT CURRENT_TIMESTAMP] ∈ tbl_cols (table_of s).
Proof.
  unfold schema. rewrite !elem_of_cons, elem_of_nil.
  intros [->|[->|[->|[->|[->|[]]]]]]; apply list_elem_of_In; simpl; auto 10.
Qed.

Lemma cell_of_default now vals name ty e :
  cell_of now vals (Col name ty [DEFAULT e])
  = default (eval_default now (Some e)) (vals !! name).
Proof. unfold cell_of. simpl. by destruct (vals !! name). Qed.

(** C2, as amended.  After a call that returned, whatever the file held
    before it: each of the five names holds the object it held, shape and
    rows, when a table or a view used the name, and else the empty table
    the source declares for it; no other name is new.  So the file holds
    exactly the five declared tables, and nothing else, when it was missing
    or held the empty database.  In every database, in a table that is
    declared as the source declares it, whatever its rows, the row an
    INSERT adds holds in each column other than id the supplied value or
    else the declared default: created_at the clock reading at the insert,
    goals.status 'active', tasks.status 'pending'. *)
Theorem schema_after_init (p : path) (w w' : world) :
  initialize_database p w = (Returned tt, w') ->
  exists d',
    db_at (fs w') p = Some d'
    /\ (forall s, s ∈ schema ->
          objects d' !! stmt_name s
          = Some (default (ObjTable (table_of s))
                    (objects (default empty_db (db_at (fs w) p)) !! stmt_name s))
          /\ (objects (default empty_db (db_at (fs w) p)) !! stmt_name s = None ->
              declared_as d' s))
    /\ (forall n, n ∉ table_names ->
          objects d' !! n = objects (default empty_db (db_at (fs w) p)) !! n)
    /\ (default empty_db (db_at (fs w) p) = empty_db -> d' = fresh_db)
    /\ dom (objects fresh_db) = list_to_set table_names
    /\ forall d fk now s vals d2 id,
         s ∈ schema -> declared_as d s ->
         exec_insert fk now (stmt_name s) vals d = inr (d2, Some id) ->
         (forall c, c ∈ tbl_cols (table_of s) -> col_autoinc c = false ->
                    read d2 (stmt_name s) id (col_name c) = Some (cell_of now vals c))
         /\ read d2 (stmt_name s) id "created_at"
            = Some (default (VText now) (vals !! "created_at"))
         /\ (s = create_goals ->
             read d2 "goals" id "status"
             = Some (default (VText "active") (vals !! "status")))
         /\ (s = create_tasks ->
             read d2 "tasks" id "status"
             = Some (default (VText "pending") (vals !! "status"))).
Proof.
  intros Hinit.
  destruct (init_returned _ _ _ Hinit)
    as (q & x & wr & es & d' & -> & Hne & Hq & Hx & Hex & _).
  destruct (exec_all_creates_spec _ _ _ _ _ _ schema_sound schema_names_NoDup Hex)
    as (_ & _ & Hout & Hin).
  exists d'. split; [|split; [|split; [|split; [|split]]]].
  - unfold db_at. by rewrite (resolve_snoc_dir _ _ _ _ _ Hq), Hx.
  - intros s Hs. destruct (Hin eq_refl s Hs) as [Hl _]. split; [exact Hl|].
    intros Hnone. rewrite Hnone in Hl. exists (tbl_rows (table_of s)).
    rewrite Hl. simpl. by destruct (table_of s).
  - intros n Hn. apply Hout. by rewrite schema_names.
  - intros E. rewrite E in Hex. destruct wr.
    + rewrite exec_all_empty in Hex. by injection Hex.
    + by vm_compute in Hex.
  - vm_compute. reflexivity.
  - intros d fk now s vals d2 id Hs (rows & Ht) Hins.
    assert (Hread : forall c, c ∈ tbl_cols (table_of s) -> col_autoinc c = false ->
              read d2 (stmt_name s) id (col_name c) = Some (cell_of now vals c)).
    { intros c Hc Ha.
      apply (read_inserted fk now _ vals d d2 id _ c Ht); try done.
      by apply schema_NoDup. }
    split; [exact Hread|]. split; [|split].
    + etrans; [apply (Hread (Col "created_at" "TIMESTAMP" [DEFAULT CURRENT_TIMESTAMP]));
               [by apply schema_created_at|done]|].
      f_equal; apply cell_of_default.
    + intros ->.
      etrans; [apply (Hread (Col "status" "TEXT" [DEFAULT (Literal (VText "active"))]));
               [apply list_elem_of_In; simpl; auto 10|done]|].
      f_equal; apply cell_of_default.
    + intros ->.
      etrans; [apply (Hread (Col "status" "TEXT" [DEFAULT (Literal (VText "pending"))]));
               [apply list_elem_of_In; simpl; auto 10|done]|].
      f_equal; apply cell_of_default.
Qed.

Lemma schema_after_init_witness :
  exists d',
    db_at (fs (snd (initialize_database default_db_path w_conflict)))
          default_db_path = Some d'
    /\ (forall s, s ∈ schema ->
          objects d' !! stmt_name s
          = Some (default (ObjTable (table_of s))
                    (objects (default empty_db (db_at (fs w_conflict) default_db_path))
                       !! stmt_name s))
          /\ (objects (default empty_db (db_at (fs w_conflict) default_db_path))
                !! stmt_name s = None ->
              declared_as d' s))
    /\ (forall n, n ∉ table_names ->
          objects d' !! n
          = objects (default empty_db (db_at (fs w_conflict) default_db_path)) !! n)
    /\ (default empty_db (db_at (fs w_conflict) default_db_path) = empty_db ->
        d' = fresh_db)
    /\ dom (objects fresh_db) = list_to_set table_names
    /\ forall d fk now s vals d2 id,
         s ∈ schema -> declared_as d s ->
         exec_insert fk now (stmt_name s) vals d = inr (d2, Some id) ->
         (forall c, c ∈ tbl_cols (table_of s) -> col_autoinc c = false ->
                    read d2 (stmt_name s) id (col_name c) = Some (cell_of now vals c))
         /\ read d2 (stmt_name s) id "created_at"
            = Some (default (VText now) (vals !! "created_at"))
         /\ (s = create_goals ->
             read d2 "goals" id "status"
             = Some (default (VText "active") (vals !! "status")))
         /\ (s = create_tasks ->
             read d2 "tasks" id "status"
             = Some (default (VText "pending") (vals !! "status"))).
Proof.
  apply (schema_after_init default_db_path w_conflict
           (snd (initialize_database default_db_path w_conflict))).
  vm_compute. reflexivity.
Defined.

(** On a location where nothing was, and on a file that is there and
    empty, the call leaves exactly the five declared tables. *)
Example fresh_and_empty_locations :
  db_at (fs (snd (initialize_database default_db_path w_empty))) default_db_path
  = Some fresh_db
  /\ db_at (fs (snd (initialize_database default_db_path (in_data (Db empty_db)))))
           default_db_path
     = Some fresh_db.
Proof. vm_compute. by split. Qed.

(** The defaults at work on the database a call made: a goal and a task
    inserted with a title only. *)
Example defaults_in_use :
  let now := "2026-11-03 11:10:14" in
  let d := fresh_db in
  (exists d', exec_insert false now "goals" {[ "title" := VText "learn" ]} d
              = inr (d', Some 1)
              /\ read d' "goals" 1 "status" = Some (VText "active")
              /\ read d' "goals" 1 "created_at" = Some (VText now)
              /\ read d' "goals" 1 "deadline" = Some VNull)
  /\ (exists d', exec_insert false now "tasks" {[ "title" := VText "read" ]} d
                 = inr (d', Some 1)
                 /\ read d' "tasks" 1 "status" = Some (VText "pending")
                 /\ read d' "tasks" 1 "created_at" = Some (VText now)).
Proof. split; eexists; vm_compute; by repeat split. Qed.

(** C2 as stated fails: data/nexus.db holds an older tasks table whose
    status defaults to 'todo'.  The call returns, the table is as it was,
    and a task inserted without a status gets 'todo', not 'pending'. *)
Lemma schema_after_init_counterexample :
  let r := initialize_database default_db_path w_legacy in
  fst r = Returned tt
  /\ exists d d',
       db_at (fs (snd r)) default_db_path = Some d
       /\ schema_of d <> schema_of fresh_db
       /\ exec_insert false (clock w_legacy) "tasks" {[ "title" := VText "read" ]} d
          = inr (d', Some 1)
       /\ read d' "tasks" 1 "status" = Some (VText "todo").
Proof.
  split; [vm_compute; reflexivity|].
  eexists. eexists. split; [vm_compute; reflexivity|]. split; [|split].
  - intros H. apply (f_equal (fun m => m !! "tasks")) in H.
    vm_compute in H. discriminate H.
  - vm_compute. reflexivity.
  - vm_compute. reflexivity.
Qed.

(** ** C3: the connection *)

Lemma still_open_new w w' c :
  conns w' = conns w ++ [c] -> still_open w w' = List.filter conn_open [c].
Proof. intros E. unfold still_open. by rewrite E, drop_app_length. Qed.

(** Where the connection stands when the call ends.  When [os.makedirs]
    raises, and when [sqlite3.connect] raises, the call raises that
    exception and there is no connection to release.  After the connect, a
    call that returns has closed its connection, and a call in which a
    statement raises leaves it open: the exception leaves the function
    before [conn.close()]. *)
Lemma connection_outcomes (p : path) (w : world) :
  match os_makedirs (os_path_dirname p) true w with
  | (Raised e0, w0) =>
      initialize_database p w = (Raised e0, w0) /\ conns w0 = conns w
  | (Returned _, w0) =>
      match sqlite3_connect p w0 with
      | (Raised e1, w1) =>
          initialize_database p w = (Raised e1, w1) /\ conns w1 = conns w
      | (Returned _, _) =>
          match initialize_database p w with
          | (Returned _, w') =>
              conns w' = conns w ++ [Connection p false false]
              /\ still_open w w' = []
          | (Raised _, w') =>
              conns w' = conns w ++ [Connection p true false]
              /\ still_open w w' = [Connection p true false]
          end
      end
  end.
Proof.
  pose proof (os_makedirs_spec (os_path_dirname p) w) as Hm.
  destruct (os_makedirs (os_path_dirname p) true w) as [[[]|e] w1] eqn:Em.
  2:{ rewrite (init_makedirs_raised _ _ _ _ Em).
      by destruct Hm as ((Hc & _) & _). }
  rewrite (init_makedirs_returned _ _ _ Em).
  destruct Hm as (_ & (Hc & _) & _).
  assert (Hopen : forall w' c, conns w' = conns w1 ++ [c] ->
            conns w' = conns w ++ [c]
            /\ still_open w w' = List.filter conn_open [c]).
  { intros w' c E. rewrite Hc in E. split; [done|]. by apply still_open_new. }
  destruct (connect_cases p w1) as [Ec|(q & x & wr & es & -> & Hq & Hcase)].
  { by rewrite bind_unfold, Ec. }
  destruct Hcase as [([|d] & Hx & Ec)|(-> & Hx & Ec)]; rewrite Ec;
    unfold open_connection at 1; cbv beta iota.
  - rewrite bind_unfold, (connect_existing _ _ _ _ _ _ Hq Hx).
    unfold open_connection at 1. cbv beta iota.
    erewrite after_connect_garbage; [| |exact Hq|exact Hx].
    + by apply Hopen.
    + apply lookup_new_connection.
  - rewrite (rest_on_database _ _ _ _ _ _ Hq Hx). unfold left_by.
    destruct (exec_all wr false (clock w1) schema d) as [[e|] d']; cbn [fst snd].
    + apply (Hopen _ (Connection (q ++ [x]) true false)). simpl.
      by rewrite insert_new_connection.
    + apply (Hopen _ (Connection (q ++ [x]) false false)). simpl.
      by rewrite insert_new_connection.
  - rewrite (rest_new_file _ _ _ _ Hq Hx). by apply Hopen.
Qed.

(** C3.  The claim does not hold of the code.  data/nexus.db holds a table
    notes and an index on it that is named tasks.  The first statement goes
    through, the second raises, and the exception leaves the function with
    the connection still open: nothing releases it on that path, while the
    path without an exception closes it ([w_empty]). *)
Theorem connection_left_open :
  fst (initialize_database default_db_path w_index)
  = Raised (OperationalError "there is already an index named tasks")
  /\ conns (snd (initialize_database default_db_path w_index))
     = [Connection default_db_path true false]
  /\ still_open w_index (snd (initialize_database default_db_path w_index))
     = [Connection default_db_path true false]
  /\ is_open (snd (initialize_database default_db_path w_index)) 0 = true
  /\ fst (initialize_database default_db_path w_empty) = Returned tt
  /\ conns (snd (initialize_database default_db_path w_empty))
     = [Connection default_db_path false false].
Proof. vm_compute. by repeat split. Qed.

(** The same when the file is not a database: the first statement raises. *)
Example connection_left_open_on_garbage :
  let r := initialize_database default_db_path w_garbage in
  fst r = Raised (DatabaseError "file is not a database")
  /\ still_open w_garbage (snd r) = [Connection default_db_path true false].
Proof. vm_compute. by repeat split. Qed.

(** ** C4: a name that is taken *)

Lemma exec_checked_create name cols fks d fk now :
  no_index d name = true -> well_formed_decl cols fks = true ->
  exists d',
    exec_checked true fk now (CREATE_TABLE true name cols fks) d = inr (d', None)
    /\ objects d ⊆ objects d'
    /\ (forall n, no_index d n = true -> no_index d' n = true).
Proof.
  intros Hn Hw. unfold exec_checked, exec_stmt, exec_create, no_index in *.
  rewrite andb_false_r.
  destruct (objects d !! name) as [[t|i|]|] eqn:E; try done.
  - by exists d.
  - by exists d.
  - rewrite Hw. eexists. split; [done|]. simpl. split.
    + by apply insert_subseteq.
    + intros n. destruct (decide (name = n)) as [->|Hne].
      * by rewrite lookup_insert_eq.
      * by rewrite lookup_insert_ne.
Qed.

(** In a writable directory, with none of the five names in use by an
    index, the five statements go through and take nothing away. *)
Lemma exec_all_creates d now :
  forallb (no_index d) table_names = true ->
  exists d', exec_all true false now schema d = (None, d')
             /\ objects d ⊆ objects d'.
Proof.
  intros H. unfold table_names in H. simpl in H.
  rewrite !andb_true_iff in H. destruct H as (H1 & H2 & H3 & H4 & H5 & _).
  unfold schema, create_goals, create_tasks, create_daily_logs,
    create_calendar_events, create_patterns.
  edestruct (exec_checked_create "goals") as (d1 & E1 & S1 & N1);
    [exact H1| |rewrite exec_all_cons, E1]; [by vm_compute|].
  edestruct (exec_checked_create "tasks") as (d2 & E2 & S2 & N2);
    [exact (N1 _ H2)| |rewrite exec_all_cons, E2]; [by vm_compute|].
  edestruct (exec_checked_create "daily_logs") as (d3 & E3 & S3 & N3);
    [exact (N2 _ (N1 _ H3))| |rewrite exec_all_cons, E3]; [by vm_compute|].
  edestruct (exec_checked_create "calendar_events") as (d4 & E4 & S4 & N4);
    [exact (N3 _ (N2 _ (N1 _ H4)))| |rewrite exec_all_cons, E4]; [by vm_compute|].
  edestruct (exec_checked_create "patterns") as (d5 & E5 & S5 & N5);
    [exact (N4 _ (N3 _ (N2 _ (N1 _ H5))))| |rewrite exec_all_cons, E5];
    [by vm_compute|].
  exists d5. split; [done|].
  by repeat (etrans; [eassumption|]).
Qed.




(** In a directory the process may not write to, the same file makes the
    call raise: the tables that are missing cannot be written. *)
Example conflicting_shape_readonly :
  fst (initialize_database default_db_path
         (World (Dir true {[ "data" := Dir false
                   {[ "nexus.db" := File (Db (Database
                        {[ "goals" := ObjTable other_goals ]} ∅)) ]} ]})
                [] [] "2026-01-01 00:00:00"))
  = Raised readonly_database.
Proof. vm_compute. reflexivity. Qed.


(** An index under one of the names is the one conflict the engine
    reports. *)
Example index_conflict_raises :
  fst (initialize_database default_db_path w_index)
  = Raised (OperationalError "there is already an index named tasks").
Proof. vm_compute. reflexivity. Qed.

(** ** C5: the mandatory columns *)

Lemma not_null_ok_all now vals cols :
  (forall c, c ∈ cols -> col_notnull c = true -> col_autoinc c = false ->
             exists v, vals !! col_name c = Some v /\ v <> VNull) ->
  forallb (not_null_ok now vals) cols = true.
Proof.
  intros H. apply forallb_forall. intros c Hc. apply list_elem_of_In in Hc.
  unfold not_null_ok.
  destruct (col_autoinc c) eqn:Ea; [done|].
  destruct (col_notnull c) eqn:En; [|done]. simpl.
  destruct (H c Hc En Ea) as (v & Hv & Hnn).
  unfold cell_of. rewrite Hv. by destruct v.
Qed.

Lemma keys_known_all t vals :
  (forall k, is_Some (vals !! k) -> has_column t k = true) ->
  keys_known t vals = true.
Proof.
  intros H. unfold keys_known. apply forallb_forall. intros [k v] Hin.
  apply list_elem_of_In, elem_of_map_to_list in Hin. apply H. by exists v.
Qed.

Lemma non_id_column_known s k :
  (stmt_name s, k) ∈ non_id_columns s -> has_column (table_of s) k = true.
Proof.
  destruct s as [ine name cols fks| | |]; simpl;
    try (by intros H%elem_of_nil).
  intros H. apply list_elem_of_fmap in H as (c & [= ->] & Hc).
  apply list_elem_of_In, filter_In in Hc as [Hc Ha].
  unfold has_column. apply existsb_exists. exists c. split; [done|].
  apply String.eqb_refl.
Qed.

Lemma not_null_column_listed s c :
  c ∈ tbl_cols (table_of s) -> col_notnull c = true ->
  is_create s = true ->
  (stmt_name s, col_name c) ∈ not_null_columns s.
Proof.
  destruct s as [ine name cols fks| | |]; try done. simpl.
  intros Hc Hn _. apply list_elem_of_fmap. exists c. split; [done|].
  apply list_elem_of_In, filter_In. split; [by apply list_elem_of_In|done].
Qed.

Lemma schema_is_create s : s ∈ schema -> is_create s = true.
Proof.
  unfold schema. rewrite !elem_of_cons, elem_of_nil.
  by intros [->|[->|[->|[->|[->|[]]]]]].
Qed.

(** In each of the five declarations the id is the INTEGER PRIMARY KEY
    AUTOINCREMENT column, and no other column is named id. *)
Lemma schema_id_column s :
  s ∈ schema ->
  find col_autoinc (tbl_cols (table_of s)) = Some id_column
  /\ existsb col_autoinc (tbl_cols (table_of s)) = true
  /\ (stmt_name s, "id") ∉ non_id_columns s.
Proof.
  unfold schema. rewrite !elem_of_cons, elem_of_nil.
  intros [->|[->|[->|[->|[->|[]]]]]];
    (split; [reflexivity|split; [reflexivity|]]);
    intros H; apply list_elem_of_In in H; simpl in H;
    repeat (destruct H as [H|H]; [discriminate H|]); exact H.
Qed.

(** An INSERT that names columns other than id and gives a value other
    than NULL to each NOT NULL column is accepted, on a connection that
    does not enforce foreign keys and as long as a rowid is left. *)
Lemma insert_accepted (d : database) (s : stmt) (now : string)
    (vals : gmap string value) :
  schema_of d = schema_of fresh_db ->
  s ∈ schema ->
  (forall k, is_Some (vals !! k) -> (stmt_name s, k) ∈ non_id_columns s) ->
  (forall k, (stmt_name s, k) ∈ not_null_columns s ->
             exists v, vals !! k = Some v /\ v <> VNull) ->
  rowid_floor true (seq_of d (stmt_name s)) (rows_of d (stmt_name s)) < MAX_ROWID ->
  exists d' id,
    exec_insert false now (stmt_name s) vals d = inr (d', Some id)
    /\ rows_of d' (stmt_name s)
       = rows_of d (stmt_name s) ++ [Row id (new_cells now vals (table_of s))]
    /\ (forall n, n <> stmt_name s -> objects d' !! n = objects d !! n).
Proof.
  intros Hs Hin Hkeys Hmand Hroom.
  destruct (same_schema_declared d s Hs Hin) as (rows & Ht).
  destruct (schema_id_column s Hin) as (Halias & Hauto & Hid).
  set (t := Table (tbl_cols (table_of s)) (tbl_cons (table_of s)) rows) in *.
  assert (Hrows : rows_of d (stmt_name s) = rows).
  { unfold rows_of. by rewrite Ht. }
  rewrite Hrows in *.
  assert (Hnext : next_rowid (tbl_autoinc t) (seq_of d (stmt_name s)) (tbl_rows t)
                  = Some (rowid_floor true (seq_of d (stmt_name s)) rows + 1)).
  { unfold next_rowid, tbl_autoinc. simpl. rewrite Hauto.
    destruct (Z.leb_spec MAX_ROWID
                (rowid_floor true (seq_of d (stmt_name s)) rows)); [lia|done]. }
  assert (Hreq : requested_rowid t vals = Auto).
  { unfold requested_rowid, rowid_alias. simpl. rewrite Halias. simpl.
    destruct (vals !! "id") as [v|] eqn:E; [|done].
    exfalso. apply Hid, Hkeys. by exists v. }
  eexists. eexists. split; [|split].
  - apply (exec_insert_auto now _ vals d t _ Ht); [| |exact Hreq|exact Hnext].
    + apply keys_known_all. intros k Hk.
      apply (non_id_column_known s k), Hkeys, Hk.
    + apply not_null_ok_all. intros c Hc Hn _. apply Hmand.
      apply not_null_column_listed; [exact Hc|exact Hn|].
      by apply schema_is_create.
  - unfold rows_of. simpl. by rewrite lookup_insert_eq.
  - intros n Hn. simpl. by rewrite lookup_insert_ne.
Qed.

(** C5, as amended.  The columns declared NOT NULL are goals.title,
    tasks.title and daily_logs.date, and no other.  In a database with the
    five declarations, an INSERT into one of the tables that gives values
    to columns of the table other than id, among them a value other than
    NULL to each NOT NULL column of that table, adds the row, whatever
    other columns it leaves out (on a connection that does not enforce
    foreign keys, and as long as a rowid is left). *)
Theorem mandatory_columns (d : database) (s : stmt) (now : string)
    (vals : gmap string value) :
  schema_of d = schema_of fresh_db ->
  s ∈ schema ->
  (forall k, is_Some (vals !! k) -> (stmt_name s, k) ∈ non_id_columns s) ->
  (forall k, (stmt_name s, k) ∈ not_null_columns s ->
             exists v, vals !! k = Some v /\ v <> VNull) ->
  rowid_floor true (seq_of d (stmt_name s)) (rows_of d (stmt_name s)) < MAX_ROWID ->
  flat_map not_null_columns schema
  = [("goals", "title"); ("tasks", "title"); ("daily_logs", "date")]
  /\ exists d' id,
       exec_insert false now (stmt_name s) vals d = inr (d', Some id)
       /\ rows_of d' (stmt_name s)
          = rows_of d (stmt_name s)
            ++ [Row id (new_cells now vals (table_of s))].
Proof.
  intros Hs Hin Hkeys Hmand Hroom. split; [reflexivity|].
  destruct (insert_accepted d s now vals Hs Hin Hkeys Hmand Hroom)
    as (d' & id & E & Hr & _).
  by exists d', id.
Qed.

Lemma mandatory_columns_witness :
  flat_map not_null_columns schema
  = [("goals", "title"); ("tasks", "title"); ("daily_logs", "date")]
  /\ exists d' id,
       exec_insert false "2026-11-03 11:10:14" (stmt_name create_daily_logs)
                   {[ "date" := VText "2026-11-03" ]} fresh_db
       = inr (d', Some id)
       /\ rows_of d' (stmt_name create_daily_logs)
          = rows_of fresh_db (stmt_name create_daily_logs)
            ++ [Row id (new_cells "2026-11-03 11:10:14"
                                  {[ "date" := VText "2026-11-03" ]}
                                  (table_of create_daily_logs))].
Proof.
  apply (mandatory_columns fresh_db create_daily_logs "2026-11-03 11:10:14"
           {[ "date" := VText "2026-11-03" ]}).
  - reflexivity.
  - unfold schema. set_solver.
  - intros k [v Hv]. apply lookup_singleton_Some in Hv as [<- _].
    apply list_elem_of_In. simpl. auto.
  - intros k Hk. apply list_elem_of_In in Hk. simpl in Hk.
    destruct Hk as [[= <-]|[]]. exists (VText "2026-11-03").
    split; [apply lookup_singleton_eq|discriminate].
  - vm_compute. reflexivity.
Defined.

(** C5 as stated fails: daily_logs.date is NOT NULL as well.  On the
    database a call made, a daily log without a date is refused. *)
Lemma mandatory_columns_counterexample :
  db_at (fs (snd (initialize_database default_db_path w_empty))) default_db_path
  = Some fresh_db
  /\ ("daily_logs", "date") ∈ flat_map not_null_columns schema
  /\ ("daily_logs", "date") ∈ non_id_columns create_daily_logs
  /\ exec_insert false "2026-11-03 11:10:14" "daily_logs"
                 {[ "notes" := VText "a quiet day" ]} fresh_db
     = inl (IntegrityError "NOT NULL constraint failed: daily_logs.date").
Proof.
  split; [vm_compute; reflexivity|].
  split; [apply list_elem_of_In; simpl; auto|].
  split; [apply list_elem_of_In; simpl; auto|].
  vm_compute. reflexivity.
Qed.

(** ** C6: the directories *)

(** C6, as amended.  The directory of the path is missing and can be
    made: some directory on the way to it is there and writable, and its
    next component is free.  Then the call makes every missing directory,
    makes the file and returns; afterwards each directory on the way to the
    file is a directory, and the file holds the five empty tables. *)
Theorem directories_bootstrapped (p : path) (w : world) :
  p <> [] ->
  isdir_at (fs w) (os_path_dirname p) = false ->
  creatable (fs w) (os_path_dirname p) ->
  exists w',
    initialize_database p w = (Returned tt, w')
    /\ (forall a, a ∈ ancestors (os_path_dirname p) -> isdir_at (fs w') a = true)
    /\ db_at (fs w') p = Some fresh_db.
Proof.
  intros Hp _ Hc.
  destruct (split_last_path p Hp) as (q & x & ->).
  rewrite dirname_snoc in *.
  destruct (init_creatable q x w Hc) as (w' & E & Hdb & Hdirs & _).
  by exists w'.
Qed.

Lemma directories_bootstrapped_witness :
  exists w',
    initialize_database ["var"; "lib"; "nexus"; "nexus.db"] w_empty
    = (Returned tt, w')
    /\ (forall a, a ∈ ancestors (os_path_dirname ["var"; "lib"; "nexus"; "nexus.db"]) ->
                  isdir_at (fs w') a = true)
    /\ db_at (fs w') ["var"; "lib"; "nexus"; "nexus.db"] = Some fresh_db.
Proof.
  apply (directories_bootstrapped ["var"; "lib"; "nexus"; "nexus.db"] w_empty).
  - discriminate.
  - vm_compute. reflexivity.
  - exists [], ["lib"; "nexus"], "var", ∅. vm_compute. by repeat split.
Defined.

(** When the directory is there, [os.makedirs] is silent and the call goes
    on to the file. *)
Example directory_already_there :
  fst (initialize_database default_db_path
         (World (Dir true {[ "data" := Dir true ∅ ]}) [] [] "")) = Returned tt.
Proof. vm_compute. reflexivity. Qed.

(** C6 as stated fails: the working directory is not writable, so the
    missing directory data cannot be made, and the call raises. *)
Lemma directories_bootstrapped_counterexample :
  isdir_at (fs w_readonly) (os_path_dirname default_db_path) = false
  /\ exists_at (fs w_readonly) (os_path_dirname default_db_path) = false
  /\ initialize_database default_db_path w_readonly
     = (Raised PermissionError, w_readonly).
Proof. vm_compute. by repeat split. Qed.

(** A name without a directory part: its dirname is the empty string, on
    which [os.makedirs] raises. *)
Example bare_file_name :
  initialize_database ["nexus.db"] w_empty = (Raised FileNotFoundError, w_empty).
Proof. vm_compute. reflexivity. Qed.

(** ** C7: the script *)

(** C7.  The script calls [initialize_database] on the default location,
    whatever the command line.  When the call returns, the script prints
    one line, the confirmation, which names that location, and exits with
    status 0.  When the call raises, nobody catches the exception: the
    process ends with status 1 and the traceback of that exception, and
    nothing was printed. *)
Theorem script_behaviour (w : world) :
  let pr := run_script main w in
  match initialize_database default_db_path w with
  | (Returned _, w') =>
      exit_status pr = 0 /\ traceback pr = None
      /\ out_lines pr = stdout w ++ [confirmation]
      /\ fs (final pr) = fs w'
  | (Raised e, w') =>
      exit_status pr = 1 /\ traceback pr = Some e
      /\ out_lines pr = stdout w
      /\ final pr = w'
  end
  /\ confirmation
     = "Database initialized successfully at " +:+ String.concat "/" default_db_path.
Proof.
  split; [|reflexivity].
  pose proof (init_outcome default_db_path w) as H.
  unfold run_script, main. rewrite bind_unfold.
  destruct (initialize_database default_db_path w) as [[[]|e] w'].
  - destruct H as (_ & Ho & _). simpl. by rewrite Ho.
  - destruct H as (_ & Ho & _). simpl. by rewrite Ho.
Qed.

Example script_on_empty_directory :
  let pr := run_script main w_empty in
  exit_status pr = 0 /\ out_lines pr = [confirmation]
  /\ db_at (fs (final pr)) default_db_path = Some fresh_db.
Proof. vm_compute. by repeat split. Qed.

Example script_on_readonly_directory :
  let pr := run_script main w_readonly in
  exit_status pr = 1 /\ out_lines pr = []
  /\ traceback pr = Some PermissionError.
Proof. vm_compute. by repeat split. Qed.

(** ** C8: a directory that cannot be made *)

(** C8.  When [os.makedirs] raises, the call raises that exception, which
    is an OSError, before it connects: no connection is opened, nothing
    exists at the path when its directory part is not empty, and in any
    case no regular file is at the path that was not there before. *)
Theorem makedirs_failure_propagates (p : path) (w w1 : world) (e : exn) :
  os_makedirs (os_path_dirname p) true w = (Raised e, w1) ->
  initialize_database p w = (Raised e, w1)
  /\ is_OSError e = true
  /\ conns w1 = conns w
  /\ (os_path_dirname p <> [] -> exists_at (fs w1) p = false)
  /\ (forall c, resolve (fs w1) p = inr (File c) -> resolve (fs w) p = inr (File c)).
Proof.
  intros Em. split; [by apply init_makedirs_raised|].
  pose proof (os_makedirs_spec (os_path_dirname p) w) as H. rewrite Em in H.
  destruct H as ((Hc & _) & He & Hd).
  split; [done|]. split; [done|].
  assert (Hno : os_path_dirname p <> [] -> exists_at (fs w1) p = false).
  { intros Hne. destruct p as [|x q _] using rev_ind; [done|].
    rewrite dirname_snoc in *. rewrite exists_at_snoc, resolve_app.
    unfold isdir_at in Hd. destruct q; [done|].
    by destruct (resolve (fs w1) (s :: q)) as [|[|]]. }
  split; [exact Hno|].
  intros c Hf. destruct (decide (os_path_dirname p = [])) as [E|Hne].
  - rewrite E, makedirs_empty_name in Em. by injection Em as _ <-.
  - specialize (Hno Hne). unfold exists_at in Hno.
    destruct p; [done|]. by rewrite Hf in Hno.
Qed.

Lemma makedirs_failure_propagates_witness :
  initialize_database default_db_path w_readonly = (Raised PermissionError, w_readonly)
  /\ is_OSError PermissionError = true
  /\ conns w_readonly = conns w_readonly
  /\ (os_path_dirname default_db_path <> [] ->
      exists_at (fs w_readonly) default_db_path = false)
  /\ (forall c, resolve (fs w_readonly) default_db_path = inr (File c) ->
                resolve (fs w_readonly) default_db_path = inr (File c)).
Proof.
  apply (makedirs_failure_propagates default_db_path w_readonly w_readonly
           PermissionError).
  vm_compute. reflexivity.
Defined.

(** A regular file in the way of the directory. *)
Example file_in_the_way :
  let w := World (Dir true {[ "data" := File Garbage ]}) [] [] "" in
  initialize_database default_db_path w = (Raised FileExistsError, w).
Proof. vm_compute. reflexivity. Qed.

(** ** C9: the relationship between tasks and goals *)

(** One statement other than the pragma, on a connection of its own, to a
    file that holds a database. *)
Lemma run_statement_on_database q x wr es d s w :
  resolve (fs w) q = inr (Dir wr es) -> es !! x = Some (File (Db d)) ->
  is_pragma s = false ->
  run_statement (q ++ [x]) s w =
  match exec_checked wr false (clock w) s d with
  | inl e =>
      (Raised e, with_conns w (conns w ++ [Connection (q ++ [x]) true false]))
  | inr (d', _) =>
      (Returned tt,
       with_conns (put_db w (q ++ [x]) d')
                  (conns w ++ [Connection (q ++ [x]) false false]))
  end.
Proof.
  intros Hq Hx Hs. unfold run_statement.
  rewrite bind_unfold, (connect_existing _ _ _ _ _ _ Hq Hx).
  unfold open_connection at 1. cbv beta iota.
  pose proof (on_db_open _ _ _ _ _ _ Hq Hx) as Hon. simpl in Hon.
  set (w0 := with_conns w _) in *.
  rewrite bind_unfold. unfold conn_cursor at 1, is_open.
  rewrite (proj1 Hon). simpl conn_open. cbv beta iota.
  rewrite bind_unfold, (cursor_execute_on_db _ _ _ _ _ _ _ Hon Hs).
  change (clock w0) with (clock w).
  destruct (exec_checked wr false (clock w) s d) as [e|[d' o]]; [done|].
  rewrite bind_unfold. unfold conn_commit at 1, is_open. simpl conns.
  rewrite lookup_new_connection. simpl conn_open. cbv beta iota.
  unfold conn_close. simpl conns. rewrite lookup_new_connection.
  simpl. by rewrite insert_new_connection.
Qed.

Lemma exec_checked_writable fk now s d :
  exec_checked true fk now s d = exec_stmt fk now s d.
Proof. unfold exec_checked. by rewrite andb_false_r. Qed.

(** C9.  The tasks table declares the foreign key goal_id -> goals(id) and
    nothing polices it on a connection as [sqlite3.connect] gives it: in a
    database with the five declarations, a task whose goal_id is the id of
    no goal is inserted, with that goal_id, and any goal is deleted,
    referred to or not, while the tasks stay as they are (no error, no
    cascade). *)
Theorem foreign_key_not_policed (q : path) (x : string)
    (es : gmap string node) (d : database) (w : world) (g : Z)
    (title : string) :
  resolve (fs w) q = inr (Dir true es) -> es !! x = Some (File (Db d)) ->
  schema_of d = schema_of fresh_db ->
  has_rowid (rows_of d "goals") g = false ->
  rowid_floor true (seq_of d "tasks") (rows_of d "tasks") < MAX_ROWID ->
  tbl_cons (table_of create_tasks) = [FOREIGN_KEY "goal_id" "goals" "id"]
  /\ (exists w' d' id,
        run_statement (q ++ [x])
          (INSERT_INTO "tasks" {[ "goal_id" := VInt g; "title" := VText title ]}) w
        = (Returned tt, w')
        /\ db_at (fs w') (q ++ [x]) = Some d'
        /\ read d' "tasks" id "goal_id" = Some (VInt g)
        /\ rows_of d' "goals" = rows_of d "goals")
  /\ (forall i, exists w' d',
        run_statement (q ++ [x]) (DELETE_FROM "goals" i) w = (Returned tt, w')
        /\ db_at (fs w') (q ++ [x]) = Some d'
        /\ rows_of d' "goals"
           = List.filter (fun r => negb (Z.eqb (rowid r) i)) (rows_of d "goals")
        /\ rows_of d' "tasks" = rows_of d "tasks").
Proof.
  intros Hq Hx Hs _ Hroom. split; [reflexivity|]. split.
  - set (vals := {[ "goal_id" := VInt g; "title" := VText title ]}
                 : gmap string value).
    assert (Hin : create_tasks ∈ schema) by (unfold schema; set_solver).
    destruct (insert_accepted d create_tasks (clock w) vals Hs Hin)
      as (d' & id & E & Hrows & Hother).
    { intros k [v Hv]. unfold vals in Hv.
      apply lookup_insert_Some in Hv as [[<- _]|[_ Hv]].
      - apply list_elem_of_In. simpl. auto.
      - apply lookup_singleton_Some in Hv as [<- _].
        apply list_elem_of_In. simpl. auto. }
    { intros k Hk. apply list_elem_of_In in Hk. simpl in Hk.
      destruct Hk as [[= <-]|[]]. exists (VText title). split; [|done].
      unfold vals. by rewrite lookup_insert_ne, lookup_singleton_eq. }
    { exact Hroom. }
    simpl in E.
    eexists. exists d', id. split; [|split; [|split]].
    + rewrite (run_statement_on_database _ _ _ _ _ _ _ Hq Hx) by done.
      rewrite exec_checked_writable. unfold exec_stmt. fold vals. by rewrite E.
    + simpl. unfold db_at. by rewrite (store_snoc_self _ _ _ _ _ _ Hq).
    + destruct (same_schema_declared d create_tasks Hs Hin) as (rows & Ht).
      pose proof (read_inserted false (clock w) "tasks" vals d d' id _
                    (Col "goal_id" "INTEGER" []) Ht) as Hr.
      simpl in Hr. rewrite Hr; try done.
      * apply (bool_decide_unpack _). vm_compute. exact I.
      * apply list_elem_of_In. simpl. auto.
    + unfold rows_of. by rewrite (Hother "goals").
  - intros i.
    assert (Hin : create_goals ∈ schema) by (unfold schema; set_solver).
    destruct (same_schema_declared d create_goals Hs Hin) as (rows & Ht).
    simpl in Ht.
    eexists. eexists. split; [|split; [|split]].
    + rewrite (run_statement_on_database _ _ _ _ _ _ _ Hq Hx) by done.
      rewrite exec_checked_writable. unfold exec_stmt.
      by rewrite (exec_delete_unchecked _ _ _ _ Ht).
    + simpl. unfold db_at. by rewrite (store_snoc_self _ _ _ _ _ _ Hq).
    + unfold rows_of. simpl. by rewrite lookup_insert_eq, Ht.
    + unfold rows_of. simpl. by rewrite lookup_insert_ne.
Qed.

Lemma foreign_key_not_policed_witness :
  tbl_cons (table_of create_tasks) = [FOREIGN_KEY "goal_id" "goals" "id"]
  /\ (exists w' d' id,
        run_statement (["data"] ++ ["nexus.db"])
          (INSERT_INTO "tasks" {[ "goal_id" := VInt 777; "title" := VText "stray" ]})
          (in_data (Db d_one_goal))
        = (Returned tt, w')
        /\ db_at (fs w') (["data"] ++ ["nexus.db"]) = Some d'
        /\ read d' "tasks" id "goal_id" = Some (VInt 777)
        /\ rows_of d' "goals" = rows_of d_one_goal "goals")
  /\ (forall i, exists w' d',
        run_statement (["data"] ++ ["nexus.db"]) (DELETE_FROM "goals" i)
          (in_data (Db d_one_goal))
        = (Returned tt, w')
        /\ db_at (fs w') (["data"] ++ ["nexus.db"]) = Some d'
        /\ rows_of d' "goals"
           = List.filter (fun r => negb (Z.eqb (rowid r) i))
                         (rows_of d_one_goal "goals")
        /\ rows_of d' "tasks" = rows_of d_one_goal "tasks").
Proof.
  apply (foreign_key_not_policed ["data"] "nexus.db"
           {[ "nexus.db" := File (Db d_one_goal) ]} d_one_goal
           (in_data (Db d_one_goal)) 777 "stray").
  - vm_compute. reflexivity.
  - vm_compute. reflexivity.
  - vm_compute. reflexivity.
  - vm_compute. reflexivity.
  - vm_compute. reflexivity.
Defined.

(** Deleting the goal a task refers to: the goal goes, the task stays,
    with its goal_id. *)
Example delete_referenced_goal :
  exists d',
    exec_stmt false "" (DELETE_FROM "goals" 1) d_one_goal = inr (d', None)
    /\ rows_of d' "goals" = []
    /\ read d' "tasks" 1 "goal_id" = Some (VInt 1).
Proof. eexists. vm_compute. by repeat split. Qed.

(** With the pragma on, which the program never asks for, the engine does
    police the relationship. *)
Example foreign_key_policed_when_asked :
  exec_stmt true ""
    (INSERT_INTO "tasks" {[ "goal_id" := VInt 777; "title" := VText "stray" ]})
    d_one_goal
  = inl (IntegrityError "FOREIGN KEY constraint failed")
  /\ exec_stmt true "" (DELETE_FROM "goals" 1) d_one_goal
     = inl (IntegrityError "FOREIGN KEY constraint failed").
Proof. vm_compute. by split. Qed.

(** ** C10: ids *)

Lemma capped_fresh s : s ∈ schema -> capped fresh_db s.
Proof.
  intros Hin. destruct (fresh_db_declared s Hin) as (rows & H).
  assert (rows = []) as ->.
  { revert H. unfold schema in Hin. revert Hin.
    rewrite !elem_of_cons, elem_of_nil.
    intros [->|[->|[->|[->|[->|[]]]]]]; vm_compute; by intros [= <-]. }
  exists []. split; [done|constructor].
Qed.

Lemma seq_of_bump objs t name id d n :
  seq_of (Database objs (bump_sequence t name id d)) n
  = if tbl_autoinc t && bool_decide (name = n)
    then Z.max (seq_of d n) id else seq_of d n.
Proof.
  unfold bump_sequence, seq_of. simpl.
  destruct (tbl_autoinc t); simpl; [|done].
  case_bool_decide as E.
  - subst n. by rewrite lookup_insert_eq.
  - by rewrite lookup_insert_ne.
Qed.

Lemma Forall_rowid_le (rows : list row) (a b : Z) :
  a <= b -> Forall (fun r => rowid r <= a) rows ->
  Forall (fun r => rowid r <= b) rows.
Proof.
  intros Hab H. eapply Forall_impl; [exact H|]. intros r Hr. simpl in *. lia.
Qed.

(** No statement takes one of the five tables away, changes its
    declaration, lowers its counter, or leaves a rowid above the counter. *)
Lemma capped_exec fk now st d d' o s :
  s ∈ schema -> capped d s ->
  exec_stmt fk now st d = inr (d', o) ->
  capped d' s /\ seq_of d (stmt_name s) <= seq_of d' (stmt_name s).
Proof.
  intros Hin (rows & Ht & Hcap). unfold exec_stmt.
  destruct st as [ine name cols fks|name vals|name i|b].
  - unfold exec_create.
    destruct (objects d !! name) as [[t|on|]|] eqn:E; try done.
    + destruct ine; [|done]. intros [= <- _]. split; [by exists rows|lia].
    + destruct ine; [|done]. intros [= <- _]. split; [by exists rows|lia].
    + destruct (well_formed_decl cols fks); [|done]. intros [= <- _].
      split; [|done]. exists rows. split; [|done]. simpl.
      rewrite lookup_insert_ne; [done|]. intros ->. congruence.
  - intros H. apply exec_insert_inv in H as (t & id & Ht' & _ & -> & _).
    destruct (decide (name = stmt_name s)) as [->|Hne].
    + rewrite Ht in Ht'. injection Ht' as <-.
      destruct (schema_id_column s Hin) as (_ & Hauto & _).
      unfold capped. rewrite seq_of_bump. unfold tbl_autoinc. cbn [tbl_cols].
      rewrite Hauto, bool_decide_eq_true_2 by done. cbn [andb].
      split; [|lia].
      eexists. split; [cbn [objects]; by rewrite lookup_insert_eq|].
      cbn [tbl_rows]. apply Forall_app. split.
      * eapply Forall_rowid_le; [|exact Hcap]. lia.
      * constructor; [cbn [rowid]; lia|constructor].
    + unfold capped.
      rewrite seq_of_bump, bool_decide_eq_false_2, andb_false_r by done.
      split; [|lia].
      exists rows. split; [cbn [objects]; by rewrite lookup_insert_ne|done].
  - intros H. apply exec_delete_inv in H as (t & Ht' & _ & ->).
    split; [|done].
    destruct (decide (name = stmt_name s)) as [->|Hne].
    + rewrite Ht in Ht'. injection Ht' as <-.
      eexists. split; [simpl; by rewrite lookup_insert_eq|].
      simpl. apply Forall_forall. intros r Hr.
      apply list_elem_of_In, filter_In in Hr as [Hr _].
      apply list_elem_of_In in Hr.
      by apply (proj1 (Forall_forall _ _) Hcap).
    + exists rows. split; [simpl; by rewrite lookup_insert_ne|done].
  - intros [= <- _]. split; [by exists rows|lia].
Qed.

Lemma capped_after st d s :
  s ∈ schema -> capped d s ->
  capped (after d st) s /\ seq_of d (stmt_name s) <= seq_of (after d st) (stmt_name s).
Proof.
  intros Hin Hc. unfold after.
  destruct (exec_stmt _ _ _ d) as [e|[d' o]] eqn:E.
  - split; [done|lia].
  - by eapply capped_exec.
Qed.

Lemma capped_run steps d s :
  s ∈ schema -> capped d s ->
  capped (run steps d) s /\ seq_of d (stmt_name s) <= seq_of (run steps d) (stmt_name s).
Proof.
  intros Hin. revert d. unfold run.
  induction steps as [|st steps IH]; intros d Hc; simpl.
  - split; [done|lia].
  - destruct (capped_after st d s Hin Hc) as [Hc' Hle].
    destruct (IH _ Hc') as [Hc'' Hle']. split; [done|lia].
Qed.

(** In a database where the table is capped, an id the engine chooses is
    above the counter, hence above every rowid the table holds. *)
Lemma auto_id_above_counter fk now vals d d' id s :
  s ∈ schema -> capped d s ->
  vals !! "id" = None \/ vals !! "id" = Some VNull ->
  exec_insert fk now (stmt_name s) vals d = inr (d', Some id) ->
  seq_of d (stmt_name s) < id.
Proof.
  intros Hin (rows & Ht & _) Hauto H.
  apply exec_insert_inv in H as (t & id' & Ht' & [= <-] & _ & Hid).
  rewrite Ht in Ht'. injection Ht' as <-.
  destruct (schema_id_column s Hin) as (Halias & Hai & _).
  unfold requested_rowid, rowid_alias, tbl_autoinc in Hid. simpl in Hid.
  rewrite Halias, Hai in Hid. simpl in Hid.
  assert (Hnext : next_rowid true (seq_of d (stmt_name s)) rows = Some id).
  { by destruct Hauto as [E|E]; rewrite E in Hid. }
  by apply next_rowid_above_seq in Hnext.
Qed.

(** A row that one of the five tables held at some time has a smaller id
    than any id the engine chooses for that table later. *)
Lemma auto_id_above_earlier_rows steps1 steps2 fk now vals r d3 id s :
  s ∈ schema ->
  r ∈ rows_of (run steps1 fresh_db) (stmt_name s) ->
  vals !! "id" = None \/ vals !! "id" = Some VNull ->
  exec_insert fk now (stmt_name s) vals (run steps2 (run steps1 fresh_db))
  = inr (d3, Some id) ->
  rowid r < id.
Proof.
  intros Hin Hr Hauto Hins.
  destruct (capped_run steps1 fresh_db s Hin (capped_fresh s Hin)) as [Hc1 _].
  destruct (capped_run steps2 _ s Hin Hc1) as [Hc2 Hle].
  pose proof (auto_id_above_counter _ _ _ _ _ _ _ Hin Hc2 Hauto Hins) as Hlt.
  destruct Hc1 as (rows & Ht & Hcap).
  unfold rows_of in Hr. rewrite Ht in Hr. simpl in Hr.
  pose proof (proj1 (Forall_forall _ _) Hcap r Hr) as Hrle. simpl in Hrle. lia.
Qed.

(** C10.  Each of the five tables a call makes declares its id
    INTEGER PRIMARY KEY AUTOINCREMENT.  Let any statements run on the
    database, then any others; a row that was in one of the tables after
    the first has a smaller id than an id the engine chooses for that table
    after the second.  So the ids the engine gives out grow strictly from
    one insert to the next, and the id of a row is not given out again,
    whether or not the row was deleted in between. *)
Theorem ids_never_reused (p : path) (w w1 : world) (s : stmt)
    (steps1 steps2 : list step) (fk : bool) (now : string)
    (vals : gmap string value) (r : row) (d3 : database) (id : Z) :
  exists_at (fs w) p = false ->
  initialize_database p w = (Returned tt, w1) ->
  s ∈ schema ->
  r ∈ rows_of (run steps1 fresh_db) (stmt_name s) ->
  vals !! "id" = None \/ vals !! "id" = Some VNull ->
  exec_insert fk now (stmt_name s) vals (run steps2 (run steps1 fresh_db))
  = inr (d3, Some id) ->
  db_at (fs w1) p = Some fresh_db
  /\ find col_autoinc (tbl_cols (table_of s)) = Some id_column
  /\ rowid r < id.
Proof.
  intros Hex Hinit Hin Hr Hauto Hins. split; [|split].
  - destruct (init_fresh _ _ _ Hex Hinit) as (q & x & es & -> & _ & Hq & Hx & _).
    unfold db_at. by rewrite (resolve_snoc_dir _ _ _ _ _ Hq), Hx.
  - by destruct (schema_id_column s Hin).
  - by eapply auto_id_above_earlier_rows.
Qed.

Lemma ids_never_reused_witness :
  db_at (fs (snd (initialize_database default_db_path w_empty))) default_db_path
  = Some fresh_db
  /\ find col_autoinc (tbl_cols (table_of create_goals)) = Some id_column
  /\ rowid (Row 2 (new_cells "2026-11-03 11:10:15" {[ "title" := VText "write" ]}
                             (table_of create_goals))) < 3.
Proof.
  apply (ids_never_reused default_db_path w_empty
           (snd (initialize_database default_db_path w_empty))
           create_goals two_goals [Step false "2026-11-03 11:10:16" (DELETE_FROM "goals" 2)]
           false "2026-11-03 11:10:17" {[ "title" := VText "rest" ]}
           (Row 2 (new_cells "2026-11-03 11:10:15" {[ "title" := VText "write" ]}
                             (table_of create_goals)))
           (after (run [Step false "2026-11-03 11:10:16" (DELETE_FROM "goals" 2)]
                       (run two_goals fresh_db))
                  (Step false "2026-11-03 11:10:17"
                        (INSERT_INTO "goals" {[ "title" := VText "rest" ]})))
           3).
  - vm_compute. reflexivity.
  - vm_compute. reflexivity.
  - unfold schema. set_solver.
  - apply list_elem_of_In. vm_compute. auto.
  - left. vm_compute. reflexivity.
  - vm_compute. reflexivity.
Defined.

(** Two goals, the second deleted, a third inserted: it gets id 3, not the
    freed id 2; and once the largest rowid was used, no id is left. *)
Example ids_in_use :
  let d := run (two_goals ++ [Step false "" (DELETE_FROM "goals" 2)]) fresh_db in
  map rowid (rows_of d "goals") = [1]
  /\ (exists d', exec_insert false "" "goals" {[ "title" := VText "rest" ]} d
                 = inr (d', Some 3))
  /\ exec_insert false "" "goals" {[ "title" := VText "rest" ]}
       (run [Step false "" (INSERT_INTO "goals"
                              {[ "id" := VInt MAX_ROWID; "title" := VText "last" ]});
             Step false "" (DELETE_FROM "goals" MAX_ROWID)] d)
     = inl (OperationalError "database or disk is full").
Proof. vm_compute. split; [done|]. split; [by eexists|done]. Qed.

(** * Further properties *)

(** ** The call on any environment *)

(** X1.  A path without a directory part: [os.path.dirname] gives the
    empty string, [os.makedirs] raises FileNotFoundError on it, and the
    call ends there, before it connects: the environment is as it was. *)
Theorem no_directory_part (p : path) (w : world) :
  (length p <= 1)%nat ->
  initialize_database p w = (Raised FileNotFoundError, w).
Proof.
  intros Hl. apply init_makedirs_raised.
  assert (os_path_dirname p = []) as ->; [|apply makedirs_empty_name].
  destruct p as [|x [|y p]]; [done|done|simpl in Hl; lia].
Qed.

Lemma no_directory_part_witness :
  initialize_database ["nexus.db"] w_empty = (Raised FileNotFoundError, w_empty).
Proof. apply (no_directory_part ["nexus.db"] w_empty). simpl. lia. Defined.

(** X2.  Once a call has returned, another call on the result returns too
    and changes nothing but the list of connections, which gets one more
    closed connection: the directory tree, and with it every table and row,
    is as the first call left it, whatever was there before the first. *)
Theorem second_call_changes_nothing (p : path) (w w1 : world) :
  initialize_database p w = (Returned tt, w1) ->
  initialize_database p w1
  = (Returned tt, with_conns w1 (conns w1 ++ [Connection p false false])).
Proof.
  intros Hinit. by apply (init_after_return p w w1 w1 Hinit).
Qed.

Lemma second_call_changes_nothing_witness :
  initialize_database default_db_path
    (snd (initialize_database default_db_path w_legacy))
  = (Returned tt,
     with_conns (snd (initialize_database default_db_path w_legacy))
       (conns (snd (initialize_database default_db_path w_legacy))
        ++ [Connection default_db_path false false])).
Proof.
  apply (second_call_changes_nothing default_db_path w_legacy).
  vm_compute. reflexivity.
Defined.

(** X3.  What a call that returned has made of the file: under each of the
    five names, the object the file held under that name before the call,
    unchanged, or else the empty table the source declares; under every
    other name what the file held; the AUTOINCREMENT counters as they were.
    A file that was not there counts as the empty database. *)
Theorem tables_after_return (p : path) (w w' : world) :
  initialize_database p w = (Returned tt, w') ->
  exists d',
    db_at (fs w') p = Some d'
    /\ (forall s, s ∈ schema ->
          objects d' !! stmt_name s
          = Some (default (ObjTable (table_of s))
                          (objects (default empty_db (db_at (fs w) p)) !! stmt_name s)))
    /\ (forall n, n ∉ table_names ->
          objects d' !! n = objects (default empty_db (db_at (fs w) p)) !! n)
    /\ sqlite_sequence d' = sqlite_sequence (default empty_db (db_at (fs w) p)).
Proof.
  intros Hinit.
  destruct (init_returned _ _ _ Hinit)
    as (q & x & wr & es & d' & -> & Hne & Hq & Hx & Hex & _).
  destruct (exec_all_creates_spec _ _ _ _ _ _ schema_sound schema_names_NoDup Hex)
    as (_ & Hseq & Hout & Hin).
  exists d'. split; [|split; [|split]].
  - unfold db_at. by rewrite (resolve_snoc_dir _ _ _ _ _ Hq), Hx.
  - intros s Hs. by destruct (Hin eq_refl s Hs).
  - intros n Hn. apply Hout. by rewrite schema_names.
  - exact Hseq.
Qed.

Lemma tables_after_return_witness :
  exists d',
    db_at (fs (snd (initialize_database default_db_path w_legacy))) default_db_path
    = Some d'
    /\ (forall s, s ∈ schema ->
          objects d' !! stmt_name s
          = Some (default (ObjTable (table_of s))
                          (objects (default empty_db (db_at (fs w_legacy) default_db_path))
                             !! stmt_name s)))
    /\ (forall n, n ∉ table_names ->
          objects d' !! n
          = objects (default empty_db (db_at (fs w_legacy) default_db_path)) !! n)
    /\ sqlite_sequence d'
       = sqlite_sequence (default empty_db (db_at (fs w_legacy) default_db_path)).
Proof.
  apply (tables_after_return default_db_path w_legacy
           (snd (initialize_database default_db_path w_legacy))).
  vm_compute. reflexivity.
Defined.

(** ** What a call never does to a database that is there *)

Lemma init_no_directory_part (p : path) (w : world) :
  os_path_dirname p = [] ->
  initialize_database p w = (Raised FileNotFoundError, w).
Proof.
  intros E. apply init_makedirs_raised. rewrite E. apply makedirs_empty_name.
Qed.


(** X4.  A call takes nothing out of a database that is in the file,
    whether it returns or raises: every table, index and view the file held
    is in it afterwards as it was, rows included; the AUTOINCREMENT
    counters are as they were; and no name other than the five is new. *)
Theorem existing_objects_kept (p : path) (w : world) (d : database) :
  db_at (fs w) p = Some d ->
  exists d',
    db_at (fs (snd (initialize_database p w))) p = Some d'
    /\ (forall name o, objects d !! name = Some o -> objects d' !! name = Some o)
    /\ sqlite_sequence d' = sqlite_sequence d
    /\ (forall n, n ∉ table_names -> objects d' !! n = objects d !! n).
Proof.
  intros Hdb.
  assert (Hsame : initialize_database p w = (Raised FileNotFoundError, w) ->
            exists d',
              db_at (fs (snd (initialize_database p w))) p = Some d'
              /\ (forall name o, objects d !! name = Some o -> objects d' !! name = Some o)
              /\ sqlite_sequence d' = sqlite_sequence d
              /\ (forall n, n ∉ table_names -> objects d' !! n = objects d !! n)).
  { intros ->. by exists d. }
  destruct p as [|x q _] using rev_ind; [by apply Hsame, init_no_directory_part|].
  destruct (decide (q = [])) as [->|Hne];
    [by apply Hsame, init_no_directory_part|].
  clear Hsame. unfold db_at in Hdb.
  destruct (resolve (fs w) (q ++ [x])) as [|[[|d0]|]] eqn:Hr; try done.
  injection Hdb as ->.
  apply resolve_snoc in Hr as (wr & es & Hq & Hx).
  rewrite (init_on_database _ _ _ _ _ _ Hne Hq Hx).
  destruct (exec_all wr false (clock w) schema d) as [err d'] eqn:Ex.
  destruct (exec_all_creates_spec _ _ _ _ _ _ schema_sound schema_names_NoDup Ex)
    as (Hsub & Hseq & Hout & _).
  exists d'. unfold left_by. simpl. split; [|split; [|split]].
  - unfold db_at. by rewrite (store_snoc_self _ _ _ _ _ _ Hq).
  - intros name o Ho. by apply (lookup_weaken _ _ _ _ Ho Hsub).
  - exact Hseq.
  - intros n Hn. apply Hout. by rewrite schema_names.
Qed.

Lemma existing_objects_kept_witness :
  exists d',
    db_at (fs (snd (initialize_database default_db_path w_index))) default_db_path
    = Some d'
    /\ (forall name o,
          objects (Database {[ "notes" := ObjTable (Table [Col "body" "TEXT" []] [] []);
                               "tasks" := ObjIndex "notes" ]} ∅) !! name = Some o ->
          objects d' !! name = Some o)
    /\ sqlite_sequence d' = sqlite_sequence
         (Database {[ "notes" := ObjTable (Table [Col "body" "TEXT" []] [] []);
                      "tasks" := ObjIndex "notes" ]} ∅)
    /\ (forall n, n ∉ table_names ->
          objects d' !! n
          = objects (Database {[ "notes" := ObjTable (Table [Col "body" "TEXT" []] [] []);
                                 "tasks" := ObjIndex "notes" ]} ∅) !! n).
Proof.
  apply (existing_objects_kept default_db_path w_index).
  vm_compute. reflexivity.
Defined.

(** ** Where a call stops *)

(** X5.  The statements run in the order of the source and the first that
    fails ends the call.  When the first of the five names that an index
    uses is that of statement [s], in a writable directory, the call raises
    the engine's error for that name; the tables of the statements before
    [s] are in the file (they are not rolled back), the names of the
    statements after [s] are as they were, and nothing the file held is
    gone. *)
Theorem first_index_stops (q : path) (x : string) (es : gmap string node)
    (d : database) (w : world) (pre post : list stmt) (s : stmt) (on : string) :
  q <> [] ->
  resolve (fs w) q = inr (Dir true es) -> es !! x = Some (File (Db d)) ->
  schema = pre ++ s :: post ->
  Forall (fun s' => no_index d (stmt_name s') = true) pre ->
  objects d !! stmt_name s = Some (ObjIndex on) ->
  fst (initialize_database (q ++ [x]) w)
  = Raised (OperationalError ("there is already an index named " +:+ stmt_name s))
  /\ exists d',
       db_at (fs (snd (initialize_database (q ++ [x]) w))) (q ++ [x]) = Some d'
       /\ (forall s', s' ∈ pre -> name_taken d' (stmt_name s') = true)
       /\ (forall s', s' ∈ post ->
             objects d' !! stmt_name s' = objects d !! stmt_name s')
       /\ (forall name o, objects d !! name = Some o -> objects d' !! name = Some o).
Proof.
  intros Hne Hq Hx Hsch Hpre Hidx.
  pose proof schema_sound as Hsound. pose proof schema_names_NoDup as Hnd.
  rewrite Hsch in Hsound, Hnd.
  rewrite forallb_app in Hsound. apply andb_true_iff in Hsound as [Hs1 Hs2].
  simpl in Hs2. apply andb_true_iff in Hs2 as [Hs _].
  rewrite map_app in Hnd. apply NoDup_app in Hnd as (Hnd1 & Hdisj & _).
  destruct (exec_all_creates_ok (clock w) pre d Hs1 Hpre) as (d1 & E1).
  destruct (exec_all_creates_spec _ _ _ _ _ _ Hs1 Hnd1 E1)
    as (Hsub & _ & Hout & Hin).
  rewrite (init_on_database _ _ _ _ _ _ Hne Hq Hx), Hsch, exec_all_app, E1.
  rewrite exec_all_cons, (exec_checked_sound_create _ _ _ _ _ Hs).
  rewrite (lookup_weaken _ _ _ _ Hidx Hsub).
  unfold left_by. simpl. split; [done|].
  exists d1. split; [|split; [|split]].
  - unfold db_at. by rewrite (store_snoc_self _ _ _ _ _ _ Hq).
  - intros s' Hs'. by destruct (Hin eq_refl s' Hs').
  - intros s' Hs'. apply Hout. intros Hin'.
    apply (Hdisj _ Hin'). simpl. right. by apply list_elem_of_fmap_2.
  - intros name o Ho. by apply (lookup_weaken _ _ _ _ Ho Hsub).
Qed.

Lemma first_index_stops_witness :
  fst (initialize_database (["data"] ++ ["nexus.db"]) w_index)
  = Raised (OperationalError
              ("there is already an index named " +:+ stmt_name create_tasks))
  /\ exists d',
       db_at (fs (snd (initialize_database (["data"] ++ ["nexus.db"]) w_index)))
             (["data"] ++ ["nexus.db"]) = Some d'
       /\ (forall s', s' ∈ [create_goals] -> name_taken d' (stmt_name s') = true)
       /\ (forall s', s' ∈ [create_daily_logs; create_calendar_events; create_patterns] ->
             objects d' !! stmt_name s'
             = objects (Database {[ "notes" := ObjTable (Table [Col "body" "TEXT" []] [] []);
                                    "tasks" := ObjIndex "notes" ]} ∅) !! stmt_name s')
       /\ (forall name o,
             objects (Database {[ "notes" := ObjTable (Table [Col "body" "TEXT" []] [] []);
                                  "tasks" := ObjIndex "notes" ]} ∅) !! name = Some o ->
             objects d' !! name = Some o).
Proof.
  apply (first_index_stops ["data"] "nexus.db"
           {[ "nexus.db" := File (Db (Database
                {[ "notes" := ObjTable (Table [Col "body" "TEXT" []] [] []);
                   "tasks" := ObjIndex "notes" ]} ∅)) ]}
           (Database {[ "notes" := ObjTable (Table [Col "body" "TEXT" []] [] []);
                        "tasks" := ObjIndex "notes" ]} ∅)
           w_index [create_goals]
           [create_daily_logs; create_calendar_events; create_patterns]
           create_tasks "notes").
  - discriminate.
  - vm_compute. reflexivity.
  - vm_compute. reflexivity.
  - reflexivity.
  - repeat constructor.
  - vm_compute. reflexivity.
Defined.

(** X6.  In a directory the process may not write to, on a file that holds
    a database (in the rollback-journal mode, as every database here) with
    no index under the five names and no journal or log of the engine
    beside it: the call returns exactly when all five names are in use, and
    otherwise raises the engine's read-only error at the first name that is
    free.  Either way the file is as it was; the connection is closed in
    the first case and left open in the second. *)
Theorem readonly_directory (q : path) (x : string) (es : gmap string node)
    (d : database) (w : world) :
  q <> [] ->
  resolve (fs w) q = inr (Dir false es) -> es !! x = Some (File (Db d)) ->
  no_sidecars (fs w) (q ++ [x]) = true ->
  forallb (no_index d) table_names = true ->
  initialize_database (q ++ [x]) w
  = (if forallb (name_taken d) table_names then Returned tt
     else Raised readonly_database,
     with_conns w
       (conns w ++ [Connection (q ++ [x])
                      (negb (forallb (name_taken d) table_names)) false])).
Proof.
  intros Hne Hq Hx _ Hni.
  rewrite (init_on_database _ _ _ _ _ _ Hne Hq Hx).
  rewrite (exec_all_creates_readonly _ _ _ schema_sound (schema_no_index _ Hni)).
  change (forallb (fun s => name_taken d (stmt_name s)) schema)
    with (forallb (name_taken d) table_names).
  generalize (forallb (name_taken d) table_names). intros b.
  unfold left_by, put_db, with_fs, with_conns. simpl.
  rewrite (store_snoc_id _ _ _ _ _ _ Hq Hx), insert_new_connection.
  by destruct b.
Qed.

Lemma readonly_directory_witness :
  initialize_database (["data"] ++ ["nexus.db"])
    (World (Dir true {[ "data" := Dir false {[ "nexus.db" := File (Db d_one_goal) ]} ]})
           [] [] "")
  = (if forallb (name_taken d_one_goal) table_names then Returned tt
     else Raised readonly_database,
     with_conns
       (World (Dir true {[ "data" := Dir false {[ "nexus.db" := File (Db d_one_goal) ]} ]})
              [] [] "")
       (conns (World (Dir true {[ "data" := Dir false {[ "nexus.db" := File (Db d_one_goal) ]} ]})
                     [] [] "")
        ++ [Connection (["data"] ++ ["nexus.db"])
              (negb (forallb (name_taken d_one_goal) table_names)) false])).
Proof.
  apply (readonly_directory ["data"] "nexus.db"
           {[ "nexus.db" := File (Db d_one_goal) ]} d_one_goal).
  - discriminate.
  - vm_compute. reflexivity.
  - vm_compute. reflexivity.
  - vm_compute. reflexivity.
  - vm_compute. reflexivity.
Defined.

(** The two cases, on data/nexus.db in a directory without write
    permission: a file with the five tables, a file with one table. *)
Example readonly_directory_cases :
  fst (initialize_database default_db_path
         (World (Dir true {[ "data" := Dir false
                   {[ "nexus.db" := File (Db d_one_goal) ]} ]}) [] [] ""))
  = Returned tt
  /\ fst (initialize_database default_db_path
            (World (Dir true {[ "data" := Dir false
                      {[ "nexus.db" := File (Db (Database
                           {[ "goals" := ObjTable other_goals ]} ∅)) ]} ]})
                   [] [] ""))
     = Raised readonly_database.
Proof. vm_compute. by split. Qed.

(** X7.  A file that is there and is not a database (two bytes or more
    that do not begin with the header of one), with no journal or log of
    the engine beside it: the connect goes through, the first statement
    raises sqlite3.DatabaseError, the file and the rest of the tree are as
    they were, and the connection is left open. *)
Theorem not_a_database (q : path) (x : string) (wr : bool)
    (es : gmap string node) (w : world) :
  q <> [] ->
  resolve (fs w) q = inr (Dir wr es) -> es !! x = Some (File Garbage) ->
  no_sidecars (fs w) (q ++ [x]) = true ->
  initialize_database (q ++ [x]) w
  = (Raised (DatabaseError "file is not a database"),
     with_conns w (conns w ++ [Connection (q ++ [x]) true false])).
Proof.
  intros Hne Hq Hx _. rewrite (init_makedirs_returned _ w w).
  - rewrite bind_unfold, (connect_existing _ _ _ _ _ _ Hq Hx).
    unfold open_connection at 1. cbv beta iota.
    eapply after_connect_garbage; [|exact Hq|exact Hx].
    apply lookup_new_connection.
  - rewrite dirname_snoc. apply makedirs_existing. by eapply isdir_at_resolved.
Qed.

Lemma not_a_database_witness :
  initialize_database (["data"] ++ ["nexus.db"]) w_garbage
  = (Raised (DatabaseError "file is not a database"),
     with_conns w_garbage
       (conns w_garbage ++ [Connection (["data"] ++ ["nexus.db"]) true false])).
Proof.
  apply (not_a_database ["data"] "nexus.db" true {[ "nexus.db" := File Garbage ]}).
  - discriminate.
  - vm_compute. reflexivity.
  - vm_compute. reflexivity.
  - vm_compute. reflexivity.
Defined.

(** X8.  A path that cannot be opened: it names a directory, or it names
    nothing in a directory the process may not write to.  The connect
    raises sqlite3.OperationalError, no file is made, no connection is
    opened: the environment is as it was. *)
Theorem cannot_open (q : path) (x : string) (wr : bool)
    (es : gmap string node) (w : world) :
  q <> [] ->
  resolve (fs w) q = inr (Dir wr es) ->
  (exists wr' es', es !! x = Some (Dir wr' es')) \/ (es !! x = None /\ wr = false) ->
  initialize_database (q ++ [x]) w = (Raised unable_to_open, w).
Proof.
  intros Hne Hq Hcase. rewrite (init_makedirs_returned _ w w).
  2:{ rewrite dirname_snoc. apply makedirs_existing. by eapply isdir_at_resolved. }
  rewrite bind_unfold.
  destruct (connect_cases (q ++ [x]) w)
    as [->|(q1 & x1 & wr1 & es1 & E1 & Hq1 & Hc)]; [done|].
  apply app_inj_tail in E1 as [<- <-]. rewrite Hq in Hq1. injection Hq1 as <- <-.
  exfalso.
  destruct Hcase as [(wr' & es' & Hx)|[Hx ->]];
    destruct Hc as [(c & Hc & _)|(? & Hc & _)]; congruence.
Qed.

Lemma cannot_open_witness :
  initialize_database (["data"] ++ ["nexus.db"])
    (World (Dir true {[ "data" := Dir false ∅ ]}) [] [] "")
  = (Raised unable_to_open, World (Dir true {[ "data" := Dir false ∅ ]}) [] [] "").
Proof.
  apply (cannot_open ["data"] "nexus.db" false ∅).
  - discriminate.
  - vm_compute. reflexivity.
  - right. split; [apply lookup_empty|reflexivity].
Defined.

(** ** What a call leaves alone *)

Lemma touches_only_refl p n : touches_only p n n.
Proof.
  intros p'. split; [done|]. split; [eauto|]. intros e m H1 H2. congruence.
Qed.

Lemma touches_only_trans p n1 n2 n3 :
  touches_only p n1 n2 -> touches_only p n2 n3 -> touches_only p n1 n3.
Proof.
  intros H12 H23 p'. destruct (H12 p') as (A1 & B1 & C1).
  destruct (H23 p') as (A2 & B2 & C2). split; [|split].
  - intros c H Hne. apply A2; [|done]. by apply A1.
  - intros wr es H. destruct (B1 _ _ H) as (es' & H'). by apply (B2 _ _ H').
  - intros e m H1 H3. destruct (resolve n2 p') as [e2|m2] eqn:E2.
    + by eapply C2.
    + by eapply C1.
Qed.

Lemma resolve_leaf new y r m :
  is_leaf new = true -> resolve new (y :: r) = inr m -> False.
Proof.
  destruct new as [c|wr es]; simpl; [done|].
  intros H. apply bool_decide_eq_true_1 in H. subst es.
  by rewrite lookup_empty.
Qed.

(** Putting a leaf at a free name, or a regular file in the place of
    one. *)
Lemma store_touches n q x k wr es new :
  resolve n q = inr (Dir wr es) ->
  is_leaf new = true ->
  es !! x = None
  \/ (k = [] /\ exists c0 c1, es !! x = Some (File c0) /\ new = File c1) ->
  touches_only (q ++ x :: k) n (store n (q ++ [x]) new).
Proof.
  intros Hq Hleaf Hx. revert n Hq.
  induction q as [|y q IH]; intros n Hq.
  - simpl in Hq. injection Hq as ->.
    assert (Hs : store (Dir wr es) ([] ++ [x]) new = Dir wr (<[x := new]> es)).
    { simpl. by destruct (es !! x). }
    rewrite Hs. clear Hs. intros [|z r].
    { simpl. split; [done|]. split; [|done]. intros ? ? [= <- <-]. eauto. }
    cbn [resolve app].
    destruct (decide (z = x)) as [->|Hzx].
    + rewrite lookup_insert_eq. destruct r as [|z' r'].
      * destruct Hx as [Hx|(-> & c0 & c1 & Hx & ->)]; rewrite Hx; simpl.
        -- split; [done|]. split; [done|]. intros _ _ _ _. by exists k.
        -- split; [done|]. split; [done|]. done.
      * destruct Hx as [Hx|(-> & c0 & c1 & Hx & ->)]; rewrite Hx;
          (split; [done|]; split; [done|]); intros e m _ H; exfalso;
          by eapply (resolve_leaf _ z' r' m).
    + rewrite lookup_insert_ne by done.
      split; [done|]. split; [eauto|]. intros e m H1 H2. congruence.
  - destruct n as [c|w0 es0]; [done|]. simpl in Hq.
    destruct (es0 !! y) as [c|] eqn:Ey; [|done].
    specialize (IH c Hq).
    assert (Hs : store (Dir w0 es0) ((y :: q) ++ [x]) new
                 = Dir w0 (<[y := store c (q ++ [x]) new]> es0)).
    { simpl. by rewrite Ey. }
    rewrite Hs. clear Hs. intros [|z r].
    { simpl. split; [done|]. split; [|done]. intros ? ? [= <- <-]. eauto. }
    cbn [resolve].
    destruct (decide (z = y)) as [->|Hzy].
    + rewrite lookup_insert_eq, Ey. destruct (IH r) as (A & B & C).
      split; [|split].
      * intros c' H Hne. apply A; [done|]. intros ->. by apply Hne.
      * exact B.
      * intros e m H1 H2. simpl. apply prefix_cons. by eapply C.
    + rewrite lookup_insert_ne by done.
      split; [done|]. split; [eauto|]. intros e m H1 H2. congruence.
Qed.

(** The last three lines of [os.makedirs]: nothing changes, or the
    directory is made at a free name of a directory that is there. *)
Lemma mkdir_unless_isdir_fs name w :
  snd (mkdir_unless_isdir name true w) = w
  \/ exists q x es,
       name = q ++ [x] /\ resolve (fs w) q = inr (Dir true es) /\ es !! x = None
       /\ snd (mkdir_unless_isdir name true w)
          = with_fs w (store (fs w) name (Dir true ∅)).
Proof.
  destruct name as [|x q _] using rev_ind; [by left|].
  pose proof (mkdir_unless_isdir_spec q x w) as H.
  destruct (mkdir_unless_isdir (q ++ [x]) true w) as [[[]|e] w'].
  - destruct H as [[_ ->]|(Hex & Hw & -> & _)]; [by left|]. right.
    unfold dir_writable in Hw.
    destruct (resolve (fs w) q) as [|[|[] es]] eqn:Hq; try done.
    exists q, x, es. split; [done|]. split; [done|]. split; [|done].
    rewrite exists_at_snoc, (resolve_snoc_dir _ _ _ _ _ Hq) in Hex.
    by destruct (es !! x).
  - destruct H as (-> & _). by left.
Qed.

Lemma mkdir_unless_isdir_touches name k w :
  touches_only (name ++ k) (fs w) (fs (snd (mkdir_unless_isdir name true w))).
Proof.
  destruct (mkdir_unless_isdir_fs name w)
    as [->|(q & x & es & -> & Hq & Hx & ->)]; [apply touches_only_refl|].
  rewrite <- app_assoc. simpl. eapply store_touches; [exact Hq|done|by left].
Qed.

Lemma makedirs_rev_touches rname k w :
  touches_only (rev rname ++ k) (fs w) (fs (snd (makedirs_rev rname true w))).
Proof.
  revert k w. induction rname as [|t rhead IH]; intros k w.
  - apply touches_only_refl.
  - destruct rhead as [|t' rh].
    + change (makedirs_rev [t] true w) with (mkdir_unless_isdir [t] true w).
      apply (mkdir_unless_isdir_touches [t]).
    + rewrite makedirs_rev_unfold.
      set (head := rev (t' :: rh)) in *.
      change (rev (t :: t' :: rh)) with (head ++ [t]).
      rewrite bind_unfold, bind_unfold. unfold os_path_exists at 1.
      destruct (exists_at (fs w) head); simpl.
      * unfold pass. simpl. apply mkdir_unless_isdir_touches.
      * unfold try_except at 1. specialize (IH ([t] ++ k) w).
        rewrite app_assoc in IH.
        destruct (makedirs_rev (t' :: rh) true w) as [[[]|e] w1].
        -- cbv beta iota. eapply touches_only_trans; [exact IH|].
           apply mkdir_unless_isdir_touches.
        -- assert (Hp : raise e w1 = (@Raised unit e, w1)) by done.
           destruct e; cbv beta iota; rewrite ?Hp; try exact IH.
           unfold pass. simpl.
           eapply touches_only_trans; [exact IH|].
           apply mkdir_unless_isdir_touches.
Qed.

(** The call as a whole. *)
Lemma init_touches p w :
  touches_only p (fs w) (fs (snd (initialize_database p w))).
Proof.
  destruct p as [|x q _] using rev_ind.
  { rewrite init_no_directory_part by done. apply touches_only_refl. }
  pose proof (makedirs_rev_touches (rev q) [x] w) as Hm.
  rewrite rev_involutive in Hm. fold (os_makedirs q true w) in Hm.
  destruct (os_makedirs q true w) as [[[]|e] w0] eqn:Em.
  2:{ erewrite init_makedirs_raised; [exact Hm|]. by rewrite dirname_snoc. }
  rewrite (init_makedirs_returned _ w w0) by (by rewrite dirname_snoc).
  eapply touches_only_trans; [exact Hm|]. simpl. clear Hm Em.
  destruct (connect_cases (q ++ [x]) w0)
    as [Ec|(q1 & x1 & wr & es & E1 & Hq & Hcase)].
  { rewrite bind_unfold, Ec. apply touches_only_refl. }
  apply app_inj_tail in E1 as [<- <-].
  destruct Hcase as [([|d] & Hx & _)|(-> & Hx & _)].
  - rewrite bind_unfold, (connect_existing _ _ _ _ _ _ Hq Hx).
    unfold open_connection at 1. cbv beta iota.
    erewrite after_connect_garbage; [apply touches_only_refl| |exact Hq|exact Hx].
    apply lookup_new_connection.
  - rewrite (rest_on_database _ _ _ _ _ _ Hq Hx). unfold left_by. simpl.
    eapply store_touches; [exact Hq|done|]. right. split; [done|]. eauto.
  - rewrite (rest_new_file _ _ _ _ Hq Hx). simpl.
    eapply store_touches; [exact Hq|done|by left].
Qed.

(** X9.  What a call leaves alone, whether it returns or raises.  A
    regular file other than the one at the path and the engine's own files
    beside it (its journal, its write-ahead log and the index of the log)
    keeps its content; a directory stays a directory, with the permission
    it had; a name that was not there and is there afterwards is the path,
    a directory on the way to it, or one of the engine's files.  What was
    printed and the clock are as they were, and the connections there were
    are as they were: the call adds at most its own. *)
Theorem rest_untouched (p p' : path) (w : world) :
  (forall c, resolve (fs w) p' = inr (File c) ->
             p' <> p -> p' ∉ sidecars p ->
             resolve (fs (snd (initialize_database p w))) p' = inr (File c))
  /\ (forall wr es, resolve (fs w) p' = inr (Dir wr es) ->
        exists es',
          resolve (fs (snd (initialize_database p w))) p' = inr (Dir wr es'))
  /\ (forall e m, resolve (fs w) p' = inl e ->
        resolve (fs (snd (initialize_database p w))) p' = inr m ->
        p' `prefix_of` p \/ p' ∈ sidecars p)
  /\ stdout (snd (initialize_database p w)) = stdout w
  /\ clock (snd (initialize_database p w)) = clock w
  /\ conns w `prefix_of` conns (snd (initialize_database p w)).
Proof.
  destruct (init_touches p w p') as (A & B & C).
  split; [intros c Hc Hne _; by apply A|]. split; [exact B|].
  split; [intros e m H1 H2; left; by apply (C e m)|].
  pose proof (init_outcome p w) as H.
  destruct (initialize_database p w) as [[[]|e] w']; simpl.
  - destruct H as (-> & -> & ->). split; [done|]. split; [done|].
    by apply prefix_app_r.
  - destruct H as ([-> | ->] & -> & ->); (split; [done|]; split; [done|]).
    + done.
    + by apply prefix_app_r.
Qed.

(** A file beside the database, and one elsewhere, through a call that
    makes three of the five tables. *)
Example neighbours_untouched :
  let w := World (Dir true {[ "data" := Dir true
                     {[ "nexus.db" := File (Db d_one_goal);
                        "notes.txt" := File Garbage ]};
                   "README" := File Garbage ]}) [] [] "" in
  resolve (fs (snd (initialize_database default_db_path w))) ["data"; "notes.txt"]
  = inr (File Garbage)
  /\ resolve (fs (snd (initialize_database default_db_path w))) ["README"]
     = inr (File Garbage).
Proof. vm_compute. by split. Qed.

(** ** The script, run again *)

(** X11.  The script can be run again.  After a run that exited with
    status 0, a second run on what the first left exits with status 0 too,
    prints the confirmation once more and leaves the directory tree, hence
    the database, as the first run left it. *)
Theorem script_rerun (w : world) :
  exit_status (run_script main w) = 0 ->
  exit_status (run_script main (final (run_script main w))) = 0
  /\ traceback (run_script main (final (run_script main w))) = None
  /\ out_lines (run_script main (final (run_script main w)))
     = stdout w ++ [confirmation; confirmation]
  /\ fs (final (run_script main (final (run_script main w))))
     = fs (final (run_script main w)).
Proof.
  pose proof (init_outcome default_db_path w) as Ho.
  destruct (initialize_database default_db_path w) as [[[]|e] w1] eqn:E1.
  2:{ unfold run_script, main. by rewrite bind_unfold, E1. }
  intros _. destruct Ho as (_ & Hout & _).
  assert (R1 : run_script main w
               = Process 0 (stdout w ++ [confirmation]) None
                   (World (fs w1) (conns w1) (stdout w ++ [confirmation])
                          (clock w1))).
  { unfold run_script, main. rewrite bind_unfold, E1. unfold print. simpl.
    by rewrite Hout. }
  rewrite R1. cbn [final].
  unfold run_script, main. rewrite bind_unfold.
  rewrite (init_after_return _ _ _
             (World (fs w1) (conns w1) (stdout w ++ [confirmation]) (clock w1))
             E1 eq_refl).
  simpl. by rewrite <- app_assoc.
Qed.

Lemma script_rerun_witness :
  exit_status (run_script main (final (run_script main w_empty))) = 0
  /\ traceback (run_script main (final (run_script main w_empty))) = None
  /\ out_lines (run_script main (final (run_script main w_empty)))
     = stdout w_empty ++ [confirmation; confirmation]
  /\ fs (final (run_script main (final (run_script main w_empty))))
     = fs (final (run_script main w_empty)).
Proof. apply (script_rerun w_empty). vm_compute. reflexivity. Defined.

(** ** The declared columns, on any client *)

Lemma schema_not_null_column s k :
  s ∈ schema -> (stmt_name s, k) ∈ not_null_columns s ->
  exists c,
    In c (tbl_cols (table_of s)) /\ col_name c = k
    /\ col_notnull c = true /\ col_autoinc c = false /\ col_default c = None
    /\ fold_name k = k.
Proof.
  unfold schema. rewrite !elem_of_cons, elem_of_nil.
  intros [->|[->|[->|[->|[->|[]]]]]] H; apply list_elem_of_In in H; simpl in H;
    repeat (destruct H as [[= <-]|H]); try done.
  - exists (Col "title" "TEXT" [NOT_NULL]). simpl. auto 10.
  - exists (Col "title" "TEXT" [NOT_NULL]). simpl. auto 10.
  - exists (Col "date" "DATE" [NOT_NULL]). simpl. auto 10.
Qed.

(** X12.  A NOT NULL column cannot be left out.  In a database with the
    five declarations, an INSERT into one of the tables that gives no
    value other than NULL to a column the source declares NOT NULL
    (goals.title, tasks.title, daily_logs.date), under whatever spelling of
    the column's name, is refused, whatever else it gives and whatever the
    foreign_keys pragma; the database is as it was. *)
Theorem mandatory_column_refused (d : database) (s : stmt) (fk : bool)
    (now : string) (vals : gmap string value) (k : string) :
  schema_of d = schema_of fresh_db ->
  s ∈ schema ->
  (stmt_name s, k) ∈ not_null_columns s ->
  (forall k' v, vals !! k' = Some v -> fold_name k' = k -> v = VNull) ->
  (exists e, exec_insert fk now (stmt_name s) vals d = inl e)
  /\ after d (Step fk now (INSERT_INTO (stmt_name s) vals)) = d.
Proof.
  intros Hs Hin Hk Hv.
  assert (H : exists e, exec_insert fk now (stmt_name s) vals d = inl e).
  { destruct (same_schema_declared d s Hs Hin) as (rows & Ht).
    destruct (schema_not_null_column s k Hin Hk)
      as (c & Hc & <- & Hn & Ha & Hd & Hfold).
    assert (Hcell : cell_of now vals c = VNull).
    { unfold cell_of. rewrite Hd.
      destruct (vals !! col_name c) as [v|] eqn:E; [|done].
      by apply (Hv _ _ E). }
    assert (Hf : forallb (not_null_ok now vals) (tbl_cols (table_of s)) = false).
    { apply not_true_iff_false. intros Hall.
      pose proof (proj1 (forallb_forall _ _) Hall c Hc) as Hok.
      unfold not_null_ok in Hok. by rewrite Ha, Hn, Hcell in Hok. }
    unfold exec_insert. rewrite Ht. cbn [tbl_cols tbl_rows tbl_cons].
    destruct (negb (keys_known _ vals)); [eauto|].
    match goal with
    | |- context [match ?ch with inl e => inl e | inr id => _ end] =>
        destruct ch as [e|id]; [eauto|]
    end.
    rewrite Hf. simpl. eauto. }
  split; [exact H|]. destruct H as (e & H).
  unfold after, exec_stmt. cbn [step_fk step_now step_stmt]. by rewrite H.
Qed.

Lemma mandatory_column_refused_witness :
  (exists e, exec_insert true "2026-11-03 11:10:14" (stmt_name create_goals)
               {[ "title" := VNull; "priority" := VInt 1 ]} d_one_goal = inl e)
  /\ after d_one_goal
       (Step true "2026-11-03 11:10:14"
          (INSERT_INTO (stmt_name create_goals)
             {[ "title" := VNull; "priority" := VInt 1 ]}))
     = d_one_goal.
Proof.
  apply (mandatory_column_refused d_one_goal create_goals true
           "2026-11-03 11:10:14" {[ "title" := VNull; "priority" := VInt 1 ]}
           "title").
  - vm_compute. reflexivity.
  - unfold schema. set_solver.
  - apply list_elem_of_In. simpl. auto.
  - intros k' v Hl Hf.
    apply lookup_insert_Some in Hl as [[_ <-]|[_ Hl]]; [reflexivity|].
    apply lookup_singleton_Some in Hl as [<- _]. vm_compute in Hf. discriminate Hf.
Defined.

(** The message is the engine's: it names the table and the column. *)
Example mandatory_column_message :
  exec_insert false "" "goals" {[ "priority" := VInt 1 ]} fresh_db
  = inl (IntegrityError "NOT NULL constraint failed: goals.title")
  /\ exec_insert false "" "goals" {[ "id" := VInt 1; "title" := VText "again" ]}
       d_one_goal
     = inl (IntegrityError "UNIQUE constraint failed: goals.id")
  /\ exec_insert false "" "goals" {[ "id" := VInt 1 ]} d_one_goal
     = inl (IntegrityError "NOT NULL constraint failed: goals.title")
  /\ exec_insert false "" "goals" {[ "colour" := VText "red" ]} fresh_db
     = inl (OperationalError "table goals has no column named colour").
Proof. vm_compute. by repeat split. Qed.

(** ** Row ids *)

Lemma NoDup_map_filter {A B : Type} (f : A -> B) (P : A -> bool) (l : list A) :
  NoDup (map f l) -> NoDup (map f (List.filter P l)).
Proof.
  induction l as [|a l IH]; simpl; [done|].
  intros H. apply NoDup_cons in H as [Ha Hl].
  destruct (P a); simpl; [|by apply IH].
  apply NoDup_cons. split; [|by apply IH].
  intros Hin. apply Ha. apply list_elem_of_In in Hin.
  apply in_map_iff in Hin as (b & <- & Hb). apply filter_In in Hb as [Hb _].
  apply list_elem_of_In. by apply in_map.
Qed.

Lemma rows_of_insert objs seq name t n :
  rows_of (Database (<[name := ObjTable t]> objs) seq) n
  = if bool_decide (name = n) then tbl_rows t
    else rows_of (Database objs seq) n.
Proof.
  unfold rows_of. simpl. case_bool_decide as E.
  - subst n. by rewrite lookup_insert_eq.
  - by rewrite lookup_insert_ne.
Qed.

(** No statement gives two rows of a table the same rowid. *)
Lemma rowids_distinct_exec fk now st d d' o :
  (forall n, NoDup (map rowid (rows_of d n))) ->
  exec_stmt fk now st d = inr (d', o) ->
  forall n, NoDup (map rowid (rows_of d' n)).
Proof.
  intros Hd. unfold exec_stmt.
  destruct st as [ine name cols fks|name vals|name i|b].
  - unfold exec_create.
    destruct (objects d !! name) as [[t|on|]|] eqn:E; try done.
    + destruct ine; [|done]. by intros [= <- _].
    + destruct ine; [|done]. by intros [= <- _].
    + destruct (well_formed_decl cols fks); [|done]. intros [= <- _] n.
      rewrite rows_of_insert. case_bool_decide; [constructor|].
      specialize (Hd n). by destruct d.
  - intros H. apply exec_insert_inv in H as (t & id & Ht & _ & -> & Hid) .
    intros n. rewrite rows_of_insert. case_bool_decide as En.
    + subst n. cbn [tbl_rows]. rewrite map_app. simpl.
      specialize (Hd name). unfold rows_of in Hd. rewrite Ht in Hd.
      apply NoDup_app. split; [done|]. split; [|apply NoDup_singleton].
      intros j Hj Hj'. apply list_elem_of_singleton in Hj'. subst j.
      apply list_elem_of_fmap in Hj as (r & Hr & Hin).
      by apply (inserted_rowid_new _ _ _ _ _ Hid r Hin).
    + specialize (Hd n). unfold rows_of in *. by simpl.
  - intros H. apply exec_delete_inv in H as (t & Ht & _ & ->).
    intros n. rewrite rows_of_insert. case_bool_decide as En.
    + subst n. cbn [tbl_rows]. apply NoDup_map_filter.
      specialize (Hd name). unfold rows_of in Hd. by rewrite Ht in Hd.
    + specialize (Hd n). unfold rows_of in *. by simpl.
  - by intros [= <- _].
Qed.

Lemma fresh_db_no_rows n : rows_of fresh_db n = [].
Proof.
  unfold rows_of.
  destruct (objects fresh_db !! n) as [[t| |]|] eqn:E; try done.
  unfold fresh_db in E. simpl in E.
  repeat (apply lookup_insert_Some in E as [[_ E]|[_ E]]; [by injection E as <-|]).
  by rewrite lookup_empty in E.
Qed.

(** X13.  Row ids stay distinct.  In a database where no table has two
    rows with the same rowid, whatever statements clients run, on whatever
    connections, no table ever has two rows with the same rowid: the id
    INTEGER PRIMARY KEY of the five tables identifies a row. *)
Theorem rowids_distinct (d : database) (steps : list step) (name : string) :
  (forall n, NoDup (map rowid (rows_of d n))) ->
  NoDup (map rowid (rows_of (run steps d) name)).
Proof.
  intros Hd. revert d Hd. unfold run.
  induction steps as [|st steps IH]; intros d Hd; simpl; [apply Hd|].
  apply IH. unfold after.
  destruct (exec_stmt _ _ _ d) as [e|[d' o]] eqn:E; [exact Hd|].
  by eapply rowids_distinct_exec.
Qed.

Lemma rowids_distinct_witness :
  NoDup (map rowid
           (rows_of (run (two_goals
                          ++ [Step false "2026-11-03 11:10:16" (DELETE_FROM "goals" 1);
                              Step false "2026-11-03 11:10:17"
                                (INSERT_INTO "goals" {[ "id" := VInt 1;
                                                        "title" := VText "again" ]})])
                         fresh_db) "goals")).
Proof.
  apply (rowids_distinct fresh_db).
  intros n. rewrite fresh_db_no_rows. simpl. constructor.
Defined.



(** ** The foreign key, on a connection that asks for it *)

Lemma goals_id_value rows r :
  column_value (Table (tbl_cols (table_of create_goals))
                      (tbl_cons (table_of create_goals)) rows) r "id"
  = VInt (rowid r).
Proof. reflexivity. Qed.

Lemma tasks_goal_id_value rows id now vals :
  column_value (Table (tbl_cols (table_of create_tasks))
                      (tbl_cons (table_of create_tasks)) rows)
               (Row id (new_cells now vals (table_of create_tasks))) "goal_id"
  = default VNull (vals !! "goal_id").
Proof.
  etrans; [apply (column_value_plain _ _ (Col "goal_id" "INTEGER" []))|].
  - apply (schema_NoDup create_tasks). unfold schema. set_solver.
  - apply list_elem_of_In. simpl. auto.
  - reflexivity.
  - assert (E : new_cells now vals (table_of create_tasks) !! "goal_id"
                = Some (cell_of now vals (Col "goal_id" "INTEGER" []))).
    { apply (new_cells_lookup now vals (table_of create_tasks)
               (Col "goal_id" "INTEGER" [])).
      - apply (schema_NoDup create_tasks). unfold schema. set_solver.
      - apply list_elem_of_In. simpl. auto.
      - reflexivity. }
    cbn [cells col_name]. rewrite E.
    unfold cell_of. simpl. by destruct (vals !! "goal_id").
Qed.

(** X15.  The foreign key the source declares on tasks.goal_id is policed
    on a connection that has set PRAGMA foreign_keys = ON: in a database
    with the five declarations, an INSERT of a task whose goal_id is the id
    of no row of goals is refused, and the database is as it was. *)
Theorem foreign_key_policed (d : database) (now : string)
    (vals : gmap string value) (g : Z) :
  schema_of d = schema_of fresh_db ->
  vals !! "goal_id" = Some (VInt g) ->
  (forall r, r ∈ rows_of d "goals" -> rowid r <> g) ->
  (exists e, exec_insert true now "tasks" vals d = inl e)
  /\ after d (Step true now (INSERT_INTO "tasks" vals)) = d.
Proof.
  intros Hs Hv Hg.
  assert (H : exists e, exec_insert true now "tasks" vals d = inl e).
  { destruct (same_schema_declared d create_tasks Hs) as (rows & Ht);
      [unfold schema; set_solver|].
    destruct (same_schema_declared d create_goals Hs) as (grows & Hgt);
      [unfold schema; set_solver|].
    change (stmt_name create_tasks) with "tasks" in Ht.
    change (stmt_name create_goals) with "goals" in Hgt.
    unfold rows_of in Hg. rewrite Hgt in Hg. cbn [tbl_rows] in Hg.
    unfold exec_insert. rewrite Ht.
    destruct (negb (keys_known _ vals)); [eauto|].
    match goal with
    | |- context [match ?ch with inl e => inl e | inr id => _ end] =>
        destruct ch as [e|id]; [eauto|]
    end.
    destruct (negb (forallb _ _)); [eauto|].
    match goal with
    | |- exists e, (if ?c then _ else _) = inl e => destruct c; [eauto|]
    end.
    cbn [tbl_cols tbl_cons tbl_rows table_of create_tasks forallb].
    change (Table _ _ (rows ++ [Row id ?c]))
      with (Table (tbl_cols (table_of create_tasks))
                  (tbl_cons (table_of create_tasks)) (rows ++ [Row id c])).
    unfold fk_holds.
    change (new_cells now vals _)
      with (new_cells now vals (table_of create_tasks)).
    rewrite tasks_goal_id_value, Hv.
    change (default VNull (Some (VInt g))) with (VInt g). cbn [objects].
    rewrite lookup_insert_ne by done. rewrite Hgt. cbn [tbl_rows].
    assert (Hnone : existsb
              (fun pr => bool_decide
                 (column_value (Table (tbl_cols (table_of create_goals))
                                      (tbl_cons (table_of create_goals)) grows)
                               pr "id" = VInt g)) grows = false).
    { apply not_true_iff_false. intros Hex.
      apply existsb_exists in Hex as (pr & Hin & Hpr).
      apply bool_decide_eq_true_1 in Hpr. rewrite goals_id_value in Hpr.
      injection Hpr as Hpr. apply list_elem_of_In in Hin.
      by apply (Hg pr Hin). }
    rewrite Hnone. simpl. eauto. }
  split; [exact H|]. destruct H as (e & H).
  unfold after, exec_stmt. cbn [step_fk step_now step_stmt]. by rewrite H.
Qed.

Lemma foreign_key_policed_witness :
  (exists e, exec_insert true "2026-11-03 11:10:14" "tasks"
               {[ "goal_id" := VInt 777; "title" := VText "stray" ]} d_one_goal
             = inl e)
  /\ after d_one_goal
       (Step true "2026-11-03 11:10:14"
          (INSERT_INTO "tasks" {[ "goal_id" := VInt 777; "title" := VText "stray" ]}))
     = d_one_goal.
Proof.
  apply (foreign_key_policed d_one_goal "2026-11-03 11:10:14"
           {[ "goal_id" := VInt 777; "title" := VText "stray" ]} 777).
  - vm_compute. reflexivity.
  - vm_compute. reflexivity.
  - intros r Hr. apply list_elem_of_In in Hr. vm_compute in Hr.
    destruct Hr as [<-|[]]. vm_compute. discriminate.
Defined.
